(** * Verification of the two monitoring scripts

    [tools/ssl-cert-monitor.py] polls TLS endpoints for certificate expiry
    and optionally renews through certbot; [tools/system-monitor.py] samples
    host metrics and derives warnings.  Both scripts are embedded shallowly:
    Python dictionaries used as records become Rocq records (with [option]
    fields for keys that only one shape of the dictionary carries) or
    [gmap string pyval]; exceptions become the [res] error monad; calls that
    reach outside the process (sockets, subprocesses, files, the clock) are
    answered by a [World] and leave an [event] in a trace. *)

From Stdlib Require Import ZArith NArith Ascii String List Lia.
From Stdlib Require Import Floats.PrimFloat Uint63.
From stdpp Require Import gmap strings list pretty.

Open Scope Z_scope.

(** ** Python preliminaries *)

Module Py.

(** Exceptions of class [Exception].  [LibError cls msg] stands for an
    exception raised inside a library or by the operating system
    (socket.gaierror, TimeoutError, ssl.SSLError, FileNotFoundError,
    subprocess.TimeoutExpired, ...). *)
Inductive exn : Type :=
| KeyError (key : string)
| IndexError (msg : string)
| ValueError (msg : string)
| TypeError (msg : string)
| LibError (cls msg : string).

(** [str(e)]: a KeyError prints the repr of its key. *)
Definition str_exn (e : exn) : string :=
  match e with
  | KeyError key => "'" +:+ key +:+ "'"
  | IndexError msg | ValueError msg | TypeError msg => msg
  | LibError _ msg => msg
  end.

Inductive res (A : Type) : Type :=
| Ok (a : A)
| Raise (e : exn).
Arguments Ok {A} a.
Arguments Raise {A} e.

#[export] Instance res_ret : MRet res := fun _ a => Ok a.
#[export] Instance res_bind : MBind res := fun _ _ f m =>
  match m with
  | Ok a => f a
  | Raise e => Raise e
  end.

(** [d[key]] on a key that may be absent. *)
Definition getitem {A} (key : string) (o : option A) : res A :=
  match o with
  | Some a => Ok a
  | None => Raise (KeyError key)
  end.

(** [str(n)] for an [int]. *)
Definition str_int (n : Z) : string := pretty n.

(** Truthiness of a [str]. *)
Definition truthy_str (s : string) : bool :=
  match s with
  | EmptyString => false
  | _ => true
  end.

(** [dict(pairs)]: later pairs overwrite earlier ones. *)
Definition py_dict {V} (pairs : list (string * V)) : gmap string V :=
  foldl (fun m kv => <[kv.1 := kv.2]> m) ∅ pairs.

(** [xs[i]] on a list or tuple. *)
Definition index {A} (what : string) (xs : list A) (i : nat) : res A :=
  match xs !! i with
  | Some a => Ok a
  | None => Raise (IndexError (what +:+ " index out of range"))
  end.

(** [str.isspace] on the ASCII range: tab to carriage return, the four
    separators 0x1c-0x1f and the space. *)
Definition is_space (a : ascii) : bool :=
  let n := Ascii.N_of_ascii a in
  ((9 <=? n) && (n <=? 13) || (28 <=? n) && (n <=? 32))%N.

Definition newline : ascii := Ascii.ascii_of_N 10.

(** [s.split()] *)
Fixpoint split_ws_from (cur s : string) : list string :=
  match s with
  | EmptyString => if truthy_str cur then [cur] else []
  | String a s' =>
      if is_space a then
        if truthy_str cur then cur :: split_ws_from "" s' else split_ws_from "" s'
      else split_ws_from (cur +:+ String a "") s'
  end.
Definition split_ws (s : string) : list string := split_ws_from "" s.

(** [s.split(sep)] for a one-character separator. *)
Fixpoint split_on_from (sep : ascii) (cur s : string) : list string :=
  match s with
  | EmptyString => [cur]
  | String a s' =>
      if Ascii.eqb a sep then cur :: split_on_from sep "" s'
      else split_on_from sep (cur +:+ String a "") s'
  end.
Definition split_on (sep : ascii) (s : string) : list string :=
  split_on_from sep "" s.

(** [s.strip()] *)
Fixpoint lstrip (s : string) : string :=
  match s with
  | EmptyString => ""
  | String a s' => if is_space a then lstrip s' else s
  end.
Fixpoint rstrip (s : string) : string :=
  match s with
  | EmptyString => ""
  | String a s' =>
      let r := rstrip s' in
      if is_space a && negb (truthy_str r) then "" else String a r
  end.
Definition strip (s : string) : string := rstrip (lstrip s).

(** [sub in s] *)
Fixpoint contains (sub s : string) : bool :=
  String.prefix sub s ||
  match s with
  | EmptyString => false
  | String _ s' => contains sub s'
  end.

(** [d[key] = v] on a dictionary whose iteration order matters: an
    existing key keeps its place. *)
Fixpoint dict_set {V} (key : string) (v : V) (d : list (string * V))
    : list (string * V) :=
  match d with
  | [] => [(key, v)]
  | (k, w) :: rest =>
      if String.eqb k key then (k, v) :: rest else (k, w) :: dict_set key v rest
  end.

(** Values stored in the metric dictionaries. *)
Inductive pyval : Type :=
| PInt (n : Z)
| PFloat (x : float)
| PStr (s : string)
| PBool (b : bool).

(** Truthiness: [bool(v)]. *)
Definition truthy (v : pyval) : bool :=
  match v with
  | PInt n => negb (n =? 0)
  | PFloat x => negb (PrimFloat.eqb x 0%float)
  | PStr s => truthy_str s
  | PBool b => b
  end.

(** A whole-number literal as a [float]; exact below 2^53. *)
Definition float_of_Z (k : Z) : float := PrimFloat.of_uint63 (Uint63.of_Z k).

(** [v > k] where the literal [k] is a small whole number, written as an
    [int] or as a [float] ([ty] names which): Python compares an [int]
    with a [float] by value. *)
Definition gt_literal (v : pyval) (k : Z) (ty : string) : res bool :=
  match v with
  | PInt n => Ok (k <? n)
  | PBool b => Ok (k <? Z.b2z b)
  | PFloat x => Ok (PrimFloat.ltb (float_of_Z k) x)
  | PStr _ =>
      Raise (TypeError ("'>' not supported between instances of 'str' and '"
                        +:+ ty +:+ "'"))
  end.

(** Library functions whose results the scripts only pass on.  Dates are
    naive [datetime]s, counted in microseconds. *)
Record Lib : Type := mkLib {
  strptime : string -> string -> res Z;
  isoformat : Z -> string;
  strftime : Z -> string -> string;
  int_of_str : string -> res Z;
  float_of_str : string -> res float;
  int_truediv : Z -> Z -> res float;
  round2 : float -> float;
  format_1f : float -> string;
  str_float : float -> string
}.

Section Formatting.
Variable L : Lib.

(** [round(v, 2)] *)
Definition round_2 (v : pyval) : res pyval :=
  match v with
  | PFloat x => Ok (PFloat (round2 L x))
  | PInt n => Ok (PInt n)
  | PBool b => Ok (PInt (Z.b2z b))
  | PStr _ => Raise (TypeError "type str doesn't define __round__ method")
  end.

(** [f"{v:.1f}"] *)
Definition fmt_1f (v : pyval) : res string :=
  match v with
  | PFloat x => Ok (format_1f L x)
  | PInt n => Ok (str_int n +:+ ".0")
  | PBool b => Ok (str_int (Z.b2z b) +:+ ".0")
  | PStr _ => Raise (ValueError "Unknown format code 'f' for object of type 'str'")
  end.

(** [f"{v}"] *)
Definition fmt (v : pyval) : string :=
  match v with
  | PFloat x => str_float L x
  | PInt n => str_int n
  | PBool b => if b then "True" else "False"
  | PStr s => s
  end.
End Formatting.

End Py.
Import Py.

(** ** The world outside the process *)

Module Sys.

(** [subprocess.CompletedProcess] *)
Record CompletedProcess : Type := mkProc {
  returncode : Z;
  stdout : string;
  stderr : string
}.

(** The dictionary of [SSLSocket.getpeercert()]; [issuer] and [subject]
    are tuples of relative distinguished names, each a tuple of
    (name, value) pairs. *)
Module PeerCert.
Record t : Type := mk {
  notAfter : option string;
  issuer : option (list (list (string * string)));
  subject : option (list (list (string * string)));
  subjectAltName : option (list (string * string))
}.
End PeerCert.

(** What the environment answers during one run.  [clock n] is the
    reading of [datetime.now()] once [n] events have happened. *)
Record World : Type := mkWorld {
  create_default_context : res unit;
  create_connection : string -> Z -> Z -> res unit;
  wrap_socket : string -> res PeerCert.t;
  subprocess_run : list string -> option Z -> res CompletedProcess;
  read_file : string -> res string;
  clock : nat -> Z;
  nodename : string
}.

Inductive event : Type :=
| EConnect (host : string) (port timeout : Z)
| EHandshake (server_hostname : string)
| ERun (argv : list string) (timeout : option Z)
| ERead (path : string)
| EPrint (line : string).

Definition is_run (e : event) : bool :=
  match e with
  | ERun _ _ => true
  | _ => false
  end.

Definition is_connect (e : event) : bool :=
  match e with
  | EConnect _ _ _ => true
  | _ => false
  end.

(** Computations that may raise and that extend the trace of events. *)
Definition M (A : Type) : Type := list event -> res A * list event.

#[export] Instance M_ret : MRet M := fun _ a tr => (Ok a, tr).
#[export] Instance M_bind : MBind M := fun _ _ f m tr =>
  match m tr with
  | (Ok a, tr') => f a tr'
  | (Raise e, tr') => (Raise e, tr')
  end.

Definition lift {A} (r : res A) : M A := fun tr => (r, tr).

Definition emit (e : event) : M unit := fun tr => (Ok tt, tr ++ [e]).

(** [try: body except Exception as e: handler e] *)
Definition try_except {A} (body : M A) (handler : exn -> M A) : M A :=
  fun tr =>
    match body tr with
    | (Ok a, tr') => (Ok a, tr')
    | (Raise e, tr') => handler e tr'
    end.

Definition print (line : string) : M unit := emit (EPrint line).

Section Calls.
Variable W : World.

(** [socket.create_connection((host, port), timeout=t)] *)
Definition connect (host : string) (port timeout : Z) : M unit :=
  emit (EConnect host port timeout);; lift (create_connection W host port timeout).

(** [context.wrap_socket(sock, server_hostname=h)] then
    [ssock.getpeercert()] *)
Definition handshake (server_hostname : string) : M PeerCert.t :=
  emit (EHandshake server_hostname);; lift (wrap_socket W server_hostname).

(** [subprocess.run(argv, ..., timeout=t)] *)
Definition run (argv : list string) (timeout : option Z) : M CompletedProcess :=
  emit (ERun argv timeout);; lift (subprocess_run W argv timeout).

(** [with open(path, 'r') as f: f.read()] *)
Definition read (path : string) : M string :=
  emit (ERead path);; lift (read_file W path).

(** [datetime.now()] *)
Definition datetime_now : M Z := fun tr => (Ok (clock W (length tr)), tr).
End Calls.

End Sys.
Import Sys.

(** ** tools/ssl-cert-monitor.py *)

Module SslCertMonitor.

(** The configuration dictionary of [load_config], with the types of its
    defaults. *)
Record Config : Type := mkConfig {
  domains : list string;
  warning_days : Z;
  critical_days : Z;
  slack_webhook : string;
  email_alerts : string;
  auto_renew : bool;
  certbot_email : string;
  log_file : string
}.

(** [os.environ.get(key, '')] *)
Definition environ_get (environ : string -> option string) (key : string) : string :=
  match environ key with
  | Some v => v
  | None => ""
  end.

(** [default_config] in [load_config]. *)
Definition default_config (environ : string -> option string) : Config :=
  {| domains := ["api.mycompany.com"; "app.mycompany.com"; "www.mycompany.com"];
     warning_days := 30;
     critical_days := 7;
     slack_webhook := environ_get environ "SLACK_WEBHOOK_URL";
     email_alerts := environ_get environ "ALERT_EMAIL";
     auto_renew := false;
     certbot_email := environ_get environ "CERTBOT_EMAIL";
     log_file := "/var/log/ssl-monitor.log" |}.

(** The dictionary returned by [get_cert_info].  The success shape has no
    ['error'] key and the failure shape has none of ['issuer'],
    ['subject'], ['expiry_date'], ['san_domains']: those are [option]s,
    [None] for an absent key. *)
Record CertRecord : Type := mkCert {
  domain : string;
  issuer : option (gmap string string);
  subject : option (gmap string string);
  expiry_date : option string;
  days_until_expiry : Z;
  status : string;
  san_domains : option (list (string * string));
  error : option string
}.

Module Alert.
Record t : Type := mk {
  level : string;
  domain : string;
  message : string
}.
End Alert.

(** [analyze_results]: the loop over [results], with the two lists it
    appends to. *)
Fixpoint analyze_loop (config : Config) (results : list CertRecord)
    (alerts : list Alert.t) (renewals_needed : list string)
    : res (list Alert.t * list string) :=
  match results with
  | [] => Ok (alerts, renewals_needed)
  | cert :: rest =>
      if String.eqb (status cert) "error" then
        e ← getitem "error" (error cert);
        analyze_loop config rest
          (alerts ++ [Alert.mk "critical" (domain cert)
                        ("Certificate check failed: " +:+ e)])
          renewals_needed
      else
        let days_left := days_until_expiry cert in
        let domain := domain cert in
        if days_left <=? critical_days config then
          analyze_loop config rest
            (alerts ++ [Alert.mk "critical" domain
                          ("Certificate expires in " +:+ str_int days_left +:+ " days!")])
            (renewals_needed ++ [domain])
        else if days_left <=? warning_days config then
          analyze_loop config rest
            (alerts ++ [Alert.mk "warning" domain
                          ("Certificate expires in " +:+ str_int days_left +:+ " days")])
            renewals_needed
        else
          analyze_loop config rest alerts renewals_needed
  end.

Definition analyze_results (config : Config) (results : list CertRecord)
    : res (list Alert.t * list string) :=
  analyze_loop config results [] [].

(** [dict(x[0] for x in rdns)] *)
Definition first_pairs (rdns : list (list (string * string)))
    : res (gmap string string) :=
  pairs ← mapM (fun x => index "tuple" x 0) rdns;
  mret (py_dict pairs).

(** One day of a [timedelta], in microseconds. *)
Definition us_per_day : Z := 86400000000.

(** [(a - b).days]: a [timedelta] is normalised with its seconds and
    microseconds non-negative, so [days] is the floor. *)
Definition timedelta_days (a b : Z) : Z := (a - b) `div` us_per_day.

Section Effects.
Variable L : Lib.
Variable W : World.
Variable config : Config.

(** [get_cert_info] (lines 49-80): the [try] block up to the returned
    dictionary, and the [except Exception] handler. *)
Definition get_cert_info (domain : string) (port : Z) : M CertRecord :=
  try_except
    (lift (create_default_context W);;
     connect W domain port 10;;
     cert ← handshake W domain;
     not_after ← lift (getitem "notAfter" (PeerCert.notAfter cert));
     expiry_date ← lift (strptime L not_after "%b %d %H:%M:%S %Y %Z");
     now ← datetime_now W;
     let days_until_expiry := timedelta_days expiry_date now in
     cert_issuer ← lift (getitem "issuer" (PeerCert.issuer cert) ≫= first_pairs);
     cert_subject ← lift (getitem "subject" (PeerCert.subject cert) ≫= first_pairs);
     mret {| domain := domain;
             issuer := Some cert_issuer;
             subject := Some cert_subject;
             expiry_date := Some (isoformat L expiry_date);
             days_until_expiry := days_until_expiry;
             status := "valid";
             san_domains := Some (default [] (PeerCert.subjectAltName cert));
             error := None |})
    (fun e =>
       mret {| domain := domain;
               issuer := None;
               subject := None;
               expiry_date := None;
               days_until_expiry := -1;
               status := "error";
               san_domains := None;
               error := Some (str_exn e) |}).

(** [check_all_certificates] (lines 82-91); the port defaults to 443. *)
Fixpoint check_all_loop (domains : list string) (results : list CertRecord)
    : M (list CertRecord) :=
  match domains with
  | [] => mret results
  | domain :: rest =>
      print ("Checking certificate for " +:+ domain +:+ "...");;
      cert_info ← get_cert_info domain 443;
      check_all_loop rest (results ++ [cert_info])
  end.

Definition check_all_certificates : M (list CertRecord) :=
  check_all_loop (domains config) [].

(** [reload_web_server] (lines 192-210): nginx first, then apache. *)
Definition reload_web_server : M unit :=
  try_except
    (result ← run W ["nginx"; "-t"] None;
     if returncode result =? 0 then
       run W ["systemctl"; "reload"; "nginx"] None;;
       print "Reloaded nginx"
     else
       result ← run W ["apache2ctl"; "configtest"] None;
       if returncode result =? 0 then
         run W ["systemctl"; "reload"; "apache2"] None;;
         print "Reloaded apache2"
       else
         mret tt)
    (fun e => print ("Warning: Could not reload web server: " +:+ str_exn e)).

(** [renew_certificate] (lines 157-190). *)
Definition renew_certificate (domain : string) : M bool :=
  if negb (auto_renew config) then
    print ("Auto-renewal disabled for " +:+ domain);;
    mret false
  else
    try_except
      (print ("Attempting to renew certificate for " +:+ domain +:+ "...");;
       let cmd := ["certbot"; "renew"; "--domain"; domain;
                   "--non-interactive"; "--agree-tos"] in
       let cmd := if truthy_str (certbot_email config)
                  then cmd ++ ["--email"; certbot_email config]
                  else cmd in
       result ← run W cmd (Some 300);
       if returncode result =? 0 then
         print ("Successfully renewed certificate for " +:+ domain);;
         reload_web_server;;
         mret true
       else
         print ("Failed to renew certificate for " +:+ domain +:+ ": "
                +:+ stderr result);;
         mret false)
      (fun e =>
         print ("Error renewing certificate for " +:+ domain +:+ ": "
                +:+ str_exn e);;
         mret false).

(** [main], lines 268-274: the marker printed for a record that is not
    an error. *)
Definition human_status (days : Z) : string :=
  if days <=? 7 then "❌ CRITICAL"
  else if days <=? 30 then "⚠️  WARNING"
  else "✅ OK".

(** [main], lines 264-276: the report line of one record. *)
Definition human_line (cert : CertRecord) : res string :=
  if String.eqb (status cert) "error" then
    e ← getitem "error" (error cert);
    mret ("❌ " +:+ domain cert +:+ ": ERROR - " +:+ e)
  else
    let days := days_until_expiry cert in
    let status := human_status days in
    mret (status +:+ " " +:+ domain cert +:+ ": " +:+ str_int days
          +:+ " days until expiry").

Fixpoint print_human_lines (results : list CertRecord) : M unit :=
  match results with
  | [] => mret tt
  | cert :: rest =>
      line ← lift (human_line cert);
      print line;;
      print_human_lines rest
  end.

(** [main], lines 289-291: [if args.renew and renewals_needed: for
    domain in renewals_needed: monitor.renew_certificate(domain)]. *)
Fixpoint renew_each (renewals_needed : list string) : M unit :=
  match renewals_needed with
  | [] => mret tt
  | domain :: rest => renew_certificate domain;; renew_each rest
  end.

Definition main_renewals (renew : bool) (renewals_needed : list string) : M unit :=
  if renew then renew_each renewals_needed else mret tt.

(** [main], lines 297-298: the exit code. *)
Definition main_exit_code (alerts : list Alert.t) : Z :=
  match filter (fun a => Alert.level a = "critical") alerts with
  | [] => 0
  | _ => 1
  end.
End Effects.

End SslCertMonitor.

(** ** tools/system-monitor.py *)

Module SystemMonitor.

(** The dictionary of [collect_metrics]; its sub-dictionaries keep their
    string keys. *)
Record Metrics : Type := mkMetrics {
  timestamp : string;
  hostname : string;
  system : gmap string pyval;
  disk : gmap string pyval;
  cpu : gmap string pyval;
  network : gmap string pyval;
  services : list (string * bool)
}.

Section Probes.
Variable L : Lib.
Variable W : World.

(** The loop over the lines of /proc/meminfo in [get_system_info]. *)
Fixpoint meminfo_loop (lines : list string) (mem_total mem_available : Z)
    : res (Z * Z) :=
  match lines with
  | [] => Ok (mem_total, mem_available)
  | line :: rest =>
      if contains "MemTotal:" line then
        field ← index "list" (split_ws line) 1;
        n ← int_of_str L field;
        meminfo_loop rest (n * 1024) mem_available
      else if contains "MemAvailable:" line then
        field ← index "list" (split_ws line) 1;
        n ← int_of_str L field;
        meminfo_loop rest mem_total (n * 1024)
      else
        meminfo_loop rest mem_total mem_available
  end.

(** [(part / total) * 100 if total > 0 else 0] *)
Definition percent_of (part total : Z) : res pyval :=
  if 0 <? total then
    q ← int_truediv L part total;
    mret (PFloat (PrimFloat.mul q 100%float))
  else
    mret (PInt 0).

(** [get_system_info] (lines 15-38). *)
Definition get_system_info : M (gmap string pyval) :=
  try_except
    (meminfo ← read W "/proc/meminfo";
     '(mem_total, mem_available) ←
        lift (meminfo_loop (split_on newline meminfo) 0 0);
     mem_used_percent ← lift (percent_of (mem_total - mem_available) mem_total);
     rounded ← lift (round_2 L mem_used_percent);
     mret (<["memory_used_percent" := rounded]>
           (<["memory_available_bytes" := PInt mem_available]>
            (<["memory_total_bytes" := PInt mem_total]> ∅))))
    (fun e =>
       mret {["error" := PStr ("Failed to get memory info: " +:+ str_exn e)]}).

(** [get_disk_usage] (lines 40-62): both fall-through paths reach the
    same [return {'error': 'Failed to parse df output'}]. *)
Definition get_disk_usage : M (gmap string pyval) :=
  try_except
    (result ← run W ["df"; "-B1"; "/"] None;
     let failed : M (gmap string pyval) :=
       mret {["error" := PStr "Failed to parse df output"]} in
     if returncode result =? 0 then
       let lines := split_on newline (strip (stdout result)) in
       if 2 <=? Z.of_nat (length lines) then
         line ← lift (index "list" lines 1);
         let parts := split_ws line in
         total ← lift (index "list" parts 1 ≫= int_of_str L);
         used ← lift (index "list" parts 2 ≫= int_of_str L);
         available ← lift (index "list" parts 3 ≫= int_of_str L);
         used_percent ← lift (percent_of used total);
         rounded ← lift (round_2 L used_percent);
         mret (<["disk_used_percent" := rounded]>
               (<["disk_available_bytes" := PInt available]>
                (<["disk_used_bytes" := PInt used]>
                 (<["disk_total_bytes" := PInt total]> ∅))))
       else failed
     else failed)
    (fun e =>
       mret {["error" := PStr ("Failed to get disk usage: " +:+ str_exn e)]}).

(** [get_cpu_info] (lines 64-77). *)
Definition get_cpu_info : M (gmap string pyval) :=
  try_except
    (text ← read W "/proc/loadavg";
     let loadavg := split_ws (strip text) in
     load_1min ← lift (index "list" loadavg 0 ≫= float_of_str L);
     load_5min ← lift (index "list" loadavg 1 ≫= float_of_str L);
     load_15min ← lift (index "list" loadavg 2 ≫= float_of_str L);
     mret (<["load_15min" := PFloat load_15min]>
           (<["load_5min" := PFloat load_5min]>
            (<["load_1min" := PFloat load_1min]> ∅))))
    (fun e =>
       mret {["error" := PStr ("Failed to get CPU info: " +:+ str_exn e)]}).

(** [get_network_info] (lines 79-97): one [try] around both calls. *)
Definition get_network_info : M (gmap string pyval) :=
  try_except
    (let connectivity : gmap string pyval := ∅ in
     result ← run W ["nslookup"; "google.com"] (Some 5);
     let connectivity :=
       <["dns_working" := PBool (returncode result =? 0)]> connectivity in
     result ← run W ["ping"; "-c"; "1"; "-W"; "3"; "8.8.8.8"] (Some 10);
     let connectivity :=
       <["internet_reachable" := PBool (returncode result =? 0)]> connectivity in
     mret connectivity)
    (fun e =>
       mret {["error" := PStr ("Failed to get network info: " +:+ str_exn e)]}).

(** [check_services] (lines 99-112): one [try] per service. *)
Fixpoint check_services_loop (services : list string)
    (service_status : list (string * bool)) : M (list (string * bool)) :=
  match services with
  | [] => mret service_status
  | service :: rest =>
      service_status ←
        try_except
          (result ← run W ["systemctl"; "is-active"; service] None;
           mret (dict_set service
                   (String.eqb (strip (stdout result)) "active")
                   service_status))
          (fun _ => mret (dict_set service false service_status));
      check_services_loop rest service_status
  end.

Definition check_services : M (list (string * bool)) :=
  check_services_loop ["sshd"; "systemd-resolved"; "cron"] [].

(** [collect_metrics] (lines 114-129). *)
Definition collect_metrics : M Metrics :=
  now ← datetime_now W;
  let timestamp := isoformat L now in
  let hostname := nodename W in
  system ← get_system_info;
  disk ← get_disk_usage;
  cpu ← get_cpu_info;
  network ← get_network_info;
  services ← check_services;
  mret {| timestamp := timestamp;
          hostname := hostname;
          system := system;
          disk := disk;
          cpu := cpu;
          network := network;
          services := services |}.

(** The loop over [metrics['services'].items()] in [check_thresholds]. *)
Fixpoint services_loop (items : list (string * bool)) (warnings : list string)
    : list string :=
  match items with
  | [] => warnings
  | (service, status) :: rest =>
      if negb status then
        services_loop rest
          (warnings ++ ["Service " +:+ service +:+ " is not running"])
      else services_loop rest warnings
  end.

(** [check_thresholds] (lines 131-160). *)
Definition check_thresholds (metrics : Metrics) : res (list string) :=
  let warnings : list string := [] in
  warnings ←
    match system metrics !! "memory_used_percent" with
    | Some v =>
        high ← gt_literal v 90 "int";
        if (high : bool) then
          shown ← fmt_1f L v;
          mret (warnings ++ ["High memory usage: " +:+ shown +:+ "%"])
        else mret warnings
    | None => mret warnings
    end;
  warnings ←
    match disk metrics !! "disk_used_percent" with
    | Some v =>
        high ← gt_literal v 85 "int";
        if (high : bool) then
          shown ← fmt_1f L v;
          mret (warnings ++ ["High disk usage: " +:+ shown +:+ "%"])
        else mret warnings
    | None => mret warnings
    end;
  warnings ←
    match cpu metrics !! "load_1min" with
    | Some v =>
        high ← gt_literal v 4 "float";
        if (high : bool) then
          mret (warnings ++ ["High load average: " +:+ fmt L v])
        else mret warnings
    | None => mret warnings
    end;
  let warnings :=
    match network metrics !! "internet_reachable" with
    | Some v =>
        if negb (truthy v) then
          warnings ++ ["Internet connectivity issue detected"]
        else warnings
    | None => warnings
    end in
  mret (services_loop (services metrics) warnings).
End Probes.

End SystemMonitor.

(** ** Definitions used by the statements *)

Module CertFacts.
Import SslCertMonitor.

(** A record of the success shape with only the fields that threshold
    evaluation reads filled in. *)
Definition valid_record (d : string) (days : Z) : CertRecord :=
  {| domain := d; issuer := Some ∅; subject := Some ∅;
     expiry_date := Some ""; days_until_expiry := days; status := "valid";
     san_domains := Some []; error := None |}.

(** A record of the failure shape with an arbitrary days value. *)
Definition error_record (d e : string) (days : Z) : CertRecord :=
  {| domain := d; issuer := None; subject := None;
     expiry_date := None; days_until_expiry := days; status := "error";
     san_domains := None; error := Some e |}.

(** The two shapes [get_cert_info] builds agree on this: a record whose
    status is ['error'] has the ['error'] key. *)
Definition has_error_key (c : CertRecord) : Prop :=
  status c = "error" -> is_Some (error c).

(** What one record alone contributes. *)
Definition alerts_of (config : Config) (c : CertRecord) : list Alert.t :=
  match analyze_results config [c] with
  | Ok (alerts, _) => alerts
  | Raise _ => []
  end.

(** The critical days-until-expiry bucket. *)
Definition in_critical_bucket (config : Config) (c : CertRecord) : Prop :=
  status c ≠ "error" ∧ days_until_expiry c <= critical_days config.

#[export] Instance in_critical_bucket_dec config c :
  Decision (in_critical_bucket config c).
Proof. unfold in_critical_bucket. apply _. Defined.

Definition critical_alert (c : CertRecord) : Alert.t :=
  Alert.mk "critical" (domain c)
    ("Certificate expires in " +:+ str_int (days_until_expiry c) +:+ " days!").

Definition warning_alert (c : CertRecord) : Alert.t :=
  Alert.mk "warning" (domain c)
    ("Certificate expires in " +:+ str_int (days_until_expiry c) +:+ " days").

Definition failed_alert (c : CertRecord) (e : string) : Alert.t :=
  Alert.mk "critical" (domain c) ("Certificate check failed: " +:+ e).
(** The format string of [get_cert_info]. *)
Definition cert_time_format : string := "%b %d %H:%M:%S %Y %Z".

(** The network steps of [get_cert_info], without their events. *)
Definition peer_cert_of (W : World) (d : string) (port : Z) : res PeerCert.t :=
  create_default_context W;; create_connection W d port 10;; wrap_socket W d.

(** The fields [get_cert_info] reads from the peer certificate, in the
    order it reads them: not-after, issuer, subject. *)
Definition peer_fields (L : Lib) (cert : PeerCert.t)
    : res (Z * gmap string string * gmap string string) :=
  not_after ← getitem "notAfter" (PeerCert.notAfter cert);
  expiry ← strptime L not_after cert_time_format;
  iss ← getitem "issuer" (PeerCert.issuer cert) ≫= first_pairs;
  sub ← getitem "subject" (PeerCert.subject cert) ≫= first_pairs;
  mret (expiry, iss, sub).

(** The record of the success branch of [get_cert_info]. *)
Definition checked_record (L : Lib) (d : string) (cert : PeerCert.t)
    (expiry now : Z) (iss sub : gmap string string) : CertRecord :=
  {| domain := d;
     issuer := Some iss;
     subject := Some sub;
     expiry_date := Some (isoformat L expiry);
     days_until_expiry := timedelta_days expiry now;
     status := "valid";
     san_domains := Some (default [] (PeerCert.subjectAltName cert));
     error := None |}.

(** The marker that matches the levels of a record's alerts. *)
Definition marker_for (levels : list string) : string :=
  match levels with
  | [] => "✅ OK"
  | l :: _ => if String.eqb l "critical" then "❌ CRITICAL" else "⚠️  WARNING"
  end.

(** The domain a certbot invocation is for. *)
Definition certbot_target (ev : event) : option string :=
  match ev with
  | ERun (prog :: args) _ => if String.eqb prog "certbot" then args !! 2%nat else None
  | _ => None
  end.

(** An event that is not a certbot invocation for a domain outside [ds]. *)
Definition targets_within (ds : list string) (ev : event) : Prop :=
  forall d, certbot_target ev = Some d -> d ∈ ds.

(** The line [renew_certificate] prints when auto-renewal is off. *)
Definition disabled_notice (d : string) : event :=
  EPrint ("Auto-renewal disabled for " +:+ d).
End CertFacts.

(** Worlds that differ in the answer to one command or one file. *)
Module Worlds.

Definition set_run (argv : list string) (outcome : res CompletedProcess)
    (W : World) : World :=
  {| create_default_context := create_default_context W;
     create_connection := create_connection W;
     wrap_socket := wrap_socket W;
     subprocess_run := fun a t =>
       if decide (a = argv) then outcome else subprocess_run W a t;
     read_file := read_file W;
     clock := clock W;
     nodename := nodename W |}.

Definition set_file (path : string) (outcome : res string) (W : World) : World :=
  {| create_default_context := create_default_context W;
     create_connection := create_connection W;
     wrap_socket := wrap_socket W;
     subprocess_run := subprocess_run W;
     read_file := fun p => if decide (p = path) then outcome else read_file W p;
     clock := clock W;
     nodename := nodename W |}.

Definition set_connection (outcome : res unit) (W : World) : World :=
  {| create_default_context := create_default_context W;
     create_connection := fun _ _ _ => outcome;
     wrap_socket := wrap_socket W;
     subprocess_run := subprocess_run W;
     read_file := read_file W;
     clock := clock W;
     nodename := nodename W |}.

End Worlds.

(** A library and a healthy host on which the model can be run. *)
Module Samples.
Import Worlds.

Definition nl : string := String newline "".

Definition digit_of (a : ascii) : option Z :=
  let n := Ascii.N_of_ascii a in
  if ((48 <=? n) && (n <=? 57))%N then Some (Z.of_N n - 48) else None.

Fixpoint digits_from (acc : Z) (s : string) : option Z :=
  match s with
  | EmptyString => Some acc
  | String a s' =>
      match digit_of a with
      | Some d => digits_from (10 * acc + d) s'
      | None => None
      end
  end.

(** Unsigned decimal numerals only. *)
Definition decimal (s : string) : res Z :=
  match s with
  | EmptyString => Raise (ValueError "invalid literal for int() with base 10: ''")
  | _ =>
      match digits_from 0 s with
      | Some n => Ok n
      | None =>
          Raise (ValueError ("invalid literal for int() with base 10: '" +:+ s +:+ "'"))
      end
  end.

(** Numerals with a fractional part, [dd.dd]. *)
Definition fractional (s : string) : res float :=
  match split_on "." s with
  | [whole; frac] =>
      w ← decimal whole;
      f ← decimal frac;
      let scale := 10 ^ Z.of_nat (String.length frac) in
      mret (PrimFloat.div (float_of_Z (w * scale + f)) (float_of_Z scale))
  | _ => Raise (ValueError ("could not convert string to float: '" +:+ s +:+ "'"))
  end.

(** One not-after date is known to [strptime]; rounding and float
    formatting are left out ([round2] is the identity, floats print as
    "?"): no statement depends on them. *)
Definition lib : Lib :=
  {| strptime := fun s _ =>
       if String.eqb s "Jan  1 00:00:00 2030 GMT" then Ok 1893456000000000
       else Raise (ValueError ("time data '" +:+ s +:+ "' does not match format"));
     isoformat := fun t => str_int t;
     strftime := fun t _ => str_int t;
     int_of_str := decimal;
     float_of_str := fractional;
     int_truediv := fun a b => Ok (PrimFloat.div (float_of_Z a) (float_of_Z b));
     round2 := fun x => x;
     format_1f := fun _ => "?";
     str_float := fun _ => "?" |}.

Definition peer (d : string) : PeerCert.t :=
  PeerCert.mk (Some "Jan  1 00:00:00 2030 GMT")
    (Some [[("countryName", "US")]; [("organizationName", "Let's Encrypt")];
           [("commonName", "R3")]])
    (Some [[("commonName", d)]])
    (Some [("DNS", d)]).

Definition proc (rc : Z) (out : string) : CompletedProcess :=
  {| returncode := rc; stdout := out; stderr := "" |}.

(** Every connection and command succeeds; the clock stands at noon of
    29 December 2029, two and a half days before the sample certificate
    expires. *)
Definition healthy : World :=
  {| create_default_context := Ok tt;
     create_connection := fun _ _ _ => Ok tt;
     wrap_socket := fun d => Ok (peer d);
     subprocess_run := fun argv _ =>
       match argv with
       | prog :: _ =>
           if String.eqb prog "df" then
             Ok (proc 0 ("Filesystem 1B-blocks Used Available Use% Mounted on" +:+ nl
                         +:+ "/dev/sda1 1000 400 600 40% /" +:+ nl))
           else if String.eqb prog "systemctl" then Ok (proc 0 ("active" +:+ nl))
           else Ok (proc 0 "")
       | [] => Raise (IndexError "list index out of range")
       end;
     read_file := fun path =>
       if String.eqb path "/proc/meminfo" then
         Ok ("MemTotal:       1000 kB" +:+ nl +:+ "MemFree:         100 kB" +:+ nl
             +:+ "MemAvailable:    500 kB" +:+ nl)
       else if String.eqb path "/proc/loadavg" then
         Ok ("0.52 0.58 0.59 1/467 12345" +:+ nl)
       else Raise (LibError "FileNotFoundError"
                     ("[Errno 2] No such file or directory: '" +:+ path +:+ "'"));
     clock := fun _ => 1893456000000000 - 216000000000;
     nodename := "host01" |}.

Definition timed_out (cmd : string) (secs : string) : exn :=
  LibError "TimeoutExpired"
    ("Command '" +:+ cmd +:+ "' timed out after " +:+ secs +:+ " seconds").

Definition not_found (prog : string) : exn :=
  LibError "FileNotFoundError"
    ("[Errno 2] No such file or directory: '" +:+ prog +:+ "'").
End Samples.

(** Shapes and per-metric readings of the metrics snapshot. *)
Module MetricFacts.
Import SystemMonitor.

(** A sub-dictionary that holds an ['error'] string and nothing else. *)
Definition error_only (m : gmap string pyval) : Prop :=
  exists msg, m = {["error" := PStr msg]}.

(** A sub-dictionary with exactly the given keys. *)
Definition populated (keys : list string) (m : gmap string pyval) : Prop :=
  dom m = list_to_set keys.

Definition system_keys : list string :=
  ["memory_total_bytes"; "memory_available_bytes"; "memory_used_percent"].
Definition disk_keys : list string :=
  ["disk_total_bytes"; "disk_used_bytes"; "disk_available_bytes"; "disk_used_percent"].
Definition cpu_keys : list string := ["load_1min"; "load_5min"; "load_15min"].
Definition network_keys : list string := ["dns_working"; "internet_reachable"].

Definition df_cmd : list string := ["df"; "-B1"; "/"].
Definition nslookup_cmd : list string := ["nslookup"; "google.com"].
Definition ping_cmd : list string := ["ping"; "-c"; "1"; "-W"; "3"; "8.8.8.8"].
Definition is_active_cmd (service : string) : list string :=
  ["systemctl"; "is-active"; service].

(** What [check_services] records for one service. *)
Definition service_active (W : World) (service : string) : bool :=
  match subprocess_run W (is_active_cmd service) None with
  | Ok p => String.eqb (strip (stdout p)) "active"
  | Raise _ => false
  end.

Definition failure (prefix : string) (e : exn) : gmap string pyval :=
  {["error" := PStr (prefix +:+ str_exn e)]}.

(** The warnings of each metric taken alone, after section 4.5 of the
    specification: memory above 90, disk above 85, 1-minute load above
    4.0, network unreachable, service inactive. *)
Definition memory_warning (L : Lib) (system : gmap string pyval) : res (list string) :=
  match system !! "memory_used_percent" with
  | Some v =>
      high ← gt_literal v 90 "int";
      if (high : bool) then
        shown ← fmt_1f L v; mret ["High memory usage: " +:+ shown +:+ "%"]
      else mret []
  | None => mret []
  end.

Definition disk_warning (L : Lib) (disk : gmap string pyval) : res (list string) :=
  match disk !! "disk_used_percent" with
  | Some v =>
      high ← gt_literal v 85 "int";
      if (high : bool) then
        shown ← fmt_1f L v; mret ["High disk usage: " +:+ shown +:+ "%"]
      else mret []
  | None => mret []
  end.

Definition load_warning (L : Lib) (cpu : gmap string pyval) : res (list string) :=
  match cpu !! "load_1min" with
  | Some v =>
      high ← gt_literal v 4 "float";
      mret (if (high : bool) then ["High load average: " +:+ fmt L v] else [])
  | None => mret []
  end.

Definition network_warning (network : gmap string pyval) : list string :=
  match network !! "internet_reachable" with
  | Some v => if truthy v then [] else ["Internet connectivity issue detected"]
  | None => []
  end.

Definition service_warnings (services : list (string * bool)) : list string :=
  (fun item => "Service " +:+ item.1 +:+ " is not running")
    <$> filter (fun item => item.2 = false) services.

(** A snapshot of a host whose network and services are fine, with the
    given memory percentage, disk percentage and 1-minute load. *)
Definition snapshot (memory disk_pct load : pyval) : Metrics :=
  {| timestamp := "2030-01-01T00:00:00";
     hostname := "host01";
     system := <["memory_used_percent" := memory]>
               (<["memory_available_bytes" := PInt 512000]>
                (<["memory_total_bytes" := PInt 1024000]> ∅));
     disk := <["disk_used_percent" := disk_pct]>
             (<["disk_available_bytes" := PInt 600]>
              (<["disk_used_bytes" := PInt 400]>
               (<["disk_total_bytes" := PInt 1000]> ∅)));
     cpu := <["load_15min" := PFloat 0.5]>
            (<["load_5min" := PFloat 0.5]>
             (<["load_1min" := load]> ∅));
     network := <["internet_reachable" := PBool true]>
                (<["dns_working" := PBool true]> ∅);
     services := [("sshd", true); ("systemd-resolved", true); ("cron", true)] |}.

(** 90.01 as a binary64 value. *)
Definition f90_01 : float := 0x1.680a3d70a3d71p+6%float.

(** The healthy host, except that the DNS lookup times out. *)
Definition dns_down : World :=
  Worlds.set_run nslookup_cmd
    (Raise (Samples.timed_out "['nslookup', 'google.com']" "5")) Samples.healthy.

(** The healthy host, except that systemctl cannot be started when sshd
    is queried. *)
Definition sshd_query_fails : World :=
  Worlds.set_run (is_active_cmd "sshd")
    (Raise (Samples.not_found "systemctl")) Samples.healthy.

(** The healthy host, except that df exits with status 1. *)
Definition df_fails : World :=
  Worlds.set_run df_cmd (Ok (Samples.proc 1 "")) Samples.healthy.
End MetricFacts.

(** Readings of a trace, and the commands of the renewal path. *)
Module TraceFacts.
Import SslCertMonitor.

(** The connections attempted, in order. *)
Definition connections (tr : list event) : list (string * Z * Z) :=
  omap (fun ev => match ev with
                  | EConnect host port timeout => Some (host, port, timeout)
                  | _ => None
                  end) tr.

(** The subprocesses started, in order. *)
Definition commands (tr : list event) : list (list string * option Z) :=
  omap (fun ev => match ev with
                  | ERun argv timeout => Some (argv, timeout)
                  | _ => None
                  end) tr.

(** The lines printed, in order. *)
Definition printed (tr : list event) : list string :=
  omap (fun ev => match ev with
                  | EPrint line => Some line
                  | _ => None
                  end) tr.

(** The command line [renew_certificate] builds for a domain. *)
Definition certbot_cmd (config : Config) (d : string) : list string :=
  ["certbot"; "renew"; "--domain"; d; "--non-interactive"; "--agree-tos"]
  ++ (if truthy_str (certbot_email config)
      then ["--email"; certbot_email config] else []).

(** The certbot invocations among the subprocesses started. *)
Definition certbot_runs (tr : list event) : list (list string * option Z) :=
  filter (fun c => head c.1 = Some "certbot") (commands tr).

Definition nginx_test : list string := ["nginx"; "-t"].
Definition apache_test : list string := ["apache2ctl"; "configtest"].
Definition reload_of (server : string) : list string := ["systemctl"; "reload"; server].

(** Whether a config test passed: it returned, with exit status 0. *)
Definition passed (r : res CompletedProcess) : bool :=
  match r with
  | Ok p => returncode p =? 0
  | Raise _ => false
  end.

Definition raised {A} (r : res A) : bool :=
  match r with
  | Ok _ => false
  | Raise _ => true
  end.

(** The subprocesses a web-server reload starts: the nginx test; on its
    success the nginx reload; on its non-zero exit the apache test and, on
    that one's success, the apache reload. *)
Definition reload_commands (W : World) : list (list string * option Z) :=
  (nginx_test, None) ::
  (if passed (subprocess_run W nginx_test None) then [(reload_of "nginx", None)]
   else if raised (subprocess_run W nginx_test None) then []
   else (apache_test, None) ::
        (if passed (subprocess_run W apache_test None)
         then [(reload_of "apache2", None)] else [])).

(** The subprocesses an enabled renewal of one domain starts. *)
Definition renew_commands (W : World) (config : Config) (d : string)
    : list (list string * option Z) :=
  (certbot_cmd config d, Some 300) ::
  (if passed (subprocess_run W (certbot_cmd config d) (Some 300))
   then reload_commands W else []).

(** A record calls for a critical alert. *)
Definition is_critical (config : Config) (c : CertRecord) : Prop :=
  status c = "error" ∨ days_until_expiry c <= critical_days config.
End TraceFacts.

(** Readings of the metric dictionaries. *)
Module ProbeShapes.
Import SystemMonitor MetricFacts.

(** An [int] or a [float]. *)
Definition is_number (v : pyval) : Prop :=
  match v with
  | PInt _ | PFloat _ => True
  | PStr _ | PBool _ => False
  end.

(** The value under a key, when present, is a number. *)
Definition numeric_at (key : string) (m : gmap string pyval) : Prop :=
  forall v, m !! key = Some v -> is_number v.

(** The three services of [check_services], with what was recorded. *)
Definition service_report (W : World) : list (string * bool) :=
  [("sshd", service_active W "sshd");
   ("systemd-resolved", service_active W "systemd-resolved");
   ("cron", service_active W "cron")].

(** A line of /proc/meminfo that [get_system_info] skips. *)
Definition skipped (line : string) : Prop :=
  contains "MemTotal:" line = false ∧ contains "MemAvailable:" line = false.

(** The memory sub-record for the given totals and percentage. *)
Definition memory_record (mem_total mem_available : Z) (pct : pyval)
    : gmap string pyval :=
  <["memory_used_percent" := pct]>
  (<["memory_available_bytes" := PInt mem_available]>
   (<["memory_total_bytes" := PInt mem_total]> ∅)).

(** The disk sub-record for the given sizes and percentage. *)
Definition disk_record (total used available : Z) (pct : pyval)
    : gmap string pyval :=
  <["disk_used_percent" := pct]>
  (<["disk_available_bytes" := PInt available]>
   (<["disk_used_bytes" := PInt used]>
    (<["disk_total_bytes" := PInt total]> ∅))).

(** The second line of what df printed, split into fields. *)
Definition df_fields (p : CompletedProcess) : option (list string) :=
  split_ws <$> (split_on newline (strip (stdout p)) !! 1%nat).

(** The fields of /proc/loadavg. *)
Definition loadavg_fields (text : string) : list string := split_ws (strip text).
End ProbeShapes.

(** ** Files, the webhook and the two command lines *)

Module Io.
Import SslCertMonitor SystemMonitor.

(** A decoded JSON value; an object keeps the order of its members. *)
#[local] Unset Elimination Schemes.
Inductive json : Type :=
| JNull
| JBool (b : bool)
| JInt (n : Z)
| JFloat (x : float)
| JStr (s : string)
| JList (items : list json)
| JDict (members : list (string * json)).
#[local] Set Elimination Schemes.

(** Effects beyond those of [event]: the webhook request and the writes
    to the file system. *)
Inductive effect : Type :=
| Base (ev : event)
| Post (url text username icon_emoji : string) (timeout : Z)
| MakeDirs (path : string)
| Append (path line : string).

(** What the rest of the environment answers.  [read_config path] stands
    for [open(path)], [json.load] and the [dict.update] that follows: the
    string-keyed assignments the update makes, in order, and the exception
    that ends it, if any (for a JSON object: its members and no
    exception); it is [Raise] when opening or decoding fails.
    The [dumps_*] functions are [json.dumps] on the dictionaries the
    scripts build. *)
Record Host : Type := mkHost {
  world : World;
  environ : string -> option string;
  path_exists : string -> bool;
  read_config : string -> res (list (string * json) * option exn);
  import_requests : res unit;
  requests_post : string -> string -> Z -> res Z;
  makedirs : string -> res unit;
  append_file : string -> string -> res unit;
  gethostname : string;
  format_2f : float -> string;
  dumps_cert_output : string -> list CertRecord -> list Alert.t -> list string -> string;
  dumps_cert_log : string -> string -> list CertRecord -> list Alert.t -> string;
  dumps_metrics_output : Metrics -> list string -> string -> string;
  dumps_metrics_log :
    string -> string -> list string -> option pyval -> option pyval -> option pyval
    -> string
}.

Definition IO (A : Type) : Type := list effect -> res A * list effect.

#[export] Instance IO_ret : MRet IO := fun _ a tr => (Ok a, tr).
#[export] Instance IO_bind : MBind IO := fun _ _ f m tr =>
  match m tr with
  | (Ok a, tr') => f a tr'
  | (Raise e, tr') => (Raise e, tr')
  end.

Definition io_lift {A} (r : res A) : IO A := fun tr => (r, tr).

Definition io_emit (e : effect) : IO unit := fun tr => (Ok tt, tr ++ [e]).

(** [try: body except Exception as e: handler e] *)
Definition io_try {A} (body : IO A) (handler : exn -> IO A) : IO A :=
  fun tr =>
    match body tr with
    | (Ok a, tr') => (Ok a, tr')
    | (Raise e, tr') => handler e tr'
    end.

(** The events of the earlier functions within a trace of effects. *)
Definition base_events (tr : list effect) : list event :=
  omap (fun e => match e with Base ev => Some ev | _ => None end) tr.

(** A computation of the earlier functions, run on the events so far; the
    events it adds are appended. *)
Definition of_M {A} (m : M A) : IO A := fun tr =>
  let before := base_events tr in
  let '(r, after) := m before in
  (r, tr ++ (Base <$> drop (length before) after)).

Definition io_print (line : string) : IO unit := of_M (print line).

Definition lf : string := String newline "".

Definition slash : ascii := Ascii.ascii_of_N 47.

Fixpoint has_slash (s : string) : bool :=
  match s with
  | EmptyString => false
  | String a s' => Ascii.eqb a slash || has_slash s'
  end.

(** [p[:p.rfind('/') + 1]] *)
Fixpoint upto_last_slash (p : string) : string :=
  match p with
  | EmptyString => ""
  | String a p' =>
      if has_slash p' then String a (upto_last_slash p')
      else if Ascii.eqb a slash then String a "" else ""
  end.

Fixpoint all_slashes (s : string) : bool :=
  match s with
  | EmptyString => true
  | String a s' => Ascii.eqb a slash && all_slashes s'
  end.

(** [s.rstrip('/')] *)
Fixpoint rstrip_slashes (s : string) : string :=
  match s with
  | EmptyString => ""
  | String a s' =>
      let r := rstrip_slashes s' in
      if Ascii.eqb a slash && negb (truthy_str r) then "" else String a r
  end.

(** [os.path.dirname] (posixpath) *)
Definition dirname (p : string) : string :=
  let head := upto_last_slash p in
  if truthy_str head && negb (all_slashes head) then rstrip_slashes head else head.


Section Calls.
Variable H : Host.

(** [requests.post(url, json=payload, timeout=10)], giving the status
    code. *)
Definition post (url text username icon_emoji : string) (timeout : Z) : IO Z :=
  io_emit (Post url text username icon_emoji timeout);;
  io_lift (requests_post H url text timeout).

(** [os.makedirs(path, exist_ok=True)] *)
Definition make_dirs (path : string) : IO unit :=
  io_emit (MakeDirs path);; io_lift (makedirs H path).

(** [with open(path, 'a') as f: f.write(line)] *)
Definition append (path line : string) : IO unit :=
  io_emit (Append path line);; io_lift (append_file H path line).
End Calls.

End Io.
Import Io.

(** ** tools/ssl-cert-monitor.py: configuration, alerts, log and main *)

Module CertMain.
Import SslCertMonitor.

(** The options of the certificate tool. *)
Record Args : Type := mkArgs {
  config_path : string;
  check_domain : option string;
  renew : bool;
  output : string
}.

(** [default_config] in [load_config], as the dictionary it is. *)
Definition default_dict (environ : string -> option string) : gmap string json :=
  <["log_file" := JStr "/var/log/ssl-monitor.log"]>
  (<["certbot_email" := JStr (environ_get environ "CERTBOT_EMAIL")]>
   (<["auto_renew" := JBool false]>
    (<["email_alerts" := JStr (environ_get environ "ALERT_EMAIL")]>
     (<["slack_webhook" := JStr (environ_get environ "SLACK_WEBHOOK_URL")]>
      (<["critical_days" := JInt 7]>
       (<["warning_days" := JInt 30]>
        (<["domains" := JList [JStr "api.mycompany.com"; JStr "app.mycompany.com";
                               JStr "www.mycompany.com"]]> ∅))))))).

(** [d.update(...)]: the assignments, in order. *)
Definition update (d : gmap string json) (assigned : list (string * json))
    : gmap string json :=
  foldl (fun m kv => <[kv.1 := kv.2]> m) d assigned.

Section Effects.
Variable L : Lib.
Variable H : Host.

(** [load_config] (lines 22-47). *)
Definition load_config (config_file : string) : IO (gmap string json) :=
  let default_config := default_dict (environ H) in
  let warn (e : exn) : IO unit :=
    io_print ("Warning: Could not load config file " +:+ config_file +:+ ": "
              +:+ str_exn e) in
  if path_exists H config_file then
    match read_config H config_file with
    | Ok (assigned, None) => mret (update default_config assigned)
    | Ok (assigned, Some e) => warn e;; mret (update default_config assigned)
    | Raise e => warn e;; mret default_config
    end
  else mret default_config.

(** The message loop of [send_slack_alert]. *)
Fixpoint slack_message (alerts : list Alert.t) (message : string) : string :=
  match alerts with
  | [] => message
  | alert :: rest =>
      let emoji := if String.eqb (Alert.level alert) "critical" then "🔴" else "🟡" in
      slack_message rest
        (message +:+ emoji +:+ " " +:+ Alert.domain alert +:+ ": "
         +:+ Alert.message alert +:+ lf)
  end.

(** [send_slack_alert] (lines 127-155). *)
Definition send_slack_alert (config : Config) (alerts : list Alert.t) : IO unit :=
  if negb (truthy_str (slack_webhook config)) then mret tt
  else
    io_try
      (io_lift (import_requests H);;
       let message := slack_message alerts ("SSL Certificate Alert:" +:+ lf) in
       status_code ← post H (slack_webhook config) message "SSL Monitor" ":lock:" 10;
       if status_code =? 200 then io_print "Slack alert sent successfully"
       else io_print ("Failed to send Slack alert: " +:+ str_int status_code))
      (fun e => io_print ("Error sending Slack alert: " +:+ str_exn e)).

(** [log_results] (lines 212-226). *)
Definition log_results (config : Config) (results : list CertRecord)
    (alerts : list Alert.t) : IO unit :=
  now ← of_M (datetime_now (world H));
  let log_entry :=
    dumps_cert_log H (isoformat L now) (gethostname H) results alerts in
  io_try
    (make_dirs H (dirname (log_file config));;
     append H (log_file config) (log_entry +:+ lf))
    (fun e => io_print ("Warning: Could not write to log file: " +:+ str_exn e)).





End Effects.

End CertMain.

(** ** tools/system-monitor.py: one monitoring run *)

Module MonitorMain.
Import SystemMonitor.

(** The options of the system monitor that a single run reads. *)
Record Args : Type := mkArgs {
  output : string;
  log_file : option string
}.

Section Effects.
Variable L : Lib.
Variable H : Host.

(** [f"{v:.2f}"] *)
Definition fmt_2f (v : pyval) : res string :=
  match v with
  | PFloat x => Ok (format_2f H x)
  | PInt n => Ok (str_int n +:+ ".00")
  | PBool b => Ok (str_int (Z.b2z b) +:+ ".00")
  | PStr _ => Raise (ValueError "Unknown format code 'f' for object of type 'str'")
  end.

(** [send_to_monitoring_system] (lines 162-174). *)
Definition send_to_monitoring_system (metrics : Metrics) : IO unit :=
  match environ H "MONITORING_ENDPOINT" with
  | Some monitoring_endpoint =>
      if truthy_str monitoring_endpoint
      then io_print ("Would send metrics to: " +:+ monitoring_endpoint)
      else io_print "No monitoring endpoint configured"
  | None => io_print "No monitoring endpoint configured"
  end.

Fixpoint print_services (items : list (string * bool)) : IO unit :=
  match items with
  | [] => mret tt
  | (service, status) :: rest =>
      let status_text := if status then "RUNNING" else "STOPPED" in
      io_print ("  " +:+ service +:+ ": " +:+ status_text);;
      print_services rest
  end.

Fixpoint print_warnings (warnings : list string) : IO unit :=
  match warnings with
  | [] => mret tt
  | warning :: rest => io_print ("  - " +:+ warning);; print_warnings rest
  end.

(** The human-readable branch of [run_monitoring] (lines 201-230). *)
Definition print_human (metrics : Metrics) (warnings : list string) : IO unit :=
  io_print ("System Monitor Report - " +:+ timestamp metrics);;
  io_print ("Hostname: " +:+ hostname metrics);;
  io_print "";;
  match system metrics !! "memory_used_percent" with
  | Some v => shown ← io_lift (fmt_1f L v); io_print ("Memory Usage: " +:+ shown +:+ "%")
  | None => mret tt
  end;;
  match disk metrics !! "disk_used_percent" with
  | Some v => shown ← io_lift (fmt_1f L v); io_print ("Disk Usage: " +:+ shown +:+ "%")
  | None => mret tt
  end;;
  match cpu metrics !! "load_1min" with
  | Some v => shown ← io_lift (fmt_2f v); io_print ("Load Average: " +:+ shown)
  | None => mret tt
  end;;
  io_print ("Internet Connectivity: "
            +:+ (match network metrics !! "internet_reachable" with
                 | Some v => if truthy v then "OK" else "FAILED"
                 | None => "FAILED"
                 end));;
  io_print (lf +:+ "Service Status:");;
  print_services (services metrics);;
  match warnings with
  | [] => io_print (lf +:+ "All systems normal")
  | _ => io_print (lf +:+ "WARNINGS:");; print_warnings warnings
  end.

(** [run_monitoring] (lines 188-249), which [main] returns when
    [--daemon] is not given. *)
Definition run_monitoring (args : Args) : IO Z :=
  metrics ← of_M (collect_metrics L (world H));
  warnings ← io_lift (check_thresholds L metrics);
  (if String.eqb (output args) "json" then
     io_print (dumps_metrics_output H metrics warnings
                 (match warnings with [] => "ok" | _ => "warning" end))
   else print_human metrics warnings);;
  match log_file args with
  | Some path =>
      if truthy_str path then
        append H path
          (dumps_metrics_log H (timestamp metrics) (hostname metrics) warnings
             (system metrics !! "memory_used_percent")
             (disk metrics !! "disk_used_percent")
             (cpu metrics !! "load_1min") +:+ lf)
      else mret tt
  | None => mret tt
  end;;
  send_to_monitoring_system metrics;;
  mret (match warnings with [] => 0 | _ => 1 end).
End Effects.

End MonitorMain.

(** Readings of a trace of effects, and of a configuration dictionary. *)
Module IoFacts.
Import SslCertMonitor CertMain.


(** The file-system writes attempted, in order. *)
Definition writes (tr : list effect) : list effect :=
  omap (fun e => match e with MakeDirs _ | Append _ _ => Some e | _ => None end) tr.

(** The line of the Slack message for one alert. *)
Definition slack_line (alert : Alert.t) : string :=
  (if String.eqb (Alert.level alert) "critical" then "🔴" else "🟡")
  +:+ " " +:+ Alert.domain alert +:+ ": " +:+ Alert.message alert +:+ lf.

(** The text posted to Slack for a list of alerts. *)
Definition slack_text (alerts : list Alert.t) : string :=
  foldl String.append ("SSL Certificate Alert:" +:+ lf) (slack_line <$> alerts).

(** The last value assigned to a key, if any. *)
Definition last_assigned (assigned : list (string * json)) (key : string)
    : option json :=
  (list_to_map (reverse assigned) : gmap string json) !! key.

Definition as_str (v : json) : option string :=
  match v with JStr s => Some s | _ => None end.
Definition as_int (v : json) : option Z :=
  match v with JInt n => Some n | _ => None end.
Definition as_bool (v : json) : option bool :=
  match v with JBool b => Some b | _ => None end.
Definition as_strs (v : json) : option (list string) :=
  match v with JList items => mapM as_str items | _ => None end.

(** The configuration dictionary read at the types of its defaults. *)
Definition typed_config (d : gmap string json) : option Config :=
  ds ← d !! "domains" ≫= as_strs;
  w ← d !! "warning_days" ≫= as_int;
  c ← d !! "critical_days" ≫= as_int;
  hook ← d !! "slack_webhook" ≫= as_str;
  mail ← d !! "email_alerts" ≫= as_str;
  auto ← d !! "auto_renew" ≫= as_bool;
  cb ← d !! "certbot_email" ≫= as_str;
  lg ← d !! "log_file" ≫= as_str;
  Some (mkConfig ds w c hook mail auto cb lg).

(** The warning [load_config] prints. *)
Definition config_warning (path : string) (e : exn) : effect :=
  Base (EPrint ("Warning: Could not load config file " +:+ path +:+ ": " +:+ str_exn e)).
End IoFacts.

(** What a run leaves behind, prints aside. *)
Module Footprint.
Import SslCertMonitor CertMain.





End Footprint.

(** ** Words for the runs of the system monitor *)

Module RunFacts.
Import SystemMonitor MetricFacts TraceFacts.

(** The files read and the subprocesses started for one snapshot, in
    order: the ping only after a DNS lookup that returned. *)
Definition probe_events (W : World) : list event :=
  [ERead "/proc/meminfo"; ERun df_cmd None; ERead "/proc/loadavg";
   ERun nslookup_cmd (Some 5)]
  ++ (if raised (subprocess_run W nslookup_cmd (Some 5)) then []
      else [ERun ping_cmd (Some 10)])
  ++ [ERun (is_active_cmd "sshd") None;
      ERun (is_active_cmd "systemd-resolved") None;
      ERun (is_active_cmd "cron") None].

(** The line [send_to_monitoring_system] prints. *)
Definition endpoint_line (H : Host) : string :=
  match environ H "MONITORING_ENDPOINT" with
  | Some url =>
      if truthy_str url then "Would send metrics to: " +:+ url
      else "No monitoring endpoint configured"
  | None => "No monitoring endpoint configured"
  end.

(** The log file a run appends to, if any. *)
Definition log_target (args : MonitorMain.Args) : option string :=
  match MonitorMain.log_file args with
  | Some path => if truthy_str path then Some path else None
  | None => None
  end.

(** The line a run appends to its log file. *)
Definition log_line (H : Host) (m : Metrics) (warnings : list string) : string :=
  dumps_metrics_log H (timestamp m) (hostname m) warnings
    (system m !! "memory_used_percent")
    (disk m !! "disk_used_percent")
    (cpu m !! "load_1min") +:+ lf.

(** The status word of the JSON report. *)
Definition status_word (warnings : list string) : string :=
  match warnings with [] => "ok" | _ => "warning" end.

(** A computation that returns after printing lines that satisfy [P], and
    does nothing else. *)
Definition prints (m : IO unit) (P : list string -> Prop) : Prop :=
  forall tr, exists lines,
    m tr = (Ok tt, tr ++ (Base <$> (EPrint <$> lines))) ∧ P lines.

(** A threshold warning of one of the three measured values. *)
Definition high_line (w : string) : Prop := exists rest, w = "High " +:+ rest.

(** The three measured values that are compared and formatted are
    numbers whenever they are present. *)
Definition measured (m : Metrics) : Prop :=
  ProbeShapes.numeric_at "memory_used_percent" (system m)
  ∧ ProbeShapes.numeric_at "disk_used_percent" (disk m)
  ∧ ProbeShapes.numeric_at "load_1min" (cpu m).

(** A host on which the DNS lookup times out and whose log file cannot
    be opened. *)
Definition dns_down_host : Host :=
  {| world := dns_down;
     environ := fun _ => None;
     path_exists := fun _ => false;
     read_config := fun _ => Raise (LibError "FileNotFoundError" "no such file");
     import_requests := Ok tt;
     requests_post := fun _ _ _ => Ok 200;
     makedirs := fun _ => Ok tt;
     append_file := fun _ _ => Raise (LibError "PermissionError" "permission denied");
     gethostname := "host01";
     format_2f := fun _ => "?";
     dumps_cert_output := fun _ _ _ _ => "{}";
     dumps_cert_log := fun _ _ _ _ => "{}";
     dumps_metrics_output := fun _ _ _ => "{}";
     dumps_metrics_log := fun _ _ _ _ _ _ => "{}" |}.
End RunFacts.

(** ** Sample hosts of the certificate tool *)

Module Hosts.
Import SslCertMonitor.

(** The healthy world with a webhook that answers 200 and a writable file
    system; as [os.makedirs] does, creating the empty path fails. *)
Definition posix : Host :=
  {| world := Samples.healthy;
     environ := fun _ => None;
     path_exists := fun _ => false;
     read_config := fun _ => Raise (LibError "FileNotFoundError" "no such file");
     import_requests := Ok tt;
     requests_post := fun _ _ _ => Ok 200;
     makedirs := fun path =>
       if truthy_str path then Ok tt
       else Raise (LibError "FileNotFoundError"
                     "[Errno 2] No such file or directory: ''");
     append_file := fun _ _ => Ok tt;
     gethostname := "host01";
     format_2f := fun _ => "?";
     dumps_cert_output := fun _ _ _ _ => "{}";
     dumps_cert_log := fun _ _ _ _ => "{}";
     dumps_metrics_output := fun _ _ _ => "{}";
     dumps_metrics_log := fun _ _ _ _ _ _ => "{}" |}.

(** The default configuration with a log file named without a directory. *)
Definition bare_log_config : Config :=
  mkConfig ["a.example"] 30 7 "" "" false "" "ssl-monitor.log".
End Hosts.

(** ** Proof steps shared by the statements *)

Import SslCertMonitor CertFacts SystemMonitor MetricFacts TraceFacts ProbeShapes.
Import CertMain IoFacts Footprint RunFacts.

(** Events of a literal trace, none of them a foreign certbot call. *)
Ltac trace_ok :=
  repeat first
    [ apply Forall_nil_2
    | apply Forall_cons_2; [first [assumption | by intros ? ?] |] ].

(** Unfold the monadic plumbing of a probe down to the answers of the world. *)
Ltac unfold_probe :=
  unfold try_except, run, read, datetime_now;
  unfold mbind, M_bind, mret, M_ret, lift, emit; simpl.

(** The keys of a dictionary built by successive assignments. *)
Ltac keys_ok :=
  unfold populated, system_keys, disk_keys, cpu_keys, network_keys;
  rewrite !dom_insert_L, dom_empty_L;
  apply set_eq; intros ?;
  rewrite !elem_of_union, !elem_of_list_to_set, !elem_of_singleton, !elem_of_cons,
    elem_of_empty, elem_of_nil;
  tauto.

(** One case split of [check_thresholds]: a key, a comparison, a
    formatting or a truth value. *)
Ltac threshold_case :=
  match goal with
  | |- context [?d !! ?key] => destruct (d !! key)
  | |- context [gt_literal ?v ?k ?ty] => destruct (gt_literal v k ty) as [[|]|?]
  | |- context [fmt_1f ?L ?v] => destruct (fmt_1f L v)
  | |- context [truthy ?v] => destruct (truthy v)
  end.

(** ** Threshold evaluation *)

Section AnalyzeResults.
Variable config : Config.

Lemma analyze_loop_acc results : forall alerts renewals,
  analyze_loop config results alerts renewals =
  '(a, r) ← analyze_results config results; Ok (alerts ++ a, renewals ++ r).
Proof.
  unfold analyze_results.
  induction results as [|c rest IH]; intros alerts renewals; simpl.
  - by rewrite !app_nil_r.
  - destruct (String.eqb (status c) "error").
    + destruct (error c) as [e|]; simpl; [|done].
      rewrite (IH (alerts ++ _)), (IH [_]).
      destruct (analyze_loop config rest [] []) as [[a r]|]; simpl; [|done].
      by rewrite <- ?app_assoc.
    + destruct (days_until_expiry c <=? critical_days config).
      * rewrite (IH (alerts ++ _)), (IH [_]).
        destruct (analyze_loop config rest [] []) as [[a r]|]; simpl; [|done].
        by rewrite <- ?app_assoc.
      * destruct (days_until_expiry c <=? warning_days config).
        -- rewrite (IH (alerts ++ _)), (IH [_]).
           destruct (analyze_loop config rest [] []) as [[a r]|]; simpl; [|done].
           by rewrite <- ?app_assoc.
        -- apply IH.
Qed.

Lemma analyze_results_cons c rest :
  analyze_results config (c :: rest) =
  '(a1, r1) ← analyze_results config [c];
  '(a2, r2) ← analyze_results config rest;
  Ok (a1 ++ a2, r1 ++ r2).
Proof.
  unfold analyze_results; simpl.
  destruct (String.eqb (status c) "error").
  - destruct (error c) as [e|]; simpl; [|done]. by rewrite analyze_loop_acc.
  - destruct (days_until_expiry c <=? critical_days config); simpl.
    + by rewrite analyze_loop_acc.
    + destruct (days_until_expiry c <=? warning_days config); simpl.
      * by rewrite analyze_loop_acc.
      * by destruct (analyze_loop config rest [] []) as [[a r]|].
Qed.

Lemma analyze_results_app l1 l2 :
  analyze_results config (l1 ++ l2) =
  '(a1, r1) ← analyze_results config l1;
  '(a2, r2) ← analyze_results config l2;
  Ok (a1 ++ a2, r1 ++ r2).
Proof.
  induction l1 as [|c l1 IH]; simpl.
  - by destruct (analyze_results config l2) as [[a r]|].
  - rewrite (analyze_results_cons c (l1 ++ l2)), (analyze_results_cons c l1), IH.
    destruct (analyze_results config [c]) as [[a0 r0]|]; simpl; [|done].
    destruct (analyze_results config l1) as [[a1 r1]|]; simpl; [|done].
    destruct (analyze_results config l2) as [[a2 r2]|]; simpl; [|done].
    by rewrite <- ?app_assoc.
Qed.

(** A record between two stretches of records that evaluate without
    error adds its own contribution in place. *)
Lemma analyze_results_insert pre c post a1 r1 a r a2 r2 :
  analyze_results config pre = Ok (a1, r1) ->
  analyze_results config [c] = Ok (a, r) ->
  analyze_results config post = Ok (a2, r2) ->
  analyze_results config (pre ++ c :: post) = Ok (a1 ++ a ++ a2, r1 ++ r ++ r2).
Proof.
  intros Hpre Hc Hpost.
  rewrite analyze_results_app, (analyze_results_cons c post), Hpre, Hc, Hpost.
  simpl. by rewrite <- ?app_assoc.
Qed.

Lemma analyze_valid_single c :
  status c = "valid" ->
  analyze_results config [c] =
  Ok (if days_until_expiry c <=? critical_days config
      then ([critical_alert c], [domain c])
      else if days_until_expiry c <=? warning_days config
      then ([warning_alert c], [])
      else ([], [])).
Proof.
  intros Hs. unfold analyze_results; simpl. rewrite Hs; simpl.
  destruct (_ <=? critical_days _); [done|].
  by destruct (_ <=? warning_days _).
Qed.

Lemma analyze_error_single c e :
  status c = "error" -> error c = Some e ->
  analyze_results config [c] = Ok ([failed_alert c e], []).
Proof.
  intros Hs He. unfold analyze_results; simpl. by rewrite Hs, He.
Qed.
End AnalyzeResults.

(** C1.  A record with status ['valid'], evaluated among records that
    themselves evaluate, is classified by its days-until-expiry against the
    configured thresholds: at most [critical_days] (the boundary included,
    [critical_days] being tested first) it adds one critical alert and its
    domain to the renewal list; otherwise at most [warning_days] it adds
    exactly one warning alert and no renewal entry; otherwise it adds
    nothing.  With the defaults 7 and 30: 7 days is critical and renewed,
    8 days is a warning, 31 days gives no alert. *)
Theorem C1_valid_record_thresholds :
  forall (config : Config) (pre post : list CertRecord) (c : CertRecord)
         (a1 a2 : list Alert.t) (r1 r2 : list string),
    status c = "valid" ->
    analyze_results config pre = Ok (a1, r1) ->
    analyze_results config post = Ok (a2, r2) ->
    (days_until_expiry c <= critical_days config ->
       analyze_results config (pre ++ c :: post) =
       Ok (a1 ++ [critical_alert c] ++ a2, r1 ++ [domain c] ++ r2))
    ∧ (days_until_expiry c = critical_days config ->
       analyze_results config [c] = Ok ([critical_alert c], [domain c]))
    ∧ (critical_days config < days_until_expiry c <= warning_days config ->
       analyze_results config (pre ++ c :: post) =
       Ok (a1 ++ [warning_alert c] ++ a2, r1 ++ r2))
    ∧ (critical_days config < days_until_expiry c ->
       warning_days config < days_until_expiry c ->
       analyze_results config (pre ++ c :: post) = Ok (a1 ++ a2, r1 ++ r2))
    ∧ (forall environ d,
       analyze_results (default_config environ) [valid_record d 7] =
         Ok ([Alert.mk "critical" d "Certificate expires in 7 days!"], [d])
       ∧ analyze_results (default_config environ) [valid_record d 8] =
         Ok ([Alert.mk "warning" d "Certificate expires in 8 days"], [])
       ∧ analyze_results (default_config environ) [valid_record d 31] =
         Ok ([], [])).
Proof.
  intros config pre post c a1 a2 r1 r2 Hs Hpre Hpost.
  pose proof (analyze_valid_single config c Hs) as Hc.
  repeat split.
  - intros Hd. apply Z.leb_le in Hd. rewrite Hd in Hc.
    apply (analyze_results_insert config pre c post _ _ _ _ _ _ Hpre Hc Hpost).
  - intros Hd. rewrite Hc.
    replace (days_until_expiry c <=? critical_days config) with true; [done|].
    symmetry. apply Z.leb_le. lia.
  - intros [Hlo Hhi].
    apply Z.leb_gt in Hlo. apply Z.leb_le in Hhi. rewrite Hlo, Hhi in Hc.
    rewrite (analyze_results_insert config pre c post _ _ _ _ _ _ Hpre Hc Hpost).
    by rewrite app_nil_l.
  - intros Hlo Hhi.
    apply Z.leb_gt in Hlo. apply Z.leb_gt in Hhi. rewrite Hlo, Hhi in Hc.
    by rewrite (analyze_results_insert config pre c post _ _ _ _ _ _ Hpre Hc Hpost).
Qed.

(** C1 at three records under the default thresholds. *)
Lemma C1_valid_record_thresholds_witness :
  analyze_results (default_config (fun _ => None))
    ([valid_record "a.example" 40] ++ valid_record "b.example" 7
       :: [valid_record "c.example" 12]) =
  Ok ([] ++ [critical_alert (valid_record "b.example" 7)]
         ++ [warning_alert (valid_record "c.example" 12)],
      [] ++ ["b.example"] ++ []).
Proof.
  refine (proj1 (C1_valid_record_thresholds (default_config (fun _ => None))
                   [valid_record "a.example" 40] [valid_record "c.example" 12]
                   (valid_record "b.example" 7) [] _ [] [] _ _ _) _).
  - reflexivity.
  - reflexivity.
  - reflexivity.
  - simpl. lia.
Defined.

(** C2.  A record whose status is ['error'] adds one critical alert whose
    message is "Certificate check failed: " followed by the record's error
    string, and no renewal entry, whatever its days-until-expiry. *)
Theorem C2_error_record_critical :
  forall (config : Config) (pre post : list CertRecord) (c : CertRecord)
         (e : string) (a1 a2 : list Alert.t) (r1 r2 : list string),
    status c = "error" ->
    error c = Some e ->
    analyze_results config pre = Ok (a1, r1) ->
    analyze_results config post = Ok (a2, r2) ->
    analyze_results config (pre ++ c :: post) =
      Ok (a1 ++ [Alert.mk "critical" (domain c) ("Certificate check failed: " +:+ e)]
             ++ a2,
          r1 ++ r2)
    ∧ (forall days d,
         analyze_results config [error_record d e days] =
         Ok ([Alert.mk "critical" d ("Certificate check failed: " +:+ e)], [])).
Proof.
  intros config pre post c e a1 a2 r1 r2 Hs He Hpre Hpost. split.
  - pose proof (analyze_error_single config c e Hs He) as Hc.
    rewrite (analyze_results_insert config pre c post _ _ _ _ _ _ Hpre Hc Hpost).
    by rewrite app_nil_l.
  - intros days d. by apply analyze_error_single.
Qed.

(** C2 at an error record whose days value is 400. *)
Lemma C2_error_record_critical_witness :
  analyze_results (default_config (fun _ => None))
    ([valid_record "a.example" 3] ++ error_record "b.example" "timed out" 400
       :: [valid_record "c.example" 90]) =
  Ok ([critical_alert (valid_record "a.example" 3)]
        ++ [Alert.mk "critical" "b.example" "Certificate check failed: timed out"]
        ++ [],
      ["a.example"] ++ []).
Proof.
  refine (proj1 (C2_error_record_critical (default_config (fun _ => None))
                   [valid_record "a.example" 3] [valid_record "c.example" 90]
                   (error_record "b.example" "timed out" 400) "timed out"
                   _ [] _ [] _ _ _ _)).
  - reflexivity.
  - reflexivity.
  - reflexivity.
  - reflexivity.
Defined.

Section AnalyzeOrder.
Variable config : Config.

Lemma analyze_single_wf c :
  has_error_key c ->
  analyze_results config [c] =
  Ok (alerts_of config c,
      if decide (in_critical_bucket config c) then [domain c] else []).
Proof.
  intros Hwf. unfold alerts_of, in_critical_bucket, analyze_results; simpl.
  destruct (String.eqb (status c) "error") eqn:Hs.
  - apply String.eqb_eq in Hs. destruct (Hwf Hs) as [e He]. rewrite He; simpl.
    rewrite decide_False; [done|]. intros [Hne _]. done.
  - apply String.eqb_neq in Hs.
    destruct (days_until_expiry c <=? critical_days config) eqn:Hc.
    + apply Z.leb_le in Hc. by rewrite decide_True.
    + apply Z.leb_gt in Hc. rewrite decide_False by (intros [_ ?]; lia).
      by destruct (days_until_expiry c <=? warning_days config).
Qed.

Lemma alerts_of_at_most_one c :
  (length (alerts_of config c) <= 1)%nat
  ∧ forall a, a ∈ alerts_of config c -> Alert.domain a = domain c.
Proof.
  unfold alerts_of, analyze_results; simpl.
  destruct (String.eqb (status c) "error").
  - destruct (error c) as [e|]; simpl.
    + split; [lia|]. intros a Ha. apply list_elem_of_singleton in Ha. by subst.
    + split; [lia|]. intros a Ha. by apply elem_of_nil in Ha.
  - destruct (days_until_expiry c <=? critical_days config); simpl.
    + split; [lia|]. intros a Ha. apply list_elem_of_singleton in Ha. by subst.
    + destruct (days_until_expiry c <=? warning_days config); simpl.
      * split; [lia|]. intros a Ha. apply list_elem_of_singleton in Ha. by subst.
      * split; [lia|]. intros a Ha. by apply elem_of_nil in Ha.
Qed.

Lemma analyze_results_wf results :
  Forall has_error_key results ->
  analyze_results config results =
  Ok (flat_map (alerts_of config) results,
      domain <$> filter (in_critical_bucket config) results).
Proof.
  induction 1 as [|c rest Hc Hrest IH]; [done|].
  rewrite analyze_results_cons, (analyze_single_wf c Hc), IH; simpl.
  rewrite filter_cons. by destruct (decide (in_critical_bucket config c)).
Qed.

Lemma alert_domains_sublist results :
  Alert.domain <$> flat_map (alerts_of config) results
    `sublist_of` (domain <$> results).
Proof.
  induction results as [|c rest IH]; simpl; [constructor|].
  rewrite fmap_app.
  destruct (alerts_of_at_most_one c) as [Hlen Hdom].
  destruct (alerts_of config c) as [|a [|b l]]; simpl in *.
  - by constructor.
  - rewrite (Hdom a) by apply list_elem_of_here. by constructor.
  - lia.
Qed.
End AnalyzeOrder.

(** C4.  On records of the two shapes the certificate check builds,
    threshold evaluation returns; its alerts are the records' own alerts
    (none or one each, carrying the record's domain) concatenated in input
    order, and its renewal list is the domains of exactly the records in the
    critical days-until-expiry bucket, in input order. *)
Theorem C4_alerts_and_renewals_in_input_order :
  forall (config : Config) (results : list CertRecord),
    Forall has_error_key results ->
    exists alerts renewals,
      analyze_results config results = Ok (alerts, renewals)
      ∧ alerts = flat_map (alerts_of config) results
      ∧ (forall c, (length (alerts_of config c) <= 1)%nat
                   ∧ forall a, a ∈ alerts_of config c -> Alert.domain a = domain c)
      ∧ Alert.domain <$> alerts `sublist_of` (domain <$> results)
      ∧ renewals = domain <$> filter (in_critical_bucket config) results
      ∧ renewals `sublist_of` (domain <$> results).
Proof.
  intros config results Hwf.
  eexists _, _. split; [by apply analyze_results_wf|].
  split; [done|]. split; [apply alerts_of_at_most_one|].
  split; [apply alert_domains_sublist|]. split; [done|].
  apply fmap_sublist, sublist_filter.
Qed.

(** C4 at five records, one of them an error record. *)
Lemma C4_alerts_and_renewals_in_input_order_witness :
  exists alerts renewals,
    analyze_results (default_config (fun _ => None))
      [valid_record "a.example" 20; error_record "b.example" "refused" (-1);
       valid_record "c.example" 2; valid_record "d.example" 365;
       valid_record "e.example" 7] = Ok (alerts, renewals)
    ∧ Alert.domain <$> alerts = ["a.example"; "b.example"; "c.example"; "e.example"]
    ∧ renewals = ["c.example"; "e.example"].
Proof.
  destruct (C4_alerts_and_renewals_in_input_order
              (default_config (fun _ => None))
              [valid_record "a.example" 20; error_record "b.example" "refused" (-1);
               valid_record "c.example" 2; valid_record "d.example" 365;
               valid_record "e.example" 7])
    as (alerts & renewals & Hrun & Halerts & _ & _ & Hren & _).
  - repeat (constructor;
            [first [intros _; by eexists | intros H; discriminate H]|]).
    constructor.
  - exists alerts, renewals. split; [exact Hrun|]. split.
    + rewrite Halerts. reflexivity.
    + rewrite Hren. reflexivity.
Defined.

(** ** The certificate check *)

Section CertCheck.
Variable L : Lib.
Variable W : World.

Lemma get_cert_info_eq d port tr :
  get_cert_info L W d port tr =
  match create_default_context W with
  | Raise e => (Ok (error_record d (str_exn e) (-1)), tr)
  | Ok _ =>
      match create_connection W d port 10 with
      | Raise e => (Ok (error_record d (str_exn e) (-1)), tr ++ [EConnect d port 10])
      | Ok _ =>
          let tr' := tr ++ [EConnect d port 10; EHandshake d] in
          match wrap_socket W d with
          | Raise e => (Ok (error_record d (str_exn e) (-1)), tr')
          | Ok cert =>
              match peer_fields L cert with
              | Raise e => (Ok (error_record d (str_exn e) (-1)), tr')
              | Ok (expiry, iss, sub) =>
                  (Ok (checked_record L d cert expiry (clock W (length tr + 2)) iss sub), tr')
              end
          end
      end
  end.
Proof.
  unfold get_cert_info, try_except, connect, handshake, datetime_now, peer_fields.
  unfold mbind, M_bind, mret, M_ret, lift, emit, checked_record, cert_time_format; simpl.
  destruct (create_default_context W) as [[]|e0]; [|done].
  destruct (create_connection W d port 10) as [[]|e1]; [|done].
  rewrite <- !app_assoc; simpl.
  destruct (wrap_socket W d) as [cert|e2]; [|done].
  destruct (PeerCert.notAfter cert) as [s|]; simpl; [|done].
  destruct (strptime L s _) as [expiry|e3]; simpl; [|done].
  destruct (getitem "issuer" _) as [rdns|e4]; simpl; [|done].
  destruct (first_pairs rdns) as [iss|e5]; simpl; [|done].
  destruct (getitem "subject" _) as [rdns'|e6]; simpl; [|done].
  destruct (first_pairs rdns') as [sub|e7]; simpl; [|done].
  rewrite length_app; simpl. done.
Qed.

Lemma timedelta_days_floor a b :
  us_per_day * timedelta_days a b <= a - b < us_per_day * (timedelta_days a b + 1).
Proof.
  unfold timedelta_days, us_per_day.
  pose proof (Z.div_mod (a - b) 86400000000 ltac:(lia)).
  pose proof (Z.mod_pos_bound (a - b) 86400000000 ltac:(lia)).
  lia.
Qed.
End CertCheck.

(** C3.  The certificate check always returns a record and never raises;
    it makes at most one connection attempt (10-second timeout) and one
    handshake.  When the connection, the handshake and the reading of the
    certificate fields succeed the record has status ['valid'] with the
    issuer, the subject, the not-after time and the SAN list, and its
    days-until-expiry is the floor of (not-after - now) in days;
    when any of these steps raises, the record has status ['error'], the
    stringified exception and days-until-expiry -1.  Whole days are not
    rounded: a microsecond short of two days counts as one day, and a
    microsecond past expiry as -1. *)
Theorem C3_get_cert_info_contract :
  forall (L : Lib) (W : World) (d : string) (port : Z) (tr : list event),
    (exists r suffix,
       get_cert_info L W d port tr = (Ok r, tr ++ suffix)
       ∧ suffix `prefix_of` [EConnect d port 10; EHandshake d]
       ∧ match peer_cert_of W d port
                 ≫= (fun cert => f ← peer_fields L cert; mret (cert, f)) with
         | Ok (cert, (expiry, iss, sub)) =>
             let now := clock W (length tr + 2) in
             r = {| domain := d;
                    issuer := Some iss;
                    subject := Some sub;
                    expiry_date := Some (isoformat L expiry);
                    days_until_expiry := (expiry - now) `div` 86400000000;
                    status := "valid";
                    san_domains := Some (default [] (PeerCert.subjectAltName cert));
                    error := None |}
             ∧ 86400000000 * days_until_expiry r <= expiry - now
                 < 86400000000 * (days_until_expiry r + 1)
             ∧ suffix = [EConnect d port 10; EHandshake d]
         | Raise e =>
             r = {| domain := d; issuer := None; subject := None;
                    expiry_date := None; days_until_expiry := -1;
                    status := "error"; san_domains := None;
                    error := Some (str_exn e) |}
         end)
    ∧ (forall now, timedelta_days (now + 2 * 86400000000 - 1) now = 1
                   ∧ timedelta_days (now - 1) now = -1).
Proof.
  intros L W d port tr. split.
  - rewrite get_cert_info_eq. unfold peer_cert_of.
    destruct (create_default_context W) as [[]|e0]; simpl.
    2: { exists (error_record d (str_exn e0) (-1)), [].
         rewrite app_nil_r. repeat split. apply prefix_nil. }
    destruct (create_connection W d port 10) as [[]|e1]; simpl.
    2: { exists (error_record d (str_exn e1) (-1)), [EConnect d port 10].
         repeat split. by apply prefix_cons, prefix_nil. }
    destruct (wrap_socket W d) as [cert|e2]; simpl.
    2: { by eexists _, _. }
    destruct (peer_fields L cert) as [[[expiry iss] sub]|e3]; simpl.
    2: { by eexists _, _. }
    eexists _, _. split; [done|]. split; [done|]. split; [done|]. split; [|done].
    apply (timedelta_days_floor expiry).
  - intros now. unfold timedelta_days, us_per_day. split.
    + replace (now + 2 * 86400000000 - 1 - now) with 172799999999 by lia. done.
    + replace (now - 1 - now) with (-1) by lia. done.
Qed.

(** ** Renewal actuation *)

Section Renewal.
Variable W : World.
Variable config : Config.

Lemma targets_within_mono ds ds' ev :
  ds ⊆ ds' -> targets_within ds ev -> targets_within ds' ev.
Proof. intros Hsub H d Hd. apply Hsub, H, Hd. Qed.

Lemma reload_web_server_trace tr :
  exists suffix,
    reload_web_server W tr = (Ok tt, tr ++ suffix)
    ∧ Forall (targets_within []) suffix.
Proof.
  unfold reload_web_server, try_except, run, print.
  unfold mbind, M_bind, mret, M_ret, lift, emit; simpl.
  destruct (subprocess_run W ["nginx"; "-t"] None) as [p1|e1]; simpl.
  2: { eexists [_; _]. rewrite <- app_assoc. split; [done|].
       trace_ok. }
  destruct (returncode p1 =? 0).
  - destruct (subprocess_run W ["systemctl"; "reload"; "nginx"] None) as [p2|e2]; simpl.
    + eexists [_; _; _]. rewrite <- !app_assoc. split; [done|].
      trace_ok.
    + eexists [_; _; _]. rewrite <- !app_assoc. split; [done|].
      trace_ok.
  - destruct (subprocess_run W ["apache2ctl"; "configtest"] None) as [p3|e3]; simpl.
    2: { eexists [_; _; _]. rewrite <- !app_assoc. split; [done|].
         trace_ok. }
    destruct (returncode p3 =? 0).
    + destruct (subprocess_run W ["systemctl"; "reload"; "apache2"] None) as [p4|e4]; simpl.
      * eexists [_; _; _; _]. rewrite <- !app_assoc. split; [done|].
        trace_ok.
      * eexists [_; _; _; _]. rewrite <- !app_assoc. split; [done|].
        trace_ok.
    + eexists [_; _]. rewrite <- !app_assoc. split; [done|].
      trace_ok.
Qed.
Lemma renew_certificate_trace d tr :
  exists b suffix,
    renew_certificate W config d tr = (Ok b, tr ++ suffix)
    ∧ Forall (targets_within [d]) suffix
    ∧ (auto_renew config = false -> b = false ∧ suffix = [disabled_notice d]).
Proof.
  unfold renew_certificate.
  destruct (auto_renew config); simpl.
  2: { exists false, [disabled_notice d]. split; [done|]. split; [|done].
       trace_ok. }
  unfold try_except, run, print.
  unfold mbind, M_bind, mret, M_ret, lift, emit; simpl.
  set (cmd := if truthy_str (certbot_email config) then _ else _).
  assert (Hcmd : targets_within [d] (ERun cmd (Some 300))).
  { intros d' Hd. subst cmd.
    destruct (truthy_str (certbot_email config)); simpl in Hd;
      injection Hd as <-; apply list_elem_of_here. }
  destruct (subprocess_run W cmd (Some 300)) as [p|e]; simpl.
  2: { eexists false, [_; _; _]. rewrite <- !app_assoc. split; [done|].
       split; [|done]. trace_ok. }
  destruct (returncode p =? 0).
  - match goal with
    | |- context [reload_web_server W ?t] =>
        destruct (reload_web_server_trace t) as (suffix & Hr & Hsuf); rewrite Hr
    end.
    eexists true, ([_; _; _] ++ suffix). rewrite <- !app_assoc. split; [done|].
    split; [|done]. simpl. trace_ok.
    eapply Forall_impl; [exact Hsuf|]. intros ev Hev d' Hd'.
    apply Hev in Hd'. by apply elem_of_nil in Hd'.
  - eexists false, [_; _; _]. rewrite <- !app_assoc. split; [done|].
    split; [|done]. trace_ok.
Qed.

Lemma renew_each_trace ds : forall tr,
  exists suffix,
    renew_each W config ds tr = (Ok tt, tr ++ suffix)
    ∧ Forall (targets_within ds) suffix
    ∧ (auto_renew config = false -> suffix = disabled_notice <$> ds).
Proof.
  induction ds as [|d ds IH]; intros tr; simpl.
  - exists []. rewrite app_nil_r. by repeat split.
  - unfold mbind, M_bind.
    destruct (renew_certificate_trace d tr) as (b & s1 & -> & H1 & Hoff1).
    destruct (IH (tr ++ s1)) as (s2 & -> & H2 & Hoff2).
    exists (s1 ++ s2). rewrite app_assoc. split; [done|]. split.
    + apply Forall_app. split.
      * eapply Forall_impl; [exact H1|]. intros ev.
        apply targets_within_mono. intros x Hx.
        apply list_elem_of_singleton in Hx as ->. apply list_elem_of_here.
      * eapply Forall_impl; [exact H2|]. intros ev.
        apply targets_within_mono. intros x Hx. by apply list_elem_of_further.
    + intros Hoff. destruct (Hoff1 Hoff) as [_ ->]. by rewrite (Hoff2 Hoff).
Qed.

Lemma main_renewals_trace renew ds tr :
  exists suffix,
    main_renewals W config renew ds tr = (Ok tt, tr ++ suffix)
    ∧ Forall (targets_within ds) suffix
    ∧ (auto_renew config = false ->
       suffix = if renew then disabled_notice <$> ds else []).
Proof.
  unfold main_renewals. destruct renew.
  - apply renew_each_trace.
  - exists []. rewrite app_nil_r. by repeat split.
Qed.
End Renewal.

(** C5.  With the auto-renew flag off, renewing a domain returns [False]
    after printing one notice, and the renewal loop of [main] over any
    renewal list adds only such notices to the trace: no subprocess is
    run, neither certbot nor a config test nor a reload. *)
Theorem C5_auto_renew_disabled_noop :
  forall (W : World) (config : Config),
    auto_renew config = false ->
    (forall d tr,
       renew_certificate W config d tr = (Ok false, tr ++ [disabled_notice d]))
    ∧ (forall renew renewals tr,
         exists suffix,
           main_renewals W config renew renewals tr = (Ok tt, tr ++ suffix)
           ∧ suffix = (if renew then disabled_notice <$> renewals else [])
           ∧ Forall (fun ev => is_run ev = false) suffix).
Proof.
  intros W config Hoff. split.
  - intros d tr.
    destruct (renew_certificate_trace W config d tr) as (b & suffix & Hrun & _ & Hb).
    destruct (Hb Hoff) as [-> ->]. exact Hrun.
  - intros renew renewals tr.
    destruct (main_renewals_trace W config renew renewals tr)
      as (suffix & Hrun & _ & Hsuf).
    exists suffix. split; [exact Hrun|]. rewrite (Hsuf Hoff). split; [done|].
    destruct renew; [|apply Forall_nil_2].
    apply Forall_fmap, Forall_true. done.
Qed.

(** C5 on the sample host with the default configuration. *)
Lemma C5_auto_renew_disabled_noop_witness :
  renew_certificate Samples.healthy (default_config (fun _ => None)) "a.example" []
  = (Ok false, [] ++ [disabled_notice "a.example"]).
Proof.
  apply (proj1 (C5_auto_renew_disabled_noop Samples.healthy
                  (default_config (fun _ => None)) eq_refl)).
Defined.

Section RenewalList.
Variables (L : Lib) (W : World) (config : Config).

Lemma analyze_results_ok_wf results alerts renewals :
  analyze_results config results = Ok (alerts, renewals) ->
  Forall has_error_key results.
Proof.
  revert alerts renewals.
  induction results as [|c rest IH]; intros alerts renewals Hrun; [constructor|].
  rewrite analyze_results_cons in Hrun.
  destruct (analyze_results config [c]) as [[a1 r1]|e1] eqn:Hc; [|done].
  simpl in Hrun.
  destruct (analyze_results config rest) as [[a2 r2]|e2] eqn:Hrest; [|done].
  constructor; [|by eapply IH].
  intros Hs. unfold analyze_results in Hc; simpl in Hc. rewrite Hs in Hc; simpl in Hc.
  by destruct (error c).
Qed.

Lemma get_cert_info_error_shape d port tr r tr' :
  get_cert_info L W d port tr = (Ok r, tr') ->
  status r = "error" ->
  days_until_expiry r = -1 ∧ is_Some (error r).
Proof.
  rewrite get_cert_info_eq. intros Hrun Hs.
  destruct (create_default_context W) as [[]|e0].
  2: { injection Hrun as <- _. by eauto. }
  destruct (create_connection W d port 10) as [[]|e1].
  2: { injection Hrun as <- _. by eauto. }
  simpl in Hrun.
  destruct (wrap_socket W d) as [cert|e2].
  2: { injection Hrun as <- _. by eauto. }
  destruct (peer_fields L cert) as [[[expiry iss] sub]|e3].
  2: { injection Hrun as <- _. by eauto. }
  injection Hrun as <- _. done.
Qed.
End RenewalList.
(** C10.  Every record the certificate check returns with status
    ['error'] carries days-until-expiry -1 and an error string; the same -1
    is reported, with status ['valid'], for a certificate that expired
    within the last day.  An error record always yields a critical alert
    and no renewal entry: each entry of the renewal list is the domain of
    a record that is not an error and lies within [critical_days], and
    renewal invokes certbot only for domains of that list. *)
Theorem C10_error_sentinel_and_no_renewal :
  forall (L : Lib) (W : World) (config : Config),
    (forall d port tr r tr',
       get_cert_info L W d port tr = (Ok r, tr') ->
       status r = "error" ->
       days_until_expiry r = -1 ∧ is_Some (error r))
    ∧ (forall d port tr cert expiry iss sub,
         peer_cert_of W d port = Ok cert ->
         peer_fields L cert = Ok (expiry, iss, sub) ->
         -86400000000 <= expiry - clock W (length tr + 2) < 0 ->
         exists r tr',
           get_cert_info L W d port tr = (Ok r, tr')
           ∧ status r = "valid" ∧ days_until_expiry r = -1)
    ∧ (forall c e,
         status c = "error" -> error c = Some e ->
         analyze_results config [c] =
         Ok ([Alert.mk "critical" (domain c) ("Certificate check failed: " +:+ e)], []))
    ∧ (forall results alerts renewals,
         analyze_results config results = Ok (alerts, renewals) ->
         forall d, d ∈ renewals ->
           exists c, c ∈ results ∧ domain c = d ∧ status c ≠ "error"
                     ∧ days_until_expiry c <= critical_days config)
    ∧ (forall renew renewals tr,
         exists suffix,
           main_renewals W config renew renewals tr = (Ok tt, tr ++ suffix)
           ∧ forall ev d, ev ∈ suffix -> certbot_target ev = Some d -> d ∈ renewals).
Proof.
  intros L W config. split; [|split; [|split; [|split]]].
  - apply get_cert_info_error_shape.
  - intros d port tr cert expiry iss sub Hpeer Hfields Hrange.
    rewrite get_cert_info_eq. unfold peer_cert_of in Hpeer.
    destruct (create_default_context W) as [[]|e0]; [|done].
    destruct (create_connection W d port 10) as [[]|e1]; [|done].
    simpl in Hpeer. rewrite Hpeer, Hfields. simpl.
    eexists _, _. split; [done|]. split; [done|]. simpl.
    pose proof (timedelta_days_floor expiry (clock W (length tr + 2))) as Hfloor.
    unfold us_per_day in Hfloor. lia.
  - intros c e Hs He. by apply analyze_error_single.
  - intros results alerts renewals Hrun d Hd.
    pose proof (analyze_results_ok_wf config results alerts renewals Hrun) as Hwf.
    rewrite (analyze_results_wf config results Hwf) in Hrun.
    injection Hrun as _ <-.
    apply list_elem_of_fmap in Hd as (c & -> & Hc).
    apply list_elem_of_filter in Hc as [[Hne Hdays] Hin].
    by exists c.
  - intros renew renewals tr.
    destruct (main_renewals_trace W config renew renewals tr)
      as (suffix & Hrun & Hsuf & _).
    exists suffix. split; [exact Hrun|].
    intros ev d Hev Hd. rewrite Forall_forall in Hsuf. by apply (Hsuf ev Hev).
Qed.


(** ** The human-readable report *)

Lemma alerts_of_valid config d days :
  alerts_of config (valid_record d days) =
  if days <=? critical_days config then [critical_alert (valid_record d days)]
  else if days <=? warning_days config then [warning_alert (valid_record d days)]
  else [].
Proof.
  unfold alerts_of. rewrite analyze_valid_single by done. simpl.
  destruct (days <=? critical_days config); [done|].
  by destruct (days <=? warning_days config).
Qed.

Lemma human_status_cases days :
  human_status days =
  if days <=? 7 then "❌ CRITICAL" else if days <=? 30 then "⚠️  WARNING" else "✅ OK".
Proof. reflexivity. Qed.

(** C9.  The marker of a report line is computed from the constants 7 and
    30: it never reads the configuration, it matches the alert level under
    the default thresholds for every days value, and under any other
    thresholds some days value gets a marker that differs from the level
    threshold evaluation assigns. *)
Theorem C9_human_status_ignores_config :
  forall (config : Config),
    critical_days config ≠ 7 ∨ warning_days config ≠ 30 ->
    (exists days, forall d,
       human_line (valid_record d days) =
         Ok (human_status days +:+ " " +:+ d +:+ ": " +:+ str_int days
             +:+ " days until expiry")
       ∧ human_status days ≠
           marker_for (Alert.level <$> alerts_of config (valid_record d days)))
    ∧ (forall environ days d,
         human_status days =
         marker_for (Alert.level <$>
                     alerts_of (default_config environ) (valid_record d days))).
Proof.
  intros config Hne. split.
  - assert (Hcase : critical_days config < 7 ∨ 7 < critical_days config
                    ∨ (critical_days config = 7 ∧ warning_days config < 30)
                    ∨ (critical_days config = 7 ∧ 30 < warning_days config)) by lia.
    destruct Hcase as [Hlt | [Hgt | [[Heq Hlt] | [Heq Hgt]]]].
    + exists 7. intros d. split; [done|].
      rewrite alerts_of_valid, human_status_cases.
      replace (7 <=? critical_days config) with false by (symmetry; apply Z.leb_gt; lia).
      simpl. by destruct (7 <=? warning_days config).
    + exists (critical_days config). intros d. split; [done|].
      rewrite alerts_of_valid, human_status_cases, Z.leb_refl.
      replace (critical_days config <=? 7) with false by (symmetry; apply Z.leb_gt; lia).
      simpl. by destruct (critical_days config <=? 30).
    + exists 30. intros d. split; [done|].
      rewrite alerts_of_valid, human_status_cases, Heq.
      replace (30 <=? warning_days config) with false by (symmetry; apply Z.leb_gt; lia).
      done.
    + exists (warning_days config). intros d. split; [done|].
      rewrite alerts_of_valid, human_status_cases, Heq, Z.leb_refl.
      replace (warning_days config <=? 7) with false by (symmetry; apply Z.leb_gt; lia).
      replace (warning_days config <=? 30) with false by (symmetry; apply Z.leb_gt; lia).
      done.
  - intros environ days d. rewrite alerts_of_valid, human_status_cases. simpl.
    destruct (days <=? 7); [done|]. by destruct (days <=? 30).
Qed.

(** C9 at thresholds 14 and 60. *)
Lemma C9_human_status_ignores_config_witness :
  exists days, forall d,
    human_line (valid_record d days) =
      Ok (human_status days +:+ " " +:+ d +:+ ": " +:+ str_int days
          +:+ " days until expiry")
    ∧ human_status days ≠
        marker_for (Alert.level <$>
                    alerts_of (mkConfig [] 60 14 "" "" false "" "") (valid_record d days)).
Proof.
  apply (proj1 (C9_human_status_ignores_config
                  (mkConfig [] 60 14 "" "" false "" "") ltac:(left; simpl; lia))).
Defined.

(** ** Metric probes *)

Section ProbeFacts.
Variable L : Lib.

Lemma get_system_info_runs W tr :
  exists m,
    get_system_info L W tr = (Ok m, tr ++ [ERead "/proc/meminfo"])
    ∧ (error_only m ∨ populated system_keys m)
    ∧ (forall e, read_file W "/proc/meminfo" = Raise e ->
                 m = failure "Failed to get memory info: " e).
Proof.
  unfold get_system_info. unfold_probe.
  destruct (read_file W "/proc/meminfo") as [text|e0]; simpl.
  2: { eexists. split; [done|]. split; [left; by eexists|].
       by intros e [= <-]. }
  destruct (meminfo_loop L _ 0 0) as [[mem_total mem_available]|e1]; simpl.
  2: { eexists. split; [done|]. split; [left; by eexists|done]. }
  destruct (percent_of L _ _) as [pct|e2]; simpl.
  2: { eexists. split; [done|]. split; [left; by eexists|done]. }
  destruct (round_2 L pct) as [rounded|e3]; simpl.
  2: { eexists. split; [done|]. split; [left; by eexists|done]. }
  eexists. split; [done|]. split; [|done]. right.
  keys_ok.
Qed.

Lemma get_system_info_source W W' tr tr' :
  read_file W "/proc/meminfo" = read_file W' "/proc/meminfo" ->
  fst (get_system_info L W tr) = fst (get_system_info L W' tr').
Proof.
  intros Hsrc. unfold get_system_info. unfold_probe. rewrite Hsrc.
  destruct (read_file W' "/proc/meminfo") as [text|e0]; simpl; [|done].
  destruct (meminfo_loop L _ 0 0) as [[mem_total mem_available]|e1]; simpl; [|done].
  destruct (percent_of L _ _) as [pct|e2]; simpl; [|done].
  by destruct (round_2 L pct) as [rounded|e3].
Qed.
Lemma get_disk_usage_runs W tr :
  exists m,
    get_disk_usage L W tr = (Ok m, tr ++ [ERun df_cmd None])
    ∧ (error_only m ∨ populated disk_keys m)
    ∧ (forall e, subprocess_run W df_cmd None = Raise e ->
                 m = failure "Failed to get disk usage: " e)
    ∧ (forall p, subprocess_run W df_cmd None = Ok p -> returncode p ≠ 0 ->
                 m = {["error" := PStr "Failed to parse df output"]}).
Proof.
  unfold get_disk_usage, df_cmd. unfold_probe.
  destruct (subprocess_run W ["df"; "-B1"; "/"] None) as [p|e0]; simpl.
  2: { eexists. split; [done|]. split; [left; by eexists|].
       split; [by intros e [= <-]|done]. }
  destruct (returncode p =? 0) eqn:Hrc.
  2: { eexists. split; [done|]. split; [left; by eexists|]. split; [done|].
       by intros p' [= <-] _. }
  apply Z.eqb_eq in Hrc.
  assert (Hno : forall (m : gmap string pyval) p',
             Ok p = Ok p' -> returncode p' ≠ 0 ->
             m = {["error" := PStr "Failed to parse df output"]}).
  { intros m p' [= <-] Hne. by destruct Hne. }
  destruct (2 <=? _).
  2: { eexists. split; [done|]. split; [left; by eexists|]. split; [done|].
       apply Hno. }
  destruct (index "list" _ 1) as [line|e1]; simpl.
  2: { eexists. split; [done|]. split; [left; by eexists|]. split; [done|].
       apply Hno. }
  destruct (res_bind _ _ _ (index "list" (split_ws line) 1)) as [total|e2]; simpl.
  2: { eexists. split; [done|]. split; [left; by eexists|]. split; [done|].
       apply Hno. }
  destruct (res_bind _ _ _ (index "list" (split_ws line) 2)) as [used|e3]; simpl.
  2: { eexists. split; [done|]. split; [left; by eexists|]. split; [done|].
       apply Hno. }
  destruct (res_bind _ _ _ (index "list" (split_ws line) 3)) as [available|e4]; simpl.
  2: { eexists. split; [done|]. split; [left; by eexists|]. split; [done|].
       apply Hno. }
  destruct (percent_of L used total) as [pct|e5]; simpl.
  2: { eexists. split; [done|]. split; [left; by eexists|]. split; [done|].
       apply Hno. }
  destruct (round_2 L pct) as [rounded|e6]; simpl.
  2: { eexists. split; [done|]. split; [left; by eexists|]. split; [done|].
       apply Hno. }
  eexists. split; [done|]. split; [right; keys_ok|]. split; [done|]. apply Hno.
Qed.

Lemma get_disk_usage_source W W' tr tr' :
  subprocess_run W df_cmd None = subprocess_run W' df_cmd None ->
  fst (get_disk_usage L W tr) = fst (get_disk_usage L W' tr').
Proof.
  intros Hsrc. unfold get_disk_usage. unfold df_cmd in Hsrc. unfold_probe.
  rewrite Hsrc.
  destruct (subprocess_run W' ["df"; "-B1"; "/"] None) as [p|e0]; simpl; [|done].
  destruct (returncode p =? 0); [|done].
  destruct (2 <=? _); [|done].
  destruct (index "list" _ 1) as [line|e1]; simpl; [|done].
  destruct (res_bind _ _ _ (index "list" (split_ws line) 1)) as [total|e2]; simpl; [|done].
  destruct (res_bind _ _ _ (index "list" (split_ws line) 2)) as [used|e3]; simpl; [|done].
  destruct (res_bind _ _ _ (index "list" (split_ws line) 3)) as [available|e4]; simpl; [|done].
  destruct (percent_of L used total) as [pct|e5]; simpl; [|done].
  by destruct (round_2 L pct) as [rounded|e6].
Qed.

Lemma get_cpu_info_runs W tr :
  exists m,
    get_cpu_info L W tr = (Ok m, tr ++ [ERead "/proc/loadavg"])
    ∧ (error_only m ∨ populated cpu_keys m)
    ∧ (forall e, read_file W "/proc/loadavg" = Raise e ->
                 m = failure "Failed to get CPU info: " e).
Proof.
  unfold get_cpu_info. unfold_probe.
  destruct (read_file W "/proc/loadavg") as [text|e0]; simpl.
  2: { eexists. split; [done|]. split; [left; by eexists|]. by intros e [= <-]. }
  destruct (res_bind _ _ _ (index "list" _ 0)) as [l1|e1]; simpl.
  2: { eexists. split; [done|]. split; [left; by eexists|done]. }
  destruct (res_bind _ _ _ (index "list" _ 1)) as [l5|e2]; simpl.
  2: { eexists. split; [done|]. split; [left; by eexists|done]. }
  destruct (res_bind _ _ _ (index "list" _ 2)) as [l15|e3]; simpl.
  2: { eexists. split; [done|]. split; [left; by eexists|done]. }
  eexists. split; [done|]. split; [right; keys_ok|done].
Qed.

Lemma get_cpu_info_source W W' tr tr' :
  read_file W "/proc/loadavg" = read_file W' "/proc/loadavg" ->
  fst (get_cpu_info L W tr) = fst (get_cpu_info L W' tr').
Proof.
  intros Hsrc. unfold get_cpu_info. unfold_probe. rewrite Hsrc.
  destruct (read_file W' "/proc/loadavg") as [text|e0]; simpl; [|done].
  destruct (res_bind _ _ _ (index "list" _ 0)) as [l1|e1]; simpl; [|done].
  destruct (res_bind _ _ _ (index "list" _ 1)) as [l5|e2]; simpl; [|done].
  by destruct (res_bind _ _ _ (index "list" _ 2)) as [l15|e3].
Qed.
Lemma get_network_info_eq W tr :
  get_network_info W tr =
  match subprocess_run W nslookup_cmd (Some 5) with
  | Raise e =>
      (Ok (failure "Failed to get network info: " e),
       tr ++ [ERun nslookup_cmd (Some 5)])
  | Ok dns =>
      let tr' := tr ++ [ERun nslookup_cmd (Some 5); ERun ping_cmd (Some 10)] in
      match subprocess_run W ping_cmd (Some 10) with
      | Raise e => (Ok (failure "Failed to get network info: " e), tr')
      | Ok ping =>
          (Ok (<["internet_reachable" := PBool (returncode ping =? 0)]>
               (<["dns_working" := PBool (returncode dns =? 0)]> ∅)), tr')
      end
  end.
Proof.
  unfold get_network_info, nslookup_cmd, ping_cmd. unfold_probe.
  destruct (subprocess_run W ["nslookup"; "google.com"] (Some 5)) as [dns|e0]; [|done].
  rewrite <- ?app_assoc; simpl.
  by destruct (subprocess_run W ["ping"; "-c"; "1"; "-W"; "3"; "8.8.8.8"] (Some 10)).
Qed.

Lemma get_network_info_runs W tr :
  exists m suffix,
    get_network_info W tr = (Ok m, tr ++ suffix)
    ∧ (error_only m ∨ populated network_keys m)
    ∧ (forall e, subprocess_run W nslookup_cmd (Some 5) = Raise e ->
                 m = failure "Failed to get network info: " e).
Proof.
  rewrite get_network_info_eq.
  destruct (subprocess_run W nslookup_cmd (Some 5)) as [dns|e0].
  2: { eexists _, _. split; [done|]. split; [left; by eexists|]. by intros e [= <-]. }
  simpl. destruct (subprocess_run W ping_cmd (Some 10)) as [ping|e1].
  2: { eexists _, _. split; [done|]. split; [left; by eexists|done]. }
  eexists _, _. split; [done|]. split; [right; keys_ok|done].
Qed.

Lemma get_network_info_source W W' tr tr' :
  subprocess_run W nslookup_cmd (Some 5) = subprocess_run W' nslookup_cmd (Some 5) ->
  subprocess_run W ping_cmd (Some 10) = subprocess_run W' ping_cmd (Some 10) ->
  fst (get_network_info W tr) = fst (get_network_info W' tr').
Proof.
  intros Hdns Hping. rewrite !get_network_info_eq, Hdns, Hping.
  destruct (subprocess_run W' nslookup_cmd (Some 5)) as [dns|e0]; [|done].
  simpl. by destruct (subprocess_run W' ping_cmd (Some 10)).
Qed.

Lemma check_services_eq W tr :
  check_services W tr =
  (Ok [("sshd", service_active W "sshd");
       ("systemd-resolved", service_active W "systemd-resolved");
       ("cron", service_active W "cron")],
   tr ++ [ERun (is_active_cmd "sshd") None;
          ERun (is_active_cmd "systemd-resolved") None;
          ERun (is_active_cmd "cron") None]).
Proof.
  unfold check_services, service_active, is_active_cmd; simpl. unfold_probe.
  destruct (subprocess_run W ["systemctl"; "is-active"; "sshd"] None);
    destruct (subprocess_run W ["systemctl"; "is-active"; "systemd-resolved"] None);
    destruct (subprocess_run W ["systemctl"; "is-active"; "cron"] None);
    simpl; by rewrite <- !app_assoc.
Qed.

Lemma collect_metrics_runs W tr :
  exists m suffix,
    collect_metrics L W tr = (Ok m, tr ++ suffix)
    ∧ timestamp m = isoformat L (clock W (length tr))
    ∧ hostname m = nodename W
    ∧ fst (get_system_info L W tr) = Ok (system m)
    ∧ fst (get_disk_usage L W tr) = Ok (disk m)
    ∧ fst (get_cpu_info L W tr) = Ok (cpu m)
    ∧ fst (get_network_info W tr) = Ok (network m)
    ∧ fst (check_services W tr) = Ok (services m).
Proof.
  unfold collect_metrics, datetime_now. unfold mbind, M_bind, mret, M_ret; simpl.
  destruct (get_system_info_runs W tr) as (m1 & H1 & _). rewrite H1.
  destruct (get_disk_usage_runs W (tr ++ [ERead "/proc/meminfo"])) as (m2 & H2 & _).
  rewrite H2.
  match goal with
  | |- context [get_cpu_info L W ?t] =>
      destruct (get_cpu_info_runs W t) as (m3 & H3 & _); rewrite H3
  end.
  match goal with
  | |- context [get_network_info W ?t] =>
      destruct (get_network_info_runs W t) as (m4 & s4 & H4 & _); rewrite H4
  end.
  rewrite check_services_eq. rewrite <- ?app_assoc.
  eexists _, _. split; [done|]. simpl. split; [done|]. split; [done|].
  split; [done|].
  split. { by rewrite (get_disk_usage_source W W tr (tr ++ [ERead "/proc/meminfo"])), H2. }
  split. { erewrite (get_cpu_info_source W W tr) by done. by rewrite H3. }
  split. { erewrite (get_network_info_source W W tr) by done. by rewrite H4. }
  by rewrite check_services_eq.
Qed.
End ProbeFacts.

(** C6.  The network check runs the DNS lookup with a 5-second timeout and
    then the ping with a 10-second timeout, both under one exception
    guard.  When both calls return, each boolean is its own call's exit
    status compared with 0; when either call raises, the result holds only
    the error string, and after a raising DNS lookup the ping is not run. *)
Theorem C6_network_probes_one_guard :
  forall (W : World) (tr : list event),
    get_network_info W tr =
    match subprocess_run W nslookup_cmd (Some 5) with
    | Raise e =>
        (Ok {["error" := PStr ("Failed to get network info: " +:+ str_exn e)]},
         tr ++ [ERun nslookup_cmd (Some 5)])
    | Ok dns =>
        match subprocess_run W ping_cmd (Some 10) with
        | Raise e =>
            (Ok {["error" := PStr ("Failed to get network info: " +:+ str_exn e)]},
             tr ++ [ERun nslookup_cmd (Some 5); ERun ping_cmd (Some 10)])
        | Ok ping =>
            (Ok (<["internet_reachable" := PBool (returncode ping =? 0)]>
                 (<["dns_working" := PBool (returncode dns =? 0)]> ∅)),
             tr ++ [ERun nslookup_cmd (Some 5); ERun ping_cmd (Some 10)])
        end
    end.
Proof. intros W tr. apply get_network_info_eq. Qed.

(** C6 as first stated fails: on a host where only the DNS lookup times
    out and a ping would succeed, the network check reports no boolean for
    the ping. *)
Lemma C6_dns_timeout_counterexample :
  subprocess_run dns_down ping_cmd (Some 10) = Ok (Samples.proc 0 "")
  ∧ ¬ (exists m b,
         fst (get_network_info dns_down []) = Ok m
         ∧ m !! "internet_reachable" = Some (PBool b)).
Proof.
  split; [reflexivity|].
  intros (m & b & Hrun & Hb).
  rewrite get_network_info_eq in Hrun.
  change (subprocess_run dns_down nslookup_cmd (Some 5))
    with (@Raise CompletedProcess (Samples.timed_out "['nslookup', 'google.com']" "5"))
    in Hrun.
  injection Hrun as <-. unfold failure in Hb.
  by rewrite lookup_singleton_ne in Hb.
Qed.

Lemma service_active_source W W' s :
  subprocess_run W (is_active_cmd s) None = subprocess_run W' (is_active_cmd s) None ->
  service_active W s = service_active W' s.
Proof. unfold service_active. by intros ->. Qed.

(** C7.  A metrics snapshot is always produced, with a timestamp, a
    hostname and the five sub-records.  Each of memory, disk, CPU load and
    network is either error-only or has exactly its own keys, and is
    error-only when its own source fails; the service sub-record has no
    error form: it always lists the three services, a service whose
    query raises being recorded as not active.  Every sub-record is
    determined by its own sources alone, whatever happens to the other
    probes. *)
Theorem C7_probe_failures_stay_local :
  forall (L : Lib) (W : World) (tr : list event),
    exists m suffix,
      collect_metrics L W tr = (Ok m, tr ++ suffix)
      ∧ timestamp m = isoformat L (clock W (length tr))
      ∧ hostname m = nodename W
      ∧ (error_only (system m) ∨ populated system_keys (system m))
      ∧ (error_only (disk m) ∨ populated disk_keys (disk m))
      ∧ (error_only (cpu m) ∨ populated cpu_keys (cpu m))
      ∧ (error_only (network m) ∨ populated network_keys (network m))
      ∧ services m = [("sshd", service_active W "sshd");
                      ("systemd-resolved", service_active W "systemd-resolved");
                      ("cron", service_active W "cron")]
      ∧ (forall e, read_file W "/proc/meminfo" = Raise e ->
                   system m = failure "Failed to get memory info: " e)
      ∧ (forall e, subprocess_run W df_cmd None = Raise e ->
                   disk m = failure "Failed to get disk usage: " e)
      ∧ (forall p, subprocess_run W df_cmd None = Ok p -> returncode p ≠ 0 ->
                   disk m = {["error" := PStr "Failed to parse df output"]})
      ∧ (forall e, read_file W "/proc/loadavg" = Raise e ->
                   cpu m = failure "Failed to get CPU info: " e)
      ∧ (forall e, subprocess_run W nslookup_cmd (Some 5) = Raise e ->
                   network m = failure "Failed to get network info: " e)
      ∧ (forall s e, subprocess_run W (is_active_cmd s) None = Raise e ->
                     service_active W s = false)
      ∧ (forall W' tr',
           exists m',
             fst (collect_metrics L W' tr') = Ok m'
             ∧ (read_file W "/proc/meminfo" = read_file W' "/proc/meminfo" ->
                system m' = system m)
             ∧ (subprocess_run W df_cmd None = subprocess_run W' df_cmd None ->
                disk m' = disk m)
             ∧ (read_file W "/proc/loadavg" = read_file W' "/proc/loadavg" ->
                cpu m' = cpu m)
             ∧ (subprocess_run W nslookup_cmd (Some 5)
                  = subprocess_run W' nslookup_cmd (Some 5) ->
                subprocess_run W ping_cmd (Some 10)
                  = subprocess_run W' ping_cmd (Some 10) ->
                network m' = network m)
             ∧ ((forall s, subprocess_run W (is_active_cmd s) None
                           = subprocess_run W' (is_active_cmd s) None) ->
                services m' = services m)).
Proof.
  intros L W tr.
  destruct (collect_metrics_runs L W tr)
    as (m & suffix & Hrun & Hts & Hhost & Hsys & Hdisk & Hcpu & Hnet & Hsvc).
  destruct (get_system_info_runs L W tr) as (m1 & H1 & Hshape1 & Hfail1).
  destruct (get_disk_usage_runs L W tr) as (m2 & H2 & Hshape2 & Hfail2 & Hrc2).
  destruct (get_cpu_info_runs L W tr) as (m3 & H3 & Hshape3 & Hfail3).
  destruct (get_network_info_runs W tr) as (m4 & s4 & H4 & Hshape4 & Hfail4).
  rewrite H1 in Hsys. rewrite H2 in Hdisk. rewrite H3 in Hcpu. rewrite H4 in Hnet.
  rewrite check_services_eq in Hsvc.
  injection Hsys as ->. injection Hdisk as ->. injection Hcpu as ->.
  injection Hnet as ->. injection Hsvc as Hsvc.
  exists m, suffix. repeat (split; [done|]). split.
  { intros s e He. unfold service_active. by rewrite He. }
  intros W' tr'.
  destruct (collect_metrics_runs L W' tr')
    as (m' & suffix' & Hrun' & _ & _ & Hsys' & Hdisk' & Hcpu' & Hnet' & Hsvc').
  exists m'. split; [by rewrite Hrun'|].
  rewrite check_services_eq in Hsvc'. injection Hsvc' as Hsvc'.
  split.
  { intros Hsrc. rewrite <- (get_system_info_source L W W' tr tr' Hsrc), H1 in Hsys'.
    by injection Hsys'. }
  split.
  { intros Hsrc. rewrite <- (get_disk_usage_source L W W' tr tr' Hsrc), H2 in Hdisk'.
    by injection Hdisk'. }
  split.
  { intros Hsrc. rewrite <- (get_cpu_info_source L W W' tr tr' Hsrc), H3 in Hcpu'.
    by injection Hcpu'. }
  split.
  { intros Hdns Hping.
    rewrite <- (get_network_info_source W W' tr tr' Hdns Hping), H4 in Hnet'.
    by injection Hnet'. }
  intros Hsrc. rewrite <- Hsvc, <- Hsvc'.
  by rewrite !(service_active_source W W') by apply Hsrc.
Qed.

(** C7 as first stated fails: on a host where querying sshd raises, the
    service sub-record still lists the three services and has no error
    field. *)
Lemma C7_service_failure_counterexample :
  subprocess_run sshd_query_fails (is_active_cmd "sshd") None
    = Raise (Samples.not_found "systemctl")
  ∧ exists m,
      fst (collect_metrics Samples.lib sshd_query_fails []) = Ok m
      ∧ services m = [("sshd", false); ("systemd-resolved", true); ("cron", true)]
      ∧ (services m).*1 ≠ ["error"].
Proof.
  split; [reflexivity|].
  destruct (collect_metrics_runs Samples.lib sshd_query_fails [])
    as (m & suffix & Hrun & _ & _ & _ & _ & _ & _ & Hsvc).
  exists m. split; [by rewrite Hrun|].
  rewrite check_services_eq in Hsvc. injection Hsvc as Hsvc.
  assert (Hlist : services m =
                  [("sshd", false); ("systemd-resolved", true); ("cron", true)]).
  { rewrite <- Hsvc. reflexivity. }
  split; [exact Hlist|]. by rewrite Hlist.
Qed.

(** ** Warning derivation *)

Lemma services_loop_eq items : forall warnings,
  services_loop items warnings = warnings ++ service_warnings items.
Proof.
  unfold service_warnings.
  induction items as [|[service status] rest IH]; intros warnings.
  - simpl. by rewrite app_nil_r.
  - cbn [services_loop]. destruct status; cbn [negb]; rewrite IH.
    + by rewrite filter_cons_False by (simpl; done).
    + rewrite filter_cons_True by done. rewrite fmap_cons.
      by rewrite <- app_assoc.
Qed.

Lemma check_thresholds_eq L m :
  check_thresholds L m =
  w1 ← memory_warning L (system m);
  w2 ← disk_warning L (disk m);
  w3 ← load_warning L (cpu m);
  mret (w1 ++ w2 ++ w3 ++ network_warning (network m) ++ service_warnings (services m)).
Proof.
  unfold check_thresholds, memory_warning, disk_warning, load_warning, network_warning.
  unfold mbind, mret, res_bind, res_ret.
  repeat (threshold_case; simpl);
    rewrite ?services_loop_eq; simpl; by rewrite <- ?app_assoc.
Qed.

(** C8.  The warnings are those of each metric taken alone, in the order
    memory, disk, load, network, services.  A memory percentage warns
    exactly when it is greater than 90, a disk percentage when greater
    than 85, a 1-minute load when greater than 4.0.  On an otherwise
    healthy snapshot 90.0 gives no warning and 90.01 gives exactly one,
    which contains "High memory usage"; 85.0 and 4.0 give none. *)
Theorem C8_strict_static_thresholds :
  forall (L : Lib),
    (forall m,
       check_thresholds L m =
       w1 ← memory_warning L (system m);
       w2 ← disk_warning L (disk m);
       w3 ← load_warning L (cpu m);
       mret (w1 ++ w2 ++ w3 ++ network_warning (network m)
                ++ service_warnings (services m)))
    ∧ (forall rest x,
         memory_warning L (<["memory_used_percent" := PFloat x]> rest) =
         Ok (if PrimFloat.ltb 90 x
             then ["High memory usage: " +:+ format_1f L x +:+ "%"] else []))
    ∧ (forall rest x,
         disk_warning L (<["disk_used_percent" := PFloat x]> rest) =
         Ok (if PrimFloat.ltb 85 x
             then ["High disk usage: " +:+ format_1f L x +:+ "%"] else []))
    ∧ (forall rest x,
         load_warning L (<["load_1min" := PFloat x]> rest) =
         Ok (if PrimFloat.ltb 4 x
             then ["High load average: " +:+ str_float L x] else []))
    ∧ check_thresholds L (snapshot (PFloat 90) (PFloat 50) (PFloat 1)) = Ok []
    ∧ check_thresholds L (snapshot (PFloat f90_01) (PFloat 50) (PFloat 1)) =
        Ok ["High memory usage: " +:+ format_1f L f90_01 +:+ "%"]
    ∧ contains "High memory usage"
        ("High memory usage: " +:+ format_1f L f90_01 +:+ "%") = true
    ∧ check_thresholds L (snapshot (PFloat 50) (PFloat 85) (PFloat 1)) = Ok []
    ∧ check_thresholds L (snapshot (PFloat 50) (PFloat 50) (PFloat 4)) = Ok [].
Proof.
  intros L. split; [apply check_thresholds_eq|].
  split.
  { intros rest x. unfold memory_warning. rewrite lookup_insert_eq. simpl.
    change (float_of_Z 90) with 90%float. by destruct (PrimFloat.ltb 90 x). }
  split.
  { intros rest x. unfold disk_warning. rewrite lookup_insert_eq. simpl.
    change (float_of_Z 85) with 85%float. by destruct (PrimFloat.ltb 85 x). }
  split.
  { intros rest x. unfold load_warning. rewrite lookup_insert_eq. simpl.
    change (float_of_Z 4) with 4%float. by destruct (PrimFloat.ltb 4 x). }
  repeat split; reflexivity.
Qed.

(** ** The model at work *)

Example is_space_cases :
  is_space <$> [" "; "a"; "009"; "020"; "028"; "033"]%char
  = [true; false; true; false; true; false].
Proof. reflexivity. Qed.

Example split_ws_drops_blanks : split_ws "  a  bb c " = ["a"; "bb"; "c"].
Proof. reflexivity. Qed.

Example split_on_keeps_empty_fields :
  split_on newline ("a" +:+ Samples.nl +:+ Samples.nl) = ["a"; ""; ""].
Proof. reflexivity. Qed.

(** Two and a half days before expiry count as two days. *)
Example healthy_certificate :
  match get_cert_info Samples.lib Samples.healthy "a.example" 443 [] with
  | (Ok r, tr) =>
      tr = [EConnect "a.example" 443 10; EHandshake "a.example"]
      ∧ status r = "valid"
      ∧ days_until_expiry r = 2
      ∧ (issuer r ≫= (.!! "commonName")) = Some "R3"
  | (Raise _, _) => False
  end.
Proof. vm_compute. done. Qed.

(** A refused connection gives the failure record. *)
Example refused_certificate :
  get_cert_info Samples.lib
    (Worlds.set_connection
       (Raise (LibError "ConnectionRefusedError" "[Errno 111] Connection refused"))
       Samples.healthy)
    "a.example" 443 [] =
  (Ok (error_record "a.example" "[Errno 111] Connection refused" (-1)),
   [EConnect "a.example" 443 10]).
Proof. reflexivity. Qed.

(** df exiting with status 1: the disk sub-record is error-only, the
    other four are filled in, and no warning is derived. *)
Example df_failure_snapshot :
  match fst (collect_metrics Samples.lib df_fails []) with
  | Ok m =>
      disk m !! "error" = Some (PStr "Failed to parse df output")
      ∧ size (disk m) = 1%nat
      ∧ size (system m) = 3%nat
      ∧ system m !! "memory_used_percent" = Some (PFloat 50)
      ∧ size (cpu m) = 3%nat
      ∧ cpu m !! "load_1min" = Some (PFloat 0x1.0a3d70a3d70a4p-1)
      ∧ network m !! "dns_working" = Some (PBool true)
      ∧ network m !! "internet_reachable" = Some (PBool true)
      ∧ services m = [("sshd", true); ("systemd-resolved", true); ("cron", true)]
      ∧ check_thresholds Samples.lib m = Ok []
  | Raise _ => False
  end.
Proof. vm_compute. repeat split. Qed.

(** ** Checking every configured domain *)

Section CheckAll.
Variables (L : Lib) (W : World).

Lemma connections_app tr1 tr2 :
  connections (tr1 ++ tr2) = connections tr1 ++ connections tr2.
Proof. apply omap_app. Qed.

Lemma get_cert_info_runs d port tr :
  exists r suffix,
    get_cert_info L W d port tr = (Ok r, tr ++ suffix)
    ∧ domain r = d
    ∧ has_error_key r
    ∧ (status r = "valid" ∨ status r = "error")
    ∧ connections suffix
        = (if raised (create_default_context W) then [] else [(d, port, 10)])
    ∧ printed suffix = []
    ∧ commands suffix = [].
Proof.
  rewrite get_cert_info_eq.
  destruct (create_default_context W) as [[]|e0]; simpl.
  2: { exists (error_record d (str_exn e0) (-1)), []. rewrite app_nil_r.
       repeat split; [by eexists|by right]. }
  destruct (create_connection W d port 10) as [[]|e1]; simpl.
  2: { eexists _, [_]. repeat split; [by eexists|by right]. }
  destruct (wrap_socket W d) as [cert|e2]; simpl.
  2: { eexists _, _. repeat split; [by eexists|by right]. }
  destruct (peer_fields L cert) as [[[expiry iss] sub]|e3]; simpl.
  2: { eexists _, _. repeat split; [by eexists|by right]. }
  eexists _, _. repeat split; [done|by left].
Qed.

Lemma check_all_loop_runs ds : forall results tr,
  exists rs suffix,
    check_all_loop L W ds results tr = (Ok (results ++ rs), tr ++ suffix)
    ∧ domain <$> rs = ds
    ∧ Forall has_error_key rs
    ∧ Forall (fun r => status r = "valid" ∨ status r = "error") rs
    ∧ connections suffix
        = (if raised (create_default_context W) then []
           else (fun d => (d, 443, 10)) <$> ds)
    ∧ printed suffix = (fun d => "Checking certificate for " +:+ d +:+ "...") <$> ds
    ∧ commands suffix = [].
Proof.
  induction ds as [|d ds IH]; intros results tr; simpl.
  - exists [], []. rewrite !app_nil_r. repeat split; try done.
    by destruct (raised _).
  - unfold print, emit. unfold mbind at 1 2, M_bind; simpl.
    destruct (get_cert_info_runs d 443
                (tr ++ [EPrint ("Checking certificate for " +:+ d +:+ "...")]))
      as (r & s1 & -> & Hd & Hkey & Hst & Hconn & Hprint & Hcmd).
    destruct (IH (results ++ [r])
                ((tr ++ [EPrint ("Checking certificate for " +:+ d +:+ "...")]) ++ s1))
      as (rs & s2 & -> & Hds & Hkeys & Hsts & Hconns & Hprints & Hcmds).
    exists (r :: rs), ([EPrint ("Checking certificate for " +:+ d +:+ "...")] ++ s1 ++ s2).
    rewrite <- !app_assoc. split; [done|].
    split; [by rewrite fmap_cons, Hd, Hds|].
    split; [by constructor|]. split; [by constructor|]. split; [|split].
    + rewrite !connections_app, Hconn, Hconns. simpl.
      by destruct (raised (create_default_context W)).
    + unfold printed in *. rewrite !omap_app, Hprint, Hprints. done.
    + unfold commands in *. rewrite !omap_app, Hcmd, Hcmds. done.
Qed.
End CheckAll.

Lemma human_line_wf c :
  has_error_key c -> exists line, human_line c = Ok line.
Proof.
  intros Hkey. unfold human_line.
  destruct (String.eqb (status c) "error") eqn:Hs; [|by eexists].
  apply String.eqb_eq in Hs. destruct (Hkey Hs) as [e ->]. by eexists.
Qed.

Lemma print_human_lines_runs results : forall tr,
  Forall has_error_key results ->
  exists lines,
    print_human_lines results tr = (Ok tt, tr ++ (EPrint <$> lines))
    ∧ Forall2 (fun c line => human_line c = Ok line) results lines.
Proof.
  induction results as [|c rest IH]; intros tr Hwf; simpl.
  - exists []. by rewrite app_nil_r.
  - apply Forall_cons in Hwf as [Hc Hrest].
    destruct (human_line_wf c Hc) as [line Hline].
    unfold print, emit, lift. unfold mbind at 1 2, M_bind. rewrite Hline; simpl.
    destruct (IH (tr ++ [EPrint line]) Hrest) as (lines & -> & Hlines).
    exists (line :: lines). rewrite <- app_assoc. split; [done|]. by constructor.
Qed.

(** X1.  Checking all certificates never raises and returns one record per
    configured domain, in the configured order, each with status ['valid']
    or ['error'].  Each domain is announced on the console and gets one
    connection attempt, to port 443 with a 10-second timeout (none at all
    when the TLS context cannot be created). *)
Theorem X1_check_all_one_record_per_domain :
  forall (L : Lib) (W : World) (config : Config) (tr : list event),
    exists results suffix,
      check_all_certificates L W config tr = (Ok results, tr ++ suffix)
      ∧ domain <$> results = domains config
      ∧ Forall (fun r => status r = "valid" ∨ status r = "error") results
      ∧ connections suffix
          = (if raised (create_default_context W) then []
             else (fun d => (d, 443, 10)) <$> domains config)
      ∧ printed suffix
          = (fun d => "Checking certificate for " +:+ d +:+ "...") <$> domains config.
Proof.
  intros L W config tr. unfold check_all_certificates.
  destruct (check_all_loop_runs L W (domains config) [] tr)
    as (rs & suffix & Hrun & Hds & _ & Hst & Hconn & Hprint & _).
  by exists rs, suffix.
Qed.

(** X2.  Whatever the network answers, the records of a full check can be
    evaluated and reported: threshold evaluation returns on them (the
    ['error'] key is present whenever it is read), with at most one alert
    per configured domain, and the human report prints exactly one line
    per record. *)
Theorem X2_checked_records_always_evaluate :
  forall (L : Lib) (W : World) (config : Config) (tr tr2 : list event),
    exists results tr' alerts renewals lines,
      check_all_certificates L W config tr = (Ok results, tr')
      ∧ analyze_results config results = Ok (alerts, renewals)
      ∧ (length alerts <= length (domains config))%nat
      ∧ print_human_lines results tr2 = (Ok tt, tr2 ++ (EPrint <$> lines))
      ∧ length lines = length (domains config).
Proof.
  intros L W config tr tr2. unfold check_all_certificates.
  destruct (check_all_loop_runs L W (domains config) [] tr)
    as (rs & suffix & Hrun & Hds & Hkeys & _).
  destruct (print_human_lines_runs rs tr2 Hkeys) as (lines & Hprint & Hlines).
  exists rs, (tr ++ suffix), (flat_map (alerts_of config) rs),
    (domain <$> filter (in_critical_bucket config) rs), lines.
  split; [exact Hrun|]. split; [by apply analyze_results_wf|].
  assert (Hlen : length rs = length (domains config)).
  { by rewrite <- Hds, length_fmap. }
  split; [|split; [exact Hprint|]].
  - rewrite <- Hlen. clear. induction rs as [|c rs IH]; simpl; [done|].
    rewrite length_app. destruct (alerts_of_at_most_one config c) as [Hc _]. lia.
  - rewrite <- Hlen. symmetry. by eapply Forall2_length.
Qed.

(** ** Renewal with auto-renew enabled *)

Section RenewalEnabled.
Variables (W : World) (config : Config).

Lemma commands_app tr1 tr2 : commands (tr1 ++ tr2) = commands tr1 ++ commands tr2.
Proof. apply omap_app. Qed.

Lemma reload_web_server_commands tr :
  exists suffix,
    reload_web_server W tr = (Ok tt, tr ++ suffix)
    ∧ commands suffix = reload_commands W
    ∧ connections suffix = [].
Proof.
  unfold reload_web_server, reload_commands, nginx_test, apache_test, reload_of, print.
  unfold_probe.
  destruct (subprocess_run W ["nginx"; "-t"] None) as [p1|e1]; simpl.
  2: { eexists [_; _]. by rewrite <- ?app_assoc. }
  destruct (returncode p1 =? 0).
  - destruct (subprocess_run W ["systemctl"; "reload"; "nginx"] None); simpl;
      eexists [_; _; _]; by rewrite <- ?app_assoc.
  - destruct (subprocess_run W ["apache2ctl"; "configtest"] None) as [p3|e3]; simpl.
    2: { eexists [_; _; _]. by rewrite <- ?app_assoc. }
    destruct (returncode p3 =? 0).
    + destruct (subprocess_run W ["systemctl"; "reload"; "apache2"] None); simpl;
        eexists [_; _; _; _]; by rewrite <- ?app_assoc.
    + eexists [_; _]. by rewrite <- ?app_assoc.
Qed.

Lemma renew_certificate_commands d tr :
  auto_renew config = true ->
  exists suffix,
    renew_certificate W config d tr
      = (Ok (passed (subprocess_run W (certbot_cmd config d) (Some 300))), tr ++ suffix)
    ∧ commands suffix = renew_commands W config d
    ∧ connections suffix = [].
Proof.
  intros Hon. unfold renew_certificate, renew_commands. rewrite Hon; simpl.
  unfold try_except, run, print.
  unfold mbind, M_bind, mret, M_ret, lift, emit; simpl.
  change (if truthy_str (certbot_email config)
          then ["certbot"; "renew"; "--domain"; d; "--non-interactive"; "--agree-tos";
                "--email"; certbot_email config]
          else ["certbot"; "renew"; "--domain"; d; "--non-interactive"; "--agree-tos"])
    with (if truthy_str (certbot_email config)
          then ["certbot"; "renew"; "--domain"; d; "--non-interactive"; "--agree-tos"]
               ++ ["--email"; certbot_email config]
          else ["certbot"; "renew"; "--domain"; d; "--non-interactive"; "--agree-tos"]).
  assert (Hcmd : (if truthy_str (certbot_email config)
                  then ["certbot"; "renew"; "--domain"; d; "--non-interactive";
                        "--agree-tos"] ++ ["--email"; certbot_email config]
                  else ["certbot"; "renew"; "--domain"; d; "--non-interactive";
                        "--agree-tos"]) = certbot_cmd config d).
  { unfold certbot_cmd. destruct (truthy_str _); [done|by rewrite app_nil_r]. }
  rewrite Hcmd.
  destruct (subprocess_run W (certbot_cmd config d) (Some 300)) as [p|e]; simpl.
  2: { eexists [_; _; _]. by rewrite <- ?app_assoc. }
  destruct (returncode p =? 0).
  - match goal with
    | |- context [reload_web_server W ?t] =>
        destruct (reload_web_server_commands t) as (suffix & Hr & Hsuf & Hcon);
        rewrite Hr
    end.
    eexists ([_; _; _] ++ suffix). rewrite <- ?app_assoc. split; [done|].
    by rewrite commands_app, connections_app, Hsuf, Hcon.
  - eexists [_; _; _]. by rewrite <- ?app_assoc.
Qed.
End RenewalEnabled.

Lemma certbot_runs_reload W :
  filter (fun c : list string * option Z => head c.1 = Some "certbot")
    (reload_commands W) = [].
Proof.
  unfold reload_commands.
  destruct (passed (subprocess_run W nginx_test None)); [done|].
  destruct (raised (subprocess_run W nginx_test None)); [done|].
  by destruct (passed (subprocess_run W apache_test None)).
Qed.

Lemma certbot_runs_renew W config d :
  filter (fun c : list string * option Z => head c.1 = Some "certbot")
    (renew_commands W config d) = [(certbot_cmd config d, Some 300)].
Proof.
  unfold renew_commands. rewrite filter_cons_True by done.
  destruct (passed _); [|done]. by rewrite certbot_runs_reload.
Qed.

Lemma renew_each_commands W config ds : forall tr,
  auto_renew config = true ->
  exists suffix,
    renew_each W config ds tr = (Ok tt, tr ++ suffix)
    ∧ commands suffix = flat_map (renew_commands W config) ds
    ∧ connections suffix = [].
Proof.
  induction ds as [|d ds IH]; intros tr Hon; simpl.
  - exists []. by rewrite app_nil_r.
  - unfold mbind, M_bind.
    destruct (renew_certificate_commands W config d tr Hon) as (s1 & -> & H1 & C1).
    destruct (IH (tr ++ s1) Hon) as (s2 & -> & H2 & C2).
    exists (s1 ++ s2). rewrite app_assoc. split; [done|].
    by rewrite commands_app, connections_app, H1, H2, C1, C2.
Qed.

(** X3.  With auto-renew enabled, renewing a domain never raises and
    starts certbot exactly once, with a 300-second timeout and the e-mail
    option when an address is configured.  It returns [True] exactly when
    certbot returns with exit status 0; only then is the web server
    reload attempted, and after a failure or an exception no other
    subprocess is started. *)
Theorem X3_enabled_renewal_runs_certbot_once :
  forall (W : World) (config : Config) (d : string) (tr : list event),
    auto_renew config = true ->
    exists b suffix,
      renew_certificate W config d tr = (Ok b, tr ++ suffix)
      ∧ (b = true <->
         exists p, subprocess_run W (certbot_cmd config d) (Some 300) = Ok p
                   ∧ returncode p = 0)
      ∧ certbot_runs suffix = [(certbot_cmd config d, Some 300)]
      ∧ (b = true ->
         commands suffix = (certbot_cmd config d, Some 300) :: reload_commands W)
      ∧ (b = false -> commands suffix = [(certbot_cmd config d, Some 300)]).
Proof.
  intros W config d tr Hon.
  destruct (renew_certificate_commands W config d tr Hon)
    as (suffix & Hrun & Hcmds & _).
  eexists _, suffix. split; [exact Hrun|]. split.
  { unfold passed. destruct (subprocess_run W _ _) as [p|e].
    - rewrite Z.eqb_eq. split; [by eexists|]. by intros (p' & [= <-] & ?).
    - split; [done|]. by intros (p' & ? & _). }
  split; [unfold certbot_runs; by rewrite Hcmds, certbot_runs_renew|].
  rewrite Hcmds. unfold renew_commands.
  split; intros Hb; by rewrite Hb.
Qed.

(** X3 on the sample host, with a configured e-mail address. *)
Lemma X3_enabled_renewal_runs_certbot_once_witness :
  exists b suffix,
    renew_certificate Samples.healthy
      (mkConfig [] 30 7 "" "" true "ops@example.org" "") "a.example" []
      = (Ok b, [] ++ suffix)
    ∧ b = true
    ∧ certbot_runs suffix
        = [(["certbot"; "renew"; "--domain"; "a.example"; "--non-interactive";
             "--agree-tos"; "--email"; "ops@example.org"], Some 300)].
Proof.
  destruct (X3_enabled_renewal_runs_certbot_once Samples.healthy
              (mkConfig [] 30 7 "" "" true "ops@example.org" "") "a.example" []
              eq_refl)
    as (b & suffix & Hrun & Hb & Hcert & _).
  exists b, suffix. split; [exact Hrun|]. split; [|exact Hcert].
  apply Hb. by eexists.
Defined.

(** X4.  Reloading the web server never raises, and always starts with
    the nginx config test.  If that test passes, nginx is reloaded and
    apache is left alone; if it raises (nginx not installed, say), nothing
    else is started: apache is not even tested; if it returns a non-zero
    status, apache is tested and reloaded only when its own test passes.
    At most one reload is issued. *)
Theorem X4_reload_tries_nginx_then_apache :
  forall (W : World) (tr : list event),
    exists suffix,
      reload_web_server W tr = (Ok tt, tr ++ suffix)
      ∧ let nginx := subprocess_run W nginx_test None in
        let apache := subprocess_run W apache_test None in
        (passed nginx = true
           ∧ commands suffix = [(nginx_test, None); (reload_of "nginx", None)])
        ∨ (raised nginx = true ∧ commands suffix = [(nginx_test, None)])
        ∨ (passed nginx = false ∧ raised nginx = false ∧ passed apache = true
           ∧ commands suffix = [(nginx_test, None); (apache_test, None);
                                (reload_of "apache2", None)])
        ∨ (passed nginx = false ∧ raised nginx = false ∧ passed apache = false
           ∧ commands suffix = [(nginx_test, None); (apache_test, None)]).
Proof.
  intros W tr.
  destruct (reload_web_server_commands W tr) as (suffix & Hrun & Hcmds & _).
  exists suffix. split; [exact Hrun|]. simpl. rewrite Hcmds. unfold reload_commands.
  destruct (passed (subprocess_run W nginx_test None)); [by left|].
  destruct (raised (subprocess_run W nginx_test None)); [by right; left|].
  destruct (passed (subprocess_run W apache_test None)).
  - by right; right; left.
  - by right; right; right.
Qed.

(** X5.  With auto-renew enabled, the renewal loop never raises and
    handles every domain of the list: certbot is started once per domain,
    in list order, whether earlier renewals succeeded, failed or raised. *)
Theorem X5_renewal_loop_covers_every_domain :
  forall (W : World) (config : Config) (renewals : list string) (tr : list event),
    auto_renew config = true ->
    exists suffix,
      main_renewals W config true renewals tr = (Ok tt, tr ++ suffix)
      ∧ commands suffix = flat_map (renew_commands W config) renewals
      ∧ certbot_runs suffix
          = (fun d => (certbot_cmd config d, Some 300)) <$> renewals.
Proof.
  intros W config renewals tr Hon. unfold main_renewals.
  destruct (renew_each_commands W config renewals tr Hon)
    as (suffix & Hrun & Hcmds & _).
  exists suffix. split; [exact Hrun|]. split; [exact Hcmds|].
  unfold certbot_runs. rewrite Hcmds. clear.
  induction renewals as [|d ds IH]; [done|].
  cbn [flat_map]. by rewrite filter_app, certbot_runs_renew, fmap_cons, IH.
Qed.

(** X5 on the sample host, for two domains. *)
Lemma X5_renewal_loop_covers_every_domain_witness :
  exists suffix,
    main_renewals Samples.healthy
      (mkConfig [] 30 7 "" "" true "" "") true ["a.example"; "b.example"] []
      = (Ok tt, [] ++ suffix)
    ∧ certbot_runs suffix
        = [(["certbot"; "renew"; "--domain"; "a.example"; "--non-interactive";
             "--agree-tos"], Some 300);
           (["certbot"; "renew"; "--domain"; "b.example"; "--non-interactive";
             "--agree-tos"], Some 300)].
Proof.
  destruct (X5_renewal_loop_covers_every_domain
              Samples.healthy
              (mkConfig [] 30 7 "" "" true "" "") ["a.example"; "b.example"] []
              eq_refl)
    as (suffix & Hrun & _ & Hcert).
  exists suffix. split; [exact Hrun|exact Hcert].
Defined.

(** ** Alerts, renewals and the exit code *)

Section ExitCode.
Variable config : Config.

Lemma alerts_of_levels c :
  has_error_key c ->
  Alert.level <$> alerts_of config c =
  if decide (status c = "error" ∨ days_until_expiry c <= critical_days config)
  then ["critical"]
  else if decide (days_until_expiry c <= warning_days config) then ["warning"]
  else [].
Proof.
  intros Hkey. unfold alerts_of, analyze_results; simpl.
  destruct (String.eqb (status c) "error") eqn:Hs.
  - apply String.eqb_eq in Hs. destruct (Hkey Hs) as [e ->]; simpl.
    by rewrite decide_True by by left.
  - apply String.eqb_neq in Hs.
    destruct (days_until_expiry c <=? critical_days config) eqn:Hc.
    + apply Z.leb_le in Hc. by rewrite decide_True by by right.
    + apply Z.leb_gt in Hc. rewrite decide_False by (intros [?|?]; [done|lia]).
      destruct (days_until_expiry c <=? warning_days config) eqn:Hw.
      * apply Z.leb_le in Hw. by rewrite decide_True.
      * apply Z.leb_gt in Hw. by rewrite decide_False by lia.
Qed.

Lemma main_exit_code_cases alerts :
  (main_exit_code alerts = 1 ∧ "critical" ∈ Alert.level <$> alerts)
  ∨ (main_exit_code alerts = 0 ∧ "critical" ∉ Alert.level <$> alerts).
Proof.
  unfold main_exit_code.
  induction alerts as [|a rest IH]; [right; split; [done|apply not_elem_of_nil]|].
  destruct (decide (Alert.level a = "critical")) as [Ha|Ha].
  - rewrite filter_cons_True by done. left. split; [done|].
    rewrite fmap_cons, Ha. apply list_elem_of_here.
  - rewrite filter_cons_False by done.
    destruct IH as [[H1 H2]|[H1 H2]]; [left|right]; (split; [done|]).
    + rewrite fmap_cons. by apply list_elem_of_further.
    + rewrite fmap_cons. intros Hin. apply elem_of_cons in Hin as [?|?]; by auto.
Qed.

Lemma critical_level_iff results :
  Forall has_error_key results ->
  "critical" ∈ Alert.level <$> flat_map (alerts_of config) results
  <-> Exists (is_critical config) results.
Proof.
  induction 1 as [|c rest Hc Hrest IH]; simpl.
  - split; [by intros ?%elem_of_nil|by intros ?%Exists_nil].
  - rewrite fmap_app, elem_of_app, Exists_cons, IH, (alerts_of_levels c Hc).
    unfold is_critical. destruct (decide _) as [Hcrit|Hcrit].
    + split; [by left|]. intros _. left. apply list_elem_of_here.
    + split; [|by intros [?|?]; [|right]].
      intros [Hin|?]; [|by right].
      destruct (decide (days_until_expiry c <= warning_days config)).
      * apply list_elem_of_singleton in Hin. done.
      * by apply elem_of_nil in Hin.
Qed.
End ExitCode.

(** X6.  The exit code of the certificate tool is 1 exactly when some
    checked record is an error or lies within [critical_days], and 0
    otherwise: warnings alone leave it at 0, and a non-empty renewal list
    always comes with exit code 1. *)
Theorem X6_exit_code_reports_critical_records :
  forall (config : Config) (results : list CertRecord),
    Forall has_error_key results ->
    exists alerts renewals,
      analyze_results config results = Ok (alerts, renewals)
      ∧ (main_exit_code alerts = 1 <-> Exists (is_critical config) results)
      ∧ (main_exit_code alerts = 0 <-> Forall (fun c => ¬ is_critical config c) results)
      ∧ (renewals ≠ [] -> main_exit_code alerts = 1).
Proof.
  intros config results Hwf.
  eexists _, _. split; [by apply analyze_results_wf|].
  pose proof (critical_level_iff config results Hwf) as Hiff.
  destruct (main_exit_code_cases (flat_map (alerts_of config) results))
    as [[Hcode Hin]|[Hcode Hin]]; rewrite Hcode.
  - assert (Hex : Exists (is_critical config) results) by by apply Hiff.
    split; [done|]. split; [|done]. split; [done|].
    intros Hall. apply Exists_exists in Hex as (c & Hc & Hcrit).
    rewrite Forall_forall in Hall. by destruct (Hall c Hc).
  - assert (Hnex : ¬ Exists (is_critical config) results) by by rewrite <- Hiff.
    split; [done|]. split.
    + split; [|done]. intros _. by apply Forall_Exists_neg.
    + intros Hren. destruct Hnex.
      destruct (filter (in_critical_bucket config) results) as [|c l] eqn:Hf;
        [done|].
      assert (Hc : c ∈ filter (in_critical_bucket config) results)
        by (rewrite Hf; apply list_elem_of_here).
      apply list_elem_of_filter in Hc as [[_ Hdays] Hc].
      apply Exists_exists. exists c. split; [done|]. by right.
Qed.

(** X6 at one expiring and one healthy certificate. *)
Lemma X6_exit_code_reports_critical_records_witness :
  exists alerts renewals,
    analyze_results (default_config (fun _ => None))
      [valid_record "a.example" 20; valid_record "b.example" 200] = Ok (alerts, renewals)
    ∧ main_exit_code alerts = 0.
Proof.
  destruct (X6_exit_code_reports_critical_records (default_config (fun _ => None))
              [valid_record "a.example" 20; valid_record "b.example" 200])
    as (alerts & renewals & Hrun & _ & Hzero & _).
  - repeat (constructor; [intros H; discriminate H|]). constructor.
  - exists alerts, renewals. split; [exact Hrun|]. apply Hzero.
    repeat (constructor; [intros [H|H]; [discriminate H|simpl in H; lia]|]).
    constructor.
Defined.

Section AlertShape.
Variable config : Config.

Lemma renewal_has_critical_alert c :
  has_error_key c -> in_critical_bucket config c ->
  alerts_of config c = [critical_alert c].
Proof.
  intros Hkey [Hne Hdays]. unfold alerts_of, analyze_results; simpl.
  apply String.eqb_neq in Hne. rewrite Hne.
  apply Z.leb_le in Hdays. by rewrite Hdays.
Qed.

Lemma renewals_sublist_critical results :
  Forall has_error_key results ->
  (domain <$> filter (in_critical_bucket config) results)
    `sublist_of`
  (Alert.domain <$> filter (fun a => Alert.level a = "critical")
                      (flat_map (alerts_of config) results)).
Proof.
  induction 1 as [|c rest Hc Hrest IH]; simpl; [constructor|].
  rewrite filter_app, fmap_app.
  destruct (decide (in_critical_bucket config c)) as [Hb|Hb].
  - rewrite filter_cons_True by done.
    rewrite (renewal_has_critical_alert c Hc Hb).
    rewrite filter_cons_True by done. simpl. by constructor.
  - rewrite filter_cons_False by done. by apply sublist_inserts_l.
Qed.

Lemma warning_needs_room c a :
  a ∈ alerts_of config c -> Alert.level a = "warning" ->
  critical_days config < days_until_expiry c <= warning_days config.
Proof.
  unfold alerts_of, analyze_results; simpl.
  destruct (String.eqb (status c) "error").
  - destruct (error c); simpl; [|by intros ?%elem_of_nil].
    intros ->%list_elem_of_singleton. done.
  - destruct (days_until_expiry c <=? critical_days config) eqn:Hc.
    + intros ->%list_elem_of_singleton. done.
    + destruct (days_until_expiry c <=? warning_days config) eqn:Hw;
        [|by intros ?%elem_of_nil].
      intros _ _. apply Z.leb_gt in Hc. apply Z.leb_le in Hw. lia.
Qed.

Lemma alert_levels c a :
  a ∈ alerts_of config c ->
  Alert.level a = "critical" ∨ Alert.level a = "warning".
Proof.
  unfold alerts_of, analyze_results; simpl.
  destruct (String.eqb (status c) "error").
  - destruct (error c); simpl; [|by intros ?%elem_of_nil].
    intros ->%list_elem_of_singleton. by left.
  - destruct (days_until_expiry c <=? critical_days config).
    + intros ->%list_elem_of_singleton. by left.
    + destruct (days_until_expiry c <=? warning_days config);
        [|by intros ?%elem_of_nil].
      intros ->%list_elem_of_singleton. by right.
Qed.
End AlertShape.

(** X7.  Whenever threshold evaluation returns, there are no more alerts
    than records and no more renewal entries than alerts, and the renewal
    list is, in order, a sub-list of the domains of the critical alerts:
    every domain marked for renewal has a critical alert of its own. *)
Theorem X7_renewals_backed_by_critical_alerts :
  forall (config : Config) (results : list CertRecord)
         (alerts : list Alert.t) (renewals : list string),
    analyze_results config results = Ok (alerts, renewals) ->
    (length alerts <= length results)%nat
    ∧ (length renewals <= length alerts)%nat
    ∧ renewals `sublist_of`
        (Alert.domain <$> filter (fun a => Alert.level a = "critical") alerts).
Proof.
  intros config results alerts renewals Hrun.
  pose proof (analyze_results_ok_wf config results alerts renewals Hrun) as Hwf.
  rewrite (analyze_results_wf config results Hwf) in Hrun.
  injection Hrun as <- <-.
  pose proof (renewals_sublist_critical config results Hwf) as Hsub.
  split; [|split; [|exact Hsub]].
  - clear. induction results as [|c rs IH]; simpl; [done|].
    rewrite length_app. destruct (alerts_of_at_most_one config c) as [Hc _]. lia.
  - apply sublist_length in Hsub. rewrite !length_fmap in *.
    etrans; [exact Hsub|]. apply length_filter.
Qed.

(** X7 at three records under the default thresholds. *)
Lemma X7_renewals_backed_by_critical_alerts_witness :
  (2 <= 3)%nat ∧ (1 <= 2)%nat
  ∧ ["b.example"] `sublist_of`
      (Alert.domain <$> filter (fun a => Alert.level a = "critical")
         [warning_alert (valid_record "a.example" 20);
          critical_alert (valid_record "b.example" 3)]).
Proof.
  apply (X7_renewals_backed_by_critical_alerts (default_config (fun _ => None))
           [valid_record "a.example" 20; valid_record "b.example" 3;
            valid_record "c.example" 300]
           [warning_alert (valid_record "a.example" 20);
            critical_alert (valid_record "b.example" 3)]
           ["b.example"]).
  reflexivity.
Defined.

(** X8.  Every alert is critical or a warning, and a warning is only
    produced for a days value above [critical_days] and at most
    [warning_days]: when the configured [warning_days] is not greater than
    [critical_days], threshold evaluation never produces a warning. *)
Theorem X8_no_warning_without_room :
  forall (config : Config) (results : list CertRecord)
         (alerts : list Alert.t) (renewals : list string),
    warning_days config <= critical_days config ->
    analyze_results config results = Ok (alerts, renewals) ->
    Forall (fun a => Alert.level a = "critical") alerts.
Proof.
  intros config results alerts renewals Hle Hrun.
  pose proof (analyze_results_ok_wf config results alerts renewals Hrun) as Hwf.
  rewrite (analyze_results_wf config results Hwf) in Hrun.
  injection Hrun as <- _.
  apply Forall_forall. intros a Ha.
  apply list_elem_of_In, in_flat_map in Ha as (c & _ & Ha).
  apply list_elem_of_In in Ha.
  destruct (alert_levels config c a Ha) as [Hl|Hl]; [done|].
  pose proof (warning_needs_room config c a Ha Hl). lia.
Qed.

(** X8 with both thresholds at 30. *)
Lemma X8_no_warning_without_room_witness :
  Forall (fun a => Alert.level a = "critical")
    [critical_alert (valid_record "a.example" 20)].
Proof.
  apply (X8_no_warning_without_room (mkConfig [] 30 30 "" "" false "" "")
           [valid_record "a.example" 20; valid_record "b.example" 31]
           [critical_alert (valid_record "a.example" 20)] ["a.example"]).
  - simpl. lia.
  - reflexivity.
Defined.

(** X9.  A record whose status is ['error'] but which has no ['error']
    key makes threshold evaluation raise [KeyError('error')]: nothing is
    returned, whatever the records before and after it; the human report
    line of such a record raises the same way. *)
Theorem X9_error_record_without_message_raises :
  forall (config : Config) (pre post : list CertRecord) (c : CertRecord),
    Forall has_error_key pre ->
    status c = "error" ->
    error c = None ->
    analyze_results config (pre ++ c :: post) = Raise (KeyError "error")
    ∧ human_line c = Raise (KeyError "error").
Proof.
  intros config pre post c Hpre Hs He. split.
  - assert (Hc : analyze_results config [c] = Raise (KeyError "error")).
    { unfold analyze_results; simpl. by rewrite Hs, He. }
    rewrite analyze_results_app, (analyze_results_wf config pre Hpre); simpl.
    by rewrite (analyze_results_cons config c post), Hc.
  - unfold human_line. by rewrite Hs, He.
Qed.

(** X9 at a record built by hand without the key. *)
Lemma X9_error_record_without_message_raises_witness :
  analyze_results (default_config (fun _ => None))
    ([valid_record "a.example" 3]
       ++ mkCert "b.example" None None None (-1) "error" None None
       :: [valid_record "c.example" 3]) = Raise (KeyError "error")
  ∧ human_line (mkCert "b.example" None None None (-1) "error" None None)
      = Raise (KeyError "error").
Proof.
  apply (X9_error_record_without_message_raises (default_config (fun _ => None))
           [valid_record "a.example" 3] [valid_record "c.example" 3]
           (mkCert "b.example" None None None (-1) "error" None None)).
  - constructor; [intros H; discriminate H|constructor].
  - reflexivity.
  - reflexivity.
Defined.

(** ** What the probes hand to warning derivation *)

Section ProbeValues.
Variable L : Lib.

Lemma numeric_at_failure key prefix e :
  key ≠ "error" -> numeric_at key (failure prefix e).
Proof.
  intros Hne v Hv. unfold failure in Hv.
  by rewrite lookup_singleton_ne in Hv.
Qed.

Lemma percent_of_number part total v :
  percent_of L part total = Ok v -> is_number v.
Proof.
  unfold percent_of. destruct (0 <? total).
  - destruct (int_truediv L part total); simpl; [|done]. by intros [= <-].
  - by intros [= <-].
Qed.

Lemma round_2_number v v' :
  is_number v -> round_2 L v = Ok v' -> is_number v'.
Proof. destruct v; simpl; try done; by intros _ [= <-]. Qed.

Lemma get_system_info_numeric W tr m :
  fst (get_system_info L W tr) = Ok m -> numeric_at "memory_used_percent" m.
Proof.
  unfold get_system_info. unfold_probe.
  destruct (read_file W "/proc/meminfo") as [text|e0]; simpl.
  2: { intros [= <-]. by apply (numeric_at_failure _ "Failed to get memory info: "). }
  destruct (meminfo_loop L _ 0 0) as [[mem_total mem_available]|e1]; simpl.
  2: { intros [= <-]. by apply (numeric_at_failure _ "Failed to get memory info: "). }
  destruct (percent_of L _ _) as [pct|e2] eqn:Hpct; simpl.
  2: { intros [= <-]. by apply (numeric_at_failure _ "Failed to get memory info: "). }
  destruct (round_2 L pct) as [rounded|e3] eqn:Hround; simpl.
  2: { intros [= <-]. by apply (numeric_at_failure _ "Failed to get memory info: "). }
  intros [= <-] v Hv. rewrite lookup_insert_eq in Hv. injection Hv as <-.
  eapply round_2_number; [|exact Hround]. by eapply percent_of_number.
Qed.

Lemma get_disk_usage_numeric W tr m :
  fst (get_disk_usage L W tr) = Ok m -> numeric_at "disk_used_percent" m.
Proof.
  assert (Hparse : numeric_at "disk_used_percent"
                     {["error" := PStr "Failed to parse df output"]}).
  { intros v Hv. by rewrite lookup_singleton_ne in Hv. }
  unfold get_disk_usage. unfold_probe.
  destruct (subprocess_run W ["df"; "-B1"; "/"] None) as [p|e0]; simpl.
  2: { intros [= <-]. by apply (numeric_at_failure _ "Failed to get disk usage: "). }
  destruct (returncode p =? 0); [|by intros [= <-]].
  destruct (2 <=? _); [|by intros [= <-]].
  destruct (index "list" _ 1) as [line|e1]; simpl.
  2: { intros [= <-]. by apply (numeric_at_failure _ "Failed to get disk usage: "). }
  destruct (res_bind _ _ _ (index "list" (split_ws line) 1)) as [total|e2]; simpl.
  2: { intros [= <-]. by apply (numeric_at_failure _ "Failed to get disk usage: "). }
  destruct (res_bind _ _ _ (index "list" (split_ws line) 2)) as [used|e3]; simpl.
  2: { intros [= <-]. by apply (numeric_at_failure _ "Failed to get disk usage: "). }
  destruct (res_bind _ _ _ (index "list" (split_ws line) 3)) as [available|e4]; simpl.
  2: { intros [= <-]. by apply (numeric_at_failure _ "Failed to get disk usage: "). }
  destruct (percent_of L used total) as [pct|e5] eqn:Hpct; simpl.
  2: { intros [= <-]. by apply (numeric_at_failure _ "Failed to get disk usage: "). }
  destruct (round_2 L pct) as [rounded|e6] eqn:Hround; simpl.
  2: { intros [= <-]. by apply (numeric_at_failure _ "Failed to get disk usage: "). }
  intros [= <-] v Hv. rewrite lookup_insert_eq in Hv. injection Hv as <-.
  eapply round_2_number; [|exact Hround]. by eapply percent_of_number.
Qed.

Lemma get_cpu_info_numeric W tr m :
  fst (get_cpu_info L W tr) = Ok m -> numeric_at "load_1min" m.
Proof.
  unfold get_cpu_info. unfold_probe.
  destruct (read_file W "/proc/loadavg") as [text|e0]; simpl.
  2: { intros [= <-]. by apply (numeric_at_failure _ "Failed to get CPU info: "). }
  destruct (res_bind _ _ _ (index "list" _ 0)) as [l1|e1]; simpl.
  2: { intros [= <-]. by apply (numeric_at_failure _ "Failed to get CPU info: "). }
  destruct (res_bind _ _ _ (index "list" _ 1)) as [l5|e2]; simpl.
  2: { intros [= <-]. by apply (numeric_at_failure _ "Failed to get CPU info: "). }
  destruct (res_bind _ _ _ (index "list" _ 2)) as [l15|e3]; simpl.
  2: { intros [= <-]. by apply (numeric_at_failure _ "Failed to get CPU info: "). }
  intros [= <-] v Hv.
  rewrite !lookup_insert_ne, lookup_insert_eq in Hv by done. by injection Hv as <-.
Qed.

Lemma memory_warning_numeric m :
  numeric_at "memory_used_percent" m ->
  exists ws, memory_warning L m = Ok ws ∧ (length ws <= 1)%nat.
Proof.
  unfold memory_warning, numeric_at. intros Hnum.
  destruct (m !! "memory_used_percent") as [v|]; [|by (eexists; split; [reflexivity|simpl; lia])].
  specialize (Hnum v eq_refl). destruct v; try done; simpl.
  - destruct (90 <? n); by (eexists; split; [reflexivity|simpl; lia]).
  - destruct (PrimFloat.ltb _ _); by (eexists; split; [reflexivity|simpl; lia]).
Qed.

Lemma disk_warning_numeric m :
  numeric_at "disk_used_percent" m ->
  exists ws, disk_warning L m = Ok ws ∧ (length ws <= 1)%nat.
Proof.
  unfold disk_warning, numeric_at. intros Hnum.
  destruct (m !! "disk_used_percent") as [v|]; [|by (eexists; split; [reflexivity|simpl; lia])].
  specialize (Hnum v eq_refl). destruct v; try done; simpl.
  - destruct (85 <? n); by (eexists; split; [reflexivity|simpl; lia]).
  - destruct (PrimFloat.ltb _ _); by (eexists; split; [reflexivity|simpl; lia]).
Qed.

Lemma load_warning_numeric m :
  numeric_at "load_1min" m ->
  exists ws, load_warning L m = Ok ws ∧ (length ws <= 1)%nat.
Proof.
  unfold load_warning, numeric_at. intros Hnum.
  destruct (m !! "load_1min") as [v|]; [|by (eexists; split; [reflexivity|simpl; lia])].
  specialize (Hnum v eq_refl). destruct v; try done; simpl.
  - destruct (4 <? n); by (eexists; split; [reflexivity|simpl; lia]).
  - destruct (PrimFloat.ltb _ _); by (eexists; split; [reflexivity|simpl; lia]).
Qed.

Lemma network_warning_short m : (length (network_warning m) <= 1)%nat.
Proof.
  unfold network_warning. destruct (m !! _) as [v|]; [|simpl; lia].
  destruct (truthy v); simpl; lia.
Qed.

Lemma service_warning_iff (a1 a2 a3 : bool) s b :
  (s, b) ∈ [("sshd", a1); ("systemd-resolved", a2); ("cron", a3)] ->
  "Service " +:+ s +:+ " is not running"
    ∈ service_warnings [("sshd", a1); ("systemd-resolved", a2); ("cron", a3)]
  <-> b = false.
Proof.
  intros Hs.
  assert (Hcase : (s = "sshd" ∧ b = a1) ∨ (s = "systemd-resolved" ∧ b = a2)
                  ∨ (s = "cron" ∧ b = a3)).
  { repeat (apply elem_of_cons in Hs as [Hs|Hs]; [injection Hs as -> ->; by auto|]).
    by apply elem_of_nil in Hs. }
  destruct Hcase as [[-> ->]|[[-> ->]|[-> ->]]];
    destruct a1, a2, a3;
    (split; [intros Hin; try done; apply (bool_decide_pack _) in Hin;
             vm_compute in Hin; destruct Hin
            |intros Hb; try done; apply (bool_decide_unpack _); vm_compute; exact I]).
Qed.
End ProbeValues.

(** X10.  Warning derivation never raises on a snapshot that
    [collect_metrics] produced: the compared values are numbers whenever
    their keys are present.  It yields at most four metric warnings,
    followed by the service warnings: one "Service ... is not running"
    line, in the fixed order sshd, systemd-resolved, cron, for each
    service whose query raised or did not print exactly "active" (the
    exit status is not consulted). *)
Theorem X10_snapshot_warnings_never_raise :
  forall (L : Lib) (W : World) (tr : list event),
    exists m tr' metric_warnings,
      collect_metrics L W tr = (Ok m, tr')
      ∧ check_thresholds L m
          = Ok (metric_warnings ++ service_warnings (service_report W))
      ∧ (length metric_warnings <= 4)%nat
      ∧ (forall s, s ∈ ["sshd"; "systemd-resolved"; "cron"] ->
           ("Service " +:+ s +:+ " is not running"
              ∈ service_warnings (service_report W)
            <-> service_active W s = false))
      ∧ (forall s e, subprocess_run W (is_active_cmd s) None = Raise e ->
                     service_active W s = false).
Proof.
  intros L W tr.
  destruct (collect_metrics_runs L W tr)
    as (m & suffix & Hrun & _ & _ & Hsys & Hdisk & Hcpu & Hnet & Hsvc).
  rewrite check_services_eq in Hsvc. injection Hsvc as Hsvc.
  destruct (memory_warning_numeric L (system m)
              (get_system_info_numeric L W tr _ Hsys)) as (w1 & H1 & Hl1).
  destruct (disk_warning_numeric L (disk m)
              (get_disk_usage_numeric L W tr _ Hdisk)) as (w2 & H2 & Hl2).
  destruct (load_warning_numeric L (cpu m)
              (get_cpu_info_numeric L W tr _ Hcpu)) as (w3 & H3 & Hl3).
  pose proof (network_warning_short (network m)) as Hl4.
  exists m, (tr ++ suffix), (w1 ++ w2 ++ w3 ++ network_warning (network m)).
  split; [exact Hrun|]. split.
  { rewrite check_thresholds_eq, H1, H2, H3; simpl.
    unfold service_report. rewrite Hsvc. by rewrite <- !app_assoc. }
  split; [rewrite !length_app; lia|]. split.
  { intros s Hs. unfold service_report. apply service_warning_iff.
    repeat (apply elem_of_cons in Hs as [->|Hs]);
      [| | |by apply elem_of_nil in Hs].
    - apply list_elem_of_here.
    - apply list_elem_of_further, list_elem_of_here.
    - do 2 apply list_elem_of_further. apply list_elem_of_here. }
  intros s e He. unfold service_active. by rewrite He.
Qed.

(** X11.  A probe that failed never triggers a warning: when the memory,
    disk, CPU and network sub-records are all error-only, the only
    warnings are the service warnings.  In particular a network probe
    that raised produces no connectivity warning. *)
Theorem X11_failed_probes_are_silent :
  forall (L : Lib) (m : Metrics),
    error_only (system m) -> error_only (disk m) ->
    error_only (cpu m) -> error_only (network m) ->
    check_thresholds L m = Ok (service_warnings (services m)).
Proof.
  intros L m [e1 H1] [e2 H2] [e3 H3] [e4 H4].
  rewrite check_thresholds_eq.
  unfold memory_warning, disk_warning, load_warning, network_warning.
  rewrite H1, H2, H3, H4.
  by rewrite !lookup_singleton_ne by done.
Qed.

(** X11 at a snapshot whose four probes failed and whose cron is down. *)
Lemma X11_failed_probes_are_silent_witness :
  check_thresholds Samples.lib
    (mkMetrics "2030-01-01T00:00:00" "host01"
       {["error" := PStr "Failed to get memory info: boom"]}
       {["error" := PStr "Failed to parse df output"]}
       {["error" := PStr "Failed to get CPU info: boom"]}
       {["error" := PStr "Failed to get network info: boom"]}
       [("sshd", true); ("systemd-resolved", true); ("cron", false)])
  = Ok (service_warnings [("sshd", true); ("systemd-resolved", true); ("cron", false)]).
Proof.
  apply (X11_failed_probes_are_silent Samples.lib
           (mkMetrics "2030-01-01T00:00:00" "host01"
              {["error" := PStr "Failed to get memory info: boom"]}
              {["error" := PStr "Failed to parse df output"]}
              {["error" := PStr "Failed to get CPU info: boom"]}
              {["error" := PStr "Failed to get network info: boom"]}
              [("sshd", true); ("systemd-resolved", true); ("cron", false)]));
    by eexists.
Defined.

(** X12.  The warnings depend on five readings only: the memory
    percentage, the disk percentage, the 1-minute load, the
    internet-reachable flag and the service states.  The timestamp, the
    hostname, the byte totals, the 5- and 15-minute loads and the DNS
    flag never change them: a failing DNS lookup alone produces no
    warning. *)
Theorem X12_warnings_depend_on_five_readings :
  forall (L : Lib) (m m' : Metrics),
    system m !! "memory_used_percent" = system m' !! "memory_used_percent" ->
    disk m !! "disk_used_percent" = disk m' !! "disk_used_percent" ->
    cpu m !! "load_1min" = cpu m' !! "load_1min" ->
    network m !! "internet_reachable" = network m' !! "internet_reachable" ->
    services m = services m' ->
    check_thresholds L m = check_thresholds L m'.
Proof.
  intros L m m' H1 H2 H3 H4 H5.
  rewrite !check_thresholds_eq.
  unfold memory_warning, disk_warning, load_warning, network_warning.
  by rewrite H1, H2, H3, H4, H5.
Qed.

(** X12 at two snapshots that differ in the DNS flag, the hostname and the
    byte totals. *)
Lemma X12_warnings_depend_on_five_readings_witness :
  check_thresholds Samples.lib
    (mkMetrics "t1" "host01"
       (<["memory_used_percent" := PFloat 95]> (<["memory_total_bytes" := PInt 1]> ∅))
       ∅ ∅
       (<["internet_reachable" := PBool true]> (<["dns_working" := PBool true]> ∅))
       [("cron", true)])
  = check_thresholds Samples.lib
      (mkMetrics "t2" "host02"
         (<["memory_used_percent" := PFloat 95]> (<["memory_total_bytes" := PInt 2]> ∅))
         ∅ ∅
         (<["internet_reachable" := PBool true]> (<["dns_working" := PBool false]> ∅))
         [("cron", true)]).
Proof.
  apply X12_warnings_depend_on_five_readings; reflexivity.
Defined.

(** ** Edge cases of the parsers *)

Section ParserEdges.
Variable L : Lib.

Lemma meminfo_loop_skipped lines : forall mem_total mem_available,
  Forall skipped lines ->
  meminfo_loop L lines mem_total mem_available = Ok (mem_total, mem_available).
Proof.
  induction lines as [|line rest IH]; intros t a Hskip; [done|].
  apply Forall_cons in Hskip as [[Ht Ha] Hrest]. simpl.
  rewrite Ht, Ha. by apply IH.
Qed.

Lemma meminfo_loop_app pre rest : forall mem_total mem_available,
  Forall skipped pre ->
  meminfo_loop L (pre ++ rest) mem_total mem_available
  = meminfo_loop L rest mem_total mem_available.
Proof.
  induction pre as [|line pre IH]; intros t a Hskip; [done|].
  apply Forall_cons in Hskip as [[Ht Ha] Hpre]. simpl.
  rewrite Ht, Ha. by apply IH.
Qed.

Lemma index_short {A} what (xs : list A) i :
  (length xs <= i)%nat ->
  index what xs i = Raise (IndexError (what +:+ " index out of range")).
Proof. intros Hlen. unfold index. by rewrite lookup_ge_None_2. Qed.
End ParserEdges.

(** X13.  When no line of /proc/meminfo mentions MemTotal: or
    MemAvailable: (an empty file, say), the memory probe does not fail:
    it reports both totals as 0 and the used percentage as the integer 0,
    without dividing, and no memory warning follows. *)
Theorem X13_meminfo_without_totals_reads_zero :
  forall (L : Lib) (W : World) (tr : list event) (text : string),
    read_file W "/proc/meminfo" = Ok text ->
    Forall skipped (split_on newline text) ->
    fst (get_system_info L W tr) = Ok (memory_record 0 0 (PInt 0))
    ∧ memory_warning L (memory_record 0 0 (PInt 0)) = Ok [].
Proof.
  intros L W tr text Hread Hskip. split.
  - unfold get_system_info. unfold_probe. rewrite Hread; simpl.
    by rewrite (meminfo_loop_skipped L _ 0 0 Hskip).
  - unfold memory_warning, memory_record. by rewrite lookup_insert_eq.
Qed.

(** X13 on a host whose /proc/meminfo is empty. *)
Lemma X13_meminfo_without_totals_reads_zero_witness :
  fst (get_system_info Samples.lib
         (Worlds.set_file "/proc/meminfo" (Ok "") Samples.healthy) [])
    = Ok (memory_record 0 0 (PInt 0))
  ∧ memory_warning Samples.lib (memory_record 0 0 (PInt 0)) = Ok [].
Proof.
  apply (X13_meminfo_without_totals_reads_zero Samples.lib
           (Worlds.set_file "/proc/meminfo" (Ok "") Samples.healthy) [] "").
  - reflexivity.
  - repeat constructor.
Defined.

(** X14.  A MemTotal: line without a second field makes the whole memory
    probe fail with "list index out of range", whatever the later lines
    hold: the sub-record is then error-only. *)
Theorem X14_meminfo_line_without_value_fails_probe :
  forall (L : Lib) (W : World) (tr : list event) (text : string)
         (pre post : list string) (line : string),
    read_file W "/proc/meminfo" = Ok text ->
    split_on newline text = pre ++ line :: post ->
    Forall skipped pre ->
    contains "MemTotal:" line = true ->
    (length (split_ws line) < 2)%nat ->
    fst (get_system_info L W tr)
    = Ok {["error" := PStr "Failed to get memory info: list index out of range"]}.
Proof.
  intros L W tr text pre post line Hread Hsplit Hskip Hline Hlen.
  unfold get_system_info. unfold_probe. rewrite Hread; simpl.
  rewrite Hsplit, (meminfo_loop_app L pre _ 0 0 Hskip); simpl.
  rewrite Hline, index_short by lia. done.
Qed.

(** X14 on a host whose /proc/meminfo starts with a bare "MemTotal:". *)
Lemma X14_meminfo_line_without_value_fails_probe_witness :
  fst (get_system_info Samples.lib
         (Worlds.set_file "/proc/meminfo"
            (Ok ("MemTotal:" +:+ Samples.nl +:+ "MemAvailable: 500 kB"))
            Samples.healthy) [])
  = Ok {["error" := PStr "Failed to get memory info: list index out of range"]}.
Proof.
  apply (X14_meminfo_line_without_value_fails_probe Samples.lib _ []
           ("MemTotal:" +:+ Samples.nl +:+ "MemAvailable: 500 kB")
           [] ["MemAvailable: 500 kB"] "MemTotal:").
  - reflexivity.
  - reflexivity.
  - constructor.
  - reflexivity.
  - simpl. lia.
Defined.

Section DiskProbe.
Variables (L : Lib) (W : World).

Lemma df_fields_lines p fields :
  df_fields p = Some fields ->
  exists line,
    split_on newline (strip (stdout p)) !! 1%nat = Some line
    ∧ fields = split_ws line
    ∧ (2 <=? Z.of_nat (length (split_on newline (strip (stdout p))))) = true.
Proof.
  unfold df_fields. intros Hf.
  destruct (split_on newline (strip (stdout p)) !! 1%nat) as [line|] eqn:Hline;
    [|done].
  injection Hf as <-. exists line. split; [done|]. split; [done|].
  apply lookup_lt_Some in Hline. apply Z.leb_le. lia.
Qed.

Lemma df_fields_none p :
  df_fields p = None ->
  (2 <=? Z.of_nat (length (split_on newline (strip (stdout p))))) = false.
Proof.
  unfold df_fields. intros Hf.
  destruct (split_on newline (strip (stdout p)) !! 1%nat) as [line|] eqn:Hline;
    [done|].
  apply lookup_ge_None in Hline. apply Z.leb_gt. lia.
Qed.

Lemma get_disk_usage_fields tr p fields :
  subprocess_run W df_cmd None = Ok p ->
  returncode p = 0 ->
  df_fields p = Some fields ->
  fst (get_disk_usage L W tr) =
  Ok (match
        total ← index "list" fields 1 ≫= int_of_str L;
        used ← index "list" fields 2 ≫= int_of_str L;
        available ← index "list" fields 3 ≫= int_of_str L;
        pct ← percent_of L used total ≫= round_2 L;
        mret (disk_record total used available pct)
      with
      | Ok m => m
      | Raise e => failure "Failed to get disk usage: " e
      end).
Proof.
  intros Hrun Hrc Hf. destruct (df_fields_lines p fields Hf) as (line & Hl & -> & Hlen).
  unfold get_disk_usage. unfold df_cmd in Hrun. unfold_probe.
  rewrite Hrun; simpl. rewrite Hrc; simpl. rewrite Hlen.
  unfold index at 1. rewrite Hl; simpl.
  destruct (res_bind _ _ _ (index "list" (split_ws line) 1)) as [total|e2]; simpl; [|done].
  destruct (res_bind _ _ _ (index "list" (split_ws line) 2)) as [used|e3]; simpl; [|done].
  destruct (res_bind _ _ _ (index "list" (split_ws line) 3)) as [available|e4]; simpl;
    [|done].
  destruct (percent_of L used total) as [pct|e5]; simpl; [|done].
  by destruct (round_2 L pct) as [rounded|e6].
Qed.
End DiskProbe.

(** X15.  When df exits with status 0 and the second line of its output
    has integers in its second, third and fourth fields, the disk probe
    reports them as total, used and available bytes.  The used
    percentage is the rounded quotient used/total times 100 when the
    total is positive, and the integer 0, without dividing, when the
    total is 0 or negative. *)
Theorem X15_df_row_is_read_by_position :
  forall (L : Lib) (W : World) (tr : list event) (p : CompletedProcess)
         (fields : list string) (f1 f2 f3 : string) (total used available : Z),
    subprocess_run W df_cmd None = Ok p ->
    returncode p = 0 ->
    df_fields p = Some fields ->
    fields !! 1%nat = Some f1 -> int_of_str L f1 = Ok total ->
    fields !! 2%nat = Some f2 -> int_of_str L f2 = Ok used ->
    fields !! 3%nat = Some f3 -> int_of_str L f3 = Ok available ->
    (total <= 0 ->
       fst (get_disk_usage L W tr) = Ok (disk_record total used available (PInt 0)))
    ∧ (forall q, 0 < total -> int_truediv L used total = Ok q ->
         fst (get_disk_usage L W tr)
         = Ok (disk_record total used available
                 (PFloat (round2 L (PrimFloat.mul q 100))))).
Proof.
  intros L W tr p fields f1 f2 f3 total used available
    Hrun Hrc Hf H1 Hi1 H2 Hi2 H3 Hi3.
  rewrite (get_disk_usage_fields L W tr p fields Hrun Hrc Hf).
  unfold index. rewrite H1, H2, H3; simpl. rewrite Hi1, Hi2, Hi3; simpl.
  unfold percent_of. split.
  - intros Hle. by replace (0 <? total) with false by (symmetry; apply Z.ltb_ge; lia).
  - intros q Hpos Hq.
    replace (0 <? total) with true by (symmetry; apply Z.ltb_lt; lia).
    simpl. by rewrite Hq.
Qed.

(** X15 on the sample host, whose root file system has 1000 bytes. *)
Lemma X15_df_row_is_read_by_position_witness :
  fst (get_disk_usage Samples.lib Samples.healthy [])
  = Ok (disk_record 1000 400 600
          (PFloat (round2 Samples.lib
                     (PrimFloat.mul (PrimFloat.div (float_of_Z 400) (float_of_Z 1000))
                        100)))).
Proof.
  refine (proj2 (X15_df_row_is_read_by_position Samples.lib Samples.healthy []
                   (Samples.proc 0 ("Filesystem 1B-blocks Used Available Use% Mounted on"
                                    +:+ Samples.nl +:+ "/dev/sda1 1000 400 600 40% /"
                                    +:+ Samples.nl))
                   ["/dev/sda1"; "1000"; "400"; "600"; "40%"; "/"]
                   "1000" "400" "600" 1000 400 600 _ _ _ _ _ _ _ _ _)
            (PrimFloat.div (float_of_Z 400) (float_of_Z 1000)) _ _);
    first [reflexivity | lia].
Defined.

(** X16.  The two ways the disk probe fails on a df that exited with
    status 0.  With fewer than two lines of output the sub-record is the
    fixed "Failed to parse df output"; with a second line of fewer than
    four fields it is error-only as well, and with fewer than two fields
    the message is "Failed to get disk usage: list index out of range". *)
Theorem X16_short_df_output_fails_probe :
  forall (L : Lib) (W : World) (tr : list event) (p : CompletedProcess),
    subprocess_run W df_cmd None = Ok p ->
    returncode p = 0 ->
    (df_fields p = None ->
       fst (get_disk_usage L W tr) = Ok {["error" := PStr "Failed to parse df output"]})
    ∧ (forall fields, df_fields p = Some fields -> (length fields < 4)%nat ->
         exists m, fst (get_disk_usage L W tr) = Ok m ∧ error_only m)
    ∧ (forall fields, df_fields p = Some fields -> (length fields < 2)%nat ->
         fst (get_disk_usage L W tr)
         = Ok {["error" := PStr "Failed to get disk usage: list index out of range"]}).
Proof.
  intros L W tr p Hrun Hrc. split; [|split].
  - intros Hnone. unfold get_disk_usage. unfold df_cmd in Hrun. unfold_probe.
    rewrite Hrun; simpl. rewrite Hrc; simpl. by rewrite (df_fields_none p Hnone).
  - intros fields Hf Hlen.
    rewrite (get_disk_usage_fields L W tr p fields Hrun Hrc Hf).
    destruct (index "list" fields 1 ≫= int_of_str L) as [total|e1]; simpl;
      [|eexists; split; [done|by eexists]].
    destruct (index "list" fields 2 ≫= int_of_str L) as [used|e2]; simpl;
      [|eexists; split; [done|by eexists]].
    rewrite (index_short "list" fields 3) by lia. simpl.
    eexists; split; [done|by eexists].
  - intros fields Hf Hlen.
    rewrite (get_disk_usage_fields L W tr p fields Hrun Hrc Hf).
    by rewrite (index_short "list" fields 1) by lia.
Qed.

(** X16 on a host whose df prints only its header line. *)
Lemma X16_short_df_output_fails_probe_witness :
  fst (get_disk_usage Samples.lib
         (Worlds.set_run df_cmd
            (Ok (Samples.proc 0 "Filesystem 1B-blocks Used Available Use% Mounted on"))
            Samples.healthy) [])
  = Ok {["error" := PStr "Failed to parse df output"]}.
Proof.
  refine (proj1 (X16_short_df_output_fails_probe Samples.lib
                   (Worlds.set_run df_cmd
                      (Ok (Samples.proc 0
                             "Filesystem 1B-blocks Used Available Use% Mounted on"))
                      Samples.healthy) []
                   (Samples.proc 0 "Filesystem 1B-blocks Used Available Use% Mounted on")
                   _ _) _); reflexivity.
Defined.

(** X17.  The CPU probe reads the first three fields of /proc/loadavg as
    the 1-, 5- and 15-minute loads and ignores the rest.  With fewer than
    three fields the sub-record is error-only, and for an empty file the
    message is "Failed to get CPU info: list index out of range". *)
Theorem X17_loadavg_first_three_fields :
  forall (L : Lib) (W : World) (tr : list event) (text : string),
    read_file W "/proc/loadavg" = Ok text ->
    (forall f1 f2 f3 rest x1 x2 x3,
       loadavg_fields text = f1 :: f2 :: f3 :: rest ->
       float_of_str L f1 = Ok x1 -> float_of_str L f2 = Ok x2 ->
       float_of_str L f3 = Ok x3 ->
       fst (get_cpu_info L W tr)
       = Ok (<["load_15min" := PFloat x3]>
             (<["load_5min" := PFloat x2]>
              (<["load_1min" := PFloat x1]> ∅))))
    ∧ ((length (loadavg_fields text) < 3)%nat ->
       exists m, fst (get_cpu_info L W tr) = Ok m ∧ error_only m)
    ∧ (loadavg_fields text = [] ->
       fst (get_cpu_info L W tr)
       = Ok {["error" := PStr "Failed to get CPU info: list index out of range"]}).
Proof.
  intros L W tr text Hread.
  assert (Hrun : fst (get_cpu_info L W tr) =
                 Ok (match
                       x1 ← index "list" (loadavg_fields text) 0 ≫= float_of_str L;
                       x2 ← index "list" (loadavg_fields text) 1 ≫= float_of_str L;
                       x3 ← index "list" (loadavg_fields text) 2 ≫= float_of_str L;
                       mret (<["load_15min" := PFloat x3]>
                             (<["load_5min" := PFloat x2]>
                              (<["load_1min" := PFloat x1]> (∅ : gmap string pyval))))
                     with
                     | Ok m => m
                     | Raise e => failure "Failed to get CPU info: " e
                     end)).
  { unfold get_cpu_info, loadavg_fields. unfold_probe. rewrite Hread; simpl.
    destruct (res_bind _ _ _ (index "list" _ 0)) as [l1|e1]; simpl; [|done].
    destruct (res_bind _ _ _ (index "list" _ 1)) as [l5|e2]; simpl; [|done].
    by destruct (res_bind _ _ _ (index "list" _ 2)) as [l15|e3]. }
  rewrite Hrun. split; [|split].
  - intros f1 f2 f3 rest x1 x2 x3 -> H1 H2 H3. unfold index; simpl.
    by rewrite H1, H2, H3.
  - intros Hlen.
    destruct (index "list" (loadavg_fields text) 0 ≫= float_of_str L) as [x1|e1];
      simpl; [|eexists; split; [done|by eexists]].
    destruct (index "list" (loadavg_fields text) 1 ≫= float_of_str L) as [x2|e2];
      simpl; [|eexists; split; [done|by eexists]].
    rewrite (index_short "list" (loadavg_fields text) 2) by lia. simpl.
    eexists; split; [done|by eexists].
  - by intros ->.
Qed.

(** X17 on the sample host, whose /proc/loadavg has five fields. *)
Lemma X17_loadavg_first_three_fields_witness :
  fst (get_cpu_info Samples.lib Samples.healthy [])
  = Ok (<["load_15min" := PFloat 0x1.2e147ae147ae1p-1]>
        (<["load_5min" := PFloat 0x1.28f5c28f5c28fp-1]>
         (<["load_1min" := PFloat 0x1.0a3d70a3d70a4p-1]> ∅))).
Proof.
  refine (proj1 (X17_loadavg_first_three_fields Samples.lib Samples.healthy []
                   ("0.52 0.58 0.59 1/467 12345" +:+ Samples.nl) _)
            "0.52" "0.58" "0.59" ["1/467"; "12345"] _ _ _ _ _ _ _);
    reflexivity.
Defined.

(** ** Loading the configuration *)



Lemma of_M_run {A} (m : M A) tr r suffix :
  m (base_events tr) = (r, base_events tr ++ suffix) ->
  of_M m tr = (r, tr ++ (Base <$> suffix)).
Proof.
  intros Hm. unfold of_M. rewrite Hm. by rewrite drop_app_length.
Qed.

Lemma io_print_run line tr :
  io_print line tr = (Ok tt, tr ++ [Base (EPrint line)]).
Proof. unfold io_print. by rewrite (of_M_run (print line) tr (Ok tt) [EPrint line]). Qed.

Lemma update_lookup assigned : forall (d : gmap string json) key,
  update d assigned !! key =
  match last_assigned assigned key with
  | Some v => Some v
  | None => d !! key
  end.
Proof.
  unfold update, last_assigned.
  induction assigned as [|[k v] rest IH] using rev_ind; intros d key; [done|].
  rewrite foldl_app, reverse_app; simpl.
  destruct (decide (k = key)) as [->|Hne].
  - by rewrite !lookup_insert_eq.
  - rewrite !lookup_insert_ne by done. apply IH.
Qed.

Lemma update_keeps_keys assigned (d : gmap string json) key :
  is_Some (d !! key) -> is_Some (update d assigned !! key).
Proof.
  intros Hd. rewrite update_lookup. by destruct (last_assigned assigned key).
Qed.

(** X18.  Loading the configuration never raises, and every key of the
    built-in defaults is present in the result, whatever the file holds.
    Without a file the result is the defaults, read at their types as the
    default configuration, and nothing is printed.  With a file that
    cannot be opened or decoded the result is again the defaults, after
    one warning line.  With a JSON object each key has the value the file
    gives it (the last one, if repeated), keys the file does not mention
    keep their defaults, and keys unknown to the defaults are kept too. *)
Theorem X18_load_config_overlays_defaults :
  forall (H : Host) (path : string) (tr : list effect),
    exists cfg suffix,
      load_config H path tr = (Ok cfg, tr ++ suffix)
      ∧ (forall key, is_Some (default_dict (environ H) !! key) -> is_Some (cfg !! key))
      ∧ (path_exists H path = false ->
         cfg = default_dict (environ H) ∧ suffix = []
         ∧ typed_config cfg = Some (default_config (environ H)))
      ∧ (forall e, path_exists H path = true -> read_config H path = Raise e ->
         cfg = default_dict (environ H) ∧ suffix = [config_warning path e])
      ∧ (forall assigned, path_exists H path = true ->
         read_config H path = Ok (assigned, None) ->
         suffix = []
         ∧ forall key,
             cfg !! key = match last_assigned assigned key with
                          | Some v => Some v
                          | None => default_dict (environ H) !! key
                          end).
Proof.
  intros H path tr. unfold load_config.
  destruct (path_exists H path).
  2: { exists (default_dict (environ H)), []. rewrite app_nil_r.
       split; [done|]. split; [done|]. split; [|done]. intros _.
       split; [done|]. split; [done|]. reflexivity. }
  destruct (read_config H path) as [[assigned [e|]]|e].
  - exists (update (default_dict (environ H)) assigned), [config_warning path e].
    unfold mbind, IO_bind. rewrite io_print_run.
    split; [done|]. split; [intros key; apply update_keeps_keys|]. done.
  - exists (update (default_dict (environ H)) assigned), []. rewrite app_nil_r.
    split; [done|]. split; [intros key; apply update_keeps_keys|].
    split; [done|]. split; [done|]. intros a _ [= <-]. split; [done|].
    intros key. apply update_lookup.
  - exists (default_dict (environ H)), [config_warning path e].
    unfold mbind, IO_bind. rewrite io_print_run.
    split; [done|]. split; [done|]. split; [done|]. split; [|done].
    by intros e' _ [= <-].
Qed.

(** ** The Slack notification and the log *)

Lemma slack_message_text alerts : forall message,
  slack_message alerts message = foldl String.append message (slack_line <$> alerts).
Proof.
  induction alerts as [|a rest IH]; intros message; [done|].
  simpl. by rewrite IH.
Qed.


Lemma writes_app tr1 tr2 : writes (tr1 ++ tr2) = writes tr1 ++ writes tr2.
Proof. apply omap_app. Qed.

Lemma send_slack_alert_run :
  forall (H : Host) (config : Config) (alerts : list Alert.t) (tr : list effect),
    exists suffix,
      send_slack_alert H config alerts tr = (Ok tt, tr ++ suffix)
      ∧ (slack_webhook config = "" -> suffix = [])
      ∧ (slack_webhook config ≠ "" ->
         let request :=
           Post (slack_webhook config) (slack_text alerts) "SSL Monitor" ":lock:" 10 in
         match import_requests H with
         | Raise e =>
             suffix = [Base (EPrint ("Error sending Slack alert: " +:+ str_exn e))]
         | Ok _ =>
             match requests_post H (slack_webhook config) (slack_text alerts) 10 with
             | Ok code =>
                 suffix = [request;
                           Base (EPrint (if code =? 200
                                         then "Slack alert sent successfully"
                                         else "Failed to send Slack alert: "
                                              +:+ str_int code))]
             | Raise e =>
                 suffix = [request;
                           Base (EPrint ("Error sending Slack alert: " +:+ str_exn e))]
             end
         end).
Proof.
  intros H config alerts tr. unfold send_slack_alert.
  destruct (slack_webhook config) as [|c hook] eqn:Hhook; simpl.
  { exists []. by rewrite app_nil_r. }
  unfold io_try, post, io_lift, io_emit. unfold mbind, IO_bind; simpl.
  rewrite slack_message_text. fold (slack_text alerts).
  destruct (import_requests H) as [[]|e0]; simpl.
  2: { rewrite io_print_run. eexists. split; [done|]. by split. }
  destruct (requests_post H (String c hook) (slack_text alerts) 10) as [code|e1]; simpl.
  2: { rewrite io_print_run, <- app_assoc. eexists. split; [done|]. by split. }
  destruct (code =? 200); rewrite io_print_run, <- app_assoc;
    (eexists; split; [done|]; by split).
Qed.

(** X19.  Sending the Slack alert never raises.  Without a webhook URL it
    does nothing at all.  With one it makes exactly one request (none if
    the requests module cannot be imported), with a 10-second timeout, to
    the configured URL, whose text is the heading followed by one line
    per alert in order, red for critical and yellow otherwise; afterwards
    it prints exactly one line saying whether the request returned 200,
    returned another status, or raised.  It never retries. *)
Theorem X19_slack_alert_posts_once :
  forall (H : Host) (config : Config) (alerts : list Alert.t) (tr : list effect),
    exists suffix,
      send_slack_alert H config alerts tr = (Ok tt, tr ++ suffix)
      ∧ (slack_webhook config = "" -> suffix = [])
      ∧ (slack_webhook config ≠ "" ->
         let request :=
           Post (slack_webhook config) (slack_text alerts) "SSL Monitor" ":lock:" 10 in
         match import_requests H with
         | Raise e =>
             suffix = [Base (EPrint ("Error sending Slack alert: " +:+ str_exn e))]
         | Ok _ =>
             match requests_post H (slack_webhook config) (slack_text alerts) 10 with
             | Ok code =>
                 suffix = [request;
                           Base (EPrint (if code =? 200
                                         then "Slack alert sent successfully"
                                         else "Failed to send Slack alert: "
                                              +:+ str_int code))]
             | Raise e =>
                 suffix = [request;
                           Base (EPrint ("Error sending Slack alert: " +:+ str_exn e))]
             end
         end).
Proof. exact send_slack_alert_run. Qed.

Lemma log_results_run :
  forall (L : Lib) (H : Host) (config : Config) (results : list CertRecord)
         (alerts : list Alert.t) (tr : list effect),
    exists suffix,
      log_results L H config results alerts tr = (Ok tt, tr ++ suffix)
      ∧ let now := clock (world H) (length (base_events tr)) in
        let line := dumps_cert_log H (isoformat L now) (gethostname H) results alerts
                    +:+ lf in
        let warning e :=
          Base (EPrint ("Warning: Could not write to log file: " +:+ str_exn e)) in
        match makedirs H (dirname (log_file config)) with
        | Raise e => suffix = [MakeDirs (dirname (log_file config)); warning e]
        | Ok _ =>
            match append_file H (log_file config) line with
            | Ok _ => suffix = [MakeDirs (dirname (log_file config));
                                Append (log_file config) line]
            | Raise e => suffix = [MakeDirs (dirname (log_file config));
                                   Append (log_file config) line; warning e]
            end
        end.
Proof.
  intros L H config results alerts tr. unfold log_results.
  unfold mbind at 1, IO_bind.
  rewrite (of_M_run (datetime_now (world H)) tr
             (Ok (clock (world H) (length (base_events tr)))) []).
  2: { unfold datetime_now. by rewrite app_nil_r. }
  simpl. rewrite app_nil_r.
  unfold io_try, make_dirs, append, io_lift, io_emit. unfold mbind, IO_bind; simpl.
  destruct (makedirs H (dirname (log_file config))) as [[]|e0]; simpl.
  2: { rewrite io_print_run, <- app_assoc. by eexists. }
  destruct (append_file H (log_file config) _) as [[]|e1]; simpl.
  - rewrite <- app_assoc. by eexists.
  - rewrite io_print_run, <- !app_assoc. by eexists.
Qed.

(** X20.  Writing the log never raises.  It first creates the directory
    of the configured log file and then appends one line, the JSON entry
    followed by a newline.  When creating the directory raises, nothing
    is appended; whenever one of the two steps raises, a single warning
    line is printed instead. *)
Theorem X20_log_results_swallows_failures :
  forall (L : Lib) (H : Host) (config : Config) (results : list CertRecord)
         (alerts : list Alert.t) (tr : list effect),
    exists suffix,
      log_results L H config results alerts tr = (Ok tt, tr ++ suffix)
      ∧ let now := clock (world H) (length (base_events tr)) in
        let line := dumps_cert_log H (isoformat L now) (gethostname H) results alerts
                    +:+ lf in
        let warning e :=
          Base (EPrint ("Warning: Could not write to log file: " +:+ str_exn e)) in
        match makedirs H (dirname (log_file config)) with
        | Raise e => suffix = [MakeDirs (dirname (log_file config)); warning e]
        | Ok _ =>
            match append_file H (log_file config) line with
            | Ok _ => suffix = [MakeDirs (dirname (log_file config));
                                Append (log_file config) line]
            | Raise e => suffix = [MakeDirs (dirname (log_file config));
                                   Append (log_file config) line; warning e]
            end
        end.
Proof. exact log_results_run. Qed.

(** ** The certificate tool from end to end *)

Lemma IO_bind_run {A B} (m : IO A) (k : A -> IO B) tr a tr' :
  m tr = (Ok a, tr') -> (m ≫= k) tr = k a tr'.
Proof. intros Hm. unfold mbind, IO_bind. by rewrite Hm. Qed.









Section CertMainSteps.
Variables (L : Lib) (H : Host) (config : Config) (args : Args).






End CertMainSteps.


(** ** The system monitor from end to end *)

Lemma prints_ret : prints (mret tt) (fun ls => ls = []).
Proof. intros tr. exists []. by rewrite app_nil_r. Qed.

Lemma prints_print line : prints (io_print line) (fun ls => ls = [line]).
Proof. intros tr. exists [line]. by rewrite io_print_run. Qed.

Lemma prints_seq (m1 m2 : IO unit) (P1 P2 : list string -> Prop) :
  prints m1 P1 -> prints m2 P2 ->
  prints (m1;; m2) (fun ls => exists l1 l2, ls = l1 ++ l2 ∧ P1 l1 ∧ P2 l2).
Proof.
  intros H1 H2 tr. destruct (H1 tr) as (l1 & Hrun1 & HP1).
  rewrite (IO_bind_run _ _ _ _ _ Hrun1).
  destruct (H2 (tr ++ (Base <$> (EPrint <$> l1)))) as (l2 & -> & HP2).
  exists (l1 ++ l2). rewrite <- app_assoc, !fmap_app. split; [done|].
  by exists l1, l2.
Qed.

Lemma prints_lift {A} (r : res A) (a : A) (k : A -> IO unit) P :
  r = Ok a -> prints (k a) P -> prints (io_lift r ≫= k) P.
Proof.
  intros -> Hk tr. by rewrite (IO_bind_run (io_lift (Ok a)) k tr a tr).
Qed.

Lemma prints_weaken (m : IO unit) (P Q : list string -> Prop) :
  prints m P -> (forall ls, P ls -> Q ls) -> prints m Q.
Proof.
  intros Hm HPQ tr. destruct (Hm tr) as (ls & Hrun & HP). exists ls. by auto.
Qed.

Lemma prints_any (m : IO unit) (P : list string -> Prop) :
  prints m P -> prints m (fun _ => True).
Proof. intros Hm. by apply (prints_weaken m P). Qed.

Lemma IO_bind_raise {A B} (m : IO A) (k : A -> IO B) tr e tr' :
  m tr = (Raise e, tr') -> (m ≫= k) tr = (Raise e, tr').
Proof. intros Hm. unfold mbind, IO_bind. by rewrite Hm. Qed.

Lemma append_run (H : Host) path line tr :
  append H path line tr = (append_file H path line, tr ++ [Append path line]).
Proof.
  unfold append, io_emit, io_lift. unfold mbind, IO_bind.
  by destruct (append_file H path line).
Qed.

Section SnapshotTrace.
Variables (L : Lib) (W : World).

Lemma collect_metrics_events tr :
  exists m,
    collect_metrics L W tr = (Ok m, tr ++ probe_events W)
    ∧ measured m
    ∧ fst (get_network_info W tr) = Ok (network m)
    ∧ services m = service_report W.
Proof.
  destruct (collect_metrics_runs L W tr)
    as (m & suffix & Hrun & _ & _ & Hsys & Hdisk & Hcpu & Hnet & Hsvc).
  exists m. split.
  - rewrite Hrun. f_equal. f_equal.
    revert Hrun. unfold collect_metrics, datetime_now, probe_events.
    unfold mbind, M_bind, mret, M_ret; simpl.
    destruct (get_system_info_runs L W tr) as (m1 & H1 & _). rewrite H1.
    destruct (get_disk_usage_runs L W (tr ++ [ERead "/proc/meminfo"]))
      as (m2 & H2 & _).
    rewrite H2.
    match goal with
    | |- context [get_cpu_info L W ?t] =>
        destruct (get_cpu_info_runs L W t) as (m3 & H3 & _); rewrite H3
    end.
    rewrite get_network_info_eq.
    destruct (subprocess_run W nslookup_cmd (Some 5)) as [dns|e0]; simpl.
    + destruct (subprocess_run W ping_cmd (Some 10)) as [ping|e1];
        rewrite check_services_eq, <- ?app_assoc; simpl; intros [= _ Heq];
        by apply app_inv_head in Heq.
    + rewrite check_services_eq, <- ?app_assoc; simpl. intros [= _ Heq].
      by apply app_inv_head in Heq.
  - split; [|split].
    + split; [|split].
      * by apply (get_system_info_numeric L W tr).
      * by apply (get_disk_usage_numeric L W tr).
      * by apply (get_cpu_info_numeric L W tr).
    + done.
    + rewrite check_services_eq in Hsvc. by injection Hsvc as <-.
Qed.
End SnapshotTrace.

Section MonitorRun.
Variables (L : Lib) (H : Host).

Lemma metric_warnings_high m :
  measured m ->
  exists ws,
    check_thresholds L m
    = Ok (ws ++ network_warning (network m) ++ service_warnings (services m))
    ∧ Forall high_line ws.
Proof.
  intros (Hsys & Hdisk & Hcpu). rewrite check_thresholds_eq.
  assert (H1 : exists w1, memory_warning L (system m) = Ok w1 ∧ Forall high_line w1).
  { unfold memory_warning. unfold numeric_at in Hsys.
    destruct (system m !! "memory_used_percent") as [v|];
      [|exists []; by split].
    specialize (Hsys v eq_refl). destruct v; try done; simpl.
    - destruct (90 <? n); eexists; (split; [reflexivity|]);
        repeat constructor. by eexists.
    - destruct (PrimFloat.ltb _ _); eexists; (split; [reflexivity|]);
        repeat constructor. by eexists. }
  assert (H2 : exists w2, disk_warning L (disk m) = Ok w2 ∧ Forall high_line w2).
  { unfold disk_warning. unfold numeric_at in Hdisk.
    destruct (disk m !! "disk_used_percent") as [v|];
      [|exists []; by split].
    specialize (Hdisk v eq_refl). destruct v; try done; simpl.
    - destruct (85 <? n); eexists; (split; [reflexivity|]);
        repeat constructor. by eexists.
    - destruct (PrimFloat.ltb _ _); eexists; (split; [reflexivity|]);
        repeat constructor. by eexists. }
  assert (H3 : exists w3, load_warning L (cpu m) = Ok w3 ∧ Forall high_line w3).
  { unfold load_warning. unfold numeric_at in Hcpu.
    destruct (cpu m !! "load_1min") as [v|];
      [|exists []; by split].
    specialize (Hcpu v eq_refl). destruct v; try done; simpl.
    - destruct (4 <? n); eexists; (split; [reflexivity|]);
        repeat constructor. by eexists.
    - destruct (PrimFloat.ltb _ _); eexists; (split; [reflexivity|]);
        repeat constructor. by eexists. }
  destruct H1 as (w1 & -> & Hw1), H2 as (w2 & -> & Hw2), H3 as (w3 & -> & Hw3).
  exists (w1 ++ w2 ++ w3). simpl. split; [by rewrite <- !app_assoc|].
  by rewrite !Forall_app.
Qed.

Lemma print_services_prints items :
  prints (MonitorMain.print_services items) (fun _ => True).
Proof.
  induction items as [|[service status] rest IH].
  - exact (prints_any _ _ prints_ret).
  - exact (prints_any _ _ (prints_seq _ _ _ _ (prints_print _) IH)).
Qed.

Lemma print_warnings_prints warnings :
  prints (MonitorMain.print_warnings warnings) (fun _ => True).
Proof.
  induction warnings as [|w rest IH].
  - exact (prints_any _ _ prints_ret).
  - exact (prints_any _ _ (prints_seq _ _ _ _ (prints_print _) IH)).
Qed.

Lemma print_human_prints m warnings :
  measured m ->
  prints (MonitorMain.print_human L H m warnings)
    (fun ls =>
       ("Internet Connectivity: "
        +:+ match network m !! "internet_reachable" with
            | Some v => if truthy v then "OK" else "FAILED"
            | None => "FAILED"
            end) ∈ ls
       ∧ (warnings = [] -> last ls = Some (lf +:+ "All systems normal"))
       ∧ (warnings ≠ [] -> (lf +:+ "WARNINGS:") ∈ ls)).
Proof.
  intros (Hsys & Hdisk & Hcpu). unfold MonitorMain.print_human.
  assert (Hmem : prints
            match system m !! "memory_used_percent" with
            | Some v => shown ← io_lift (fmt_1f L v);
                        io_print ("Memory Usage: " +:+ shown +:+ "%")
            | None => mret tt
            end (fun _ => True)).
  { unfold numeric_at in Hsys.
    destruct (system m !! "memory_used_percent") as [v|];
      [|exact (prints_any _ _ prints_ret)].
    specialize (Hsys v eq_refl).
    destruct v; try done;
      exact (prints_any _ _ (prints_lift _ _ _ _ eq_refl (prints_print _))). }
  assert (Hdsk : prints
            match disk m !! "disk_used_percent" with
            | Some v => shown ← io_lift (fmt_1f L v);
                        io_print ("Disk Usage: " +:+ shown +:+ "%")
            | None => mret tt
            end (fun _ => True)).
  { unfold numeric_at in Hdisk.
    destruct (disk m !! "disk_used_percent") as [v|];
      [|exact (prints_any _ _ prints_ret)].
    specialize (Hdisk v eq_refl).
    destruct v; try done;
      exact (prints_any _ _ (prints_lift _ _ _ _ eq_refl (prints_print _))). }
  assert (Hload : prints
            match cpu m !! "load_1min" with
            | Some v => shown ← io_lift (MonitorMain.fmt_2f H v);
                        io_print ("Load Average: " +:+ shown)
            | None => mret tt
            end (fun _ => True)).
  { unfold numeric_at in Hcpu.
    destruct (cpu m !! "load_1min") as [v|];
      [|exact (prints_any _ _ prints_ret)].
    specialize (Hcpu v eq_refl).
    destruct v; try done;
      exact (prints_any _ _ (prints_lift _ _ _ _ eq_refl (prints_print _))). }
  assert (Htail : prints
            match warnings with
            | [] => io_print (lf +:+ "All systems normal")
            | _ => io_print (lf +:+ "WARNINGS:");; MonitorMain.print_warnings warnings
            end
            (fun ls => (warnings = [] -> ls = [lf +:+ "All systems normal"])
                       ∧ (warnings ≠ [] -> exists rest, ls = (lf +:+ "WARNINGS:") :: rest))).
  { destruct warnings as [|w rest].
    - intros tr. destruct (prints_print (lf +:+ "All systems normal") tr)
        as (ls & Hrun & ->).
      eexists. split; [exact Hrun|]. by split.
    - intros tr.
      destruct (prints_seq _ _ _ _ (prints_print (lf +:+ "WARNINGS:"))
                  (print_warnings_prints (w :: rest)) tr)
        as (ls & Hrun & l1 & l2 & -> & -> & _).
      eexists. split; [exact Hrun|]. split; [done|]. intros _. by exists l2. }
  eapply prints_weaken.
  { eapply prints_seq; [apply prints_print|].
    eapply prints_seq; [apply prints_print|].
    eapply prints_seq; [apply prints_print|].
    eapply prints_seq; [exact Hmem|].
    eapply prints_seq; [exact Hdsk|].
    eapply prints_seq; [exact Hload|].
    eapply prints_seq; [apply prints_print|].
    eapply prints_seq; [apply prints_print|].
    eapply prints_seq; [apply print_services_prints|].
    exact Htail. }
  intros ls (a1 & r1 & -> & _ & a2 & r2 & -> & _ & a3 & r3 & -> & _
             & a4 & r4 & -> & _ & a5 & r5 & -> & _ & a6 & r6 & -> & _
             & a7 & r7 & -> & -> & a8 & r8 & -> & _ & a9 & r9 & -> & _
             & Hnone & Hsome).
  split; [|split].
  - do 6 (apply elem_of_app; right). apply elem_of_app. left. apply list_elem_of_here.
  - intros Hw. rewrite (Hnone Hw), !app_assoc. apply last_snoc.
  - intros Hw. destruct (Hsome Hw) as [rest ->].
    do 9 (apply elem_of_app; right). apply list_elem_of_here.
Qed.

Lemma run_monitoring_run args tr :
  exists m warnings report,
    fst (collect_metrics L (world H) (base_events tr)) = Ok m
    ∧ measured m
    ∧ fst (get_network_info (world H) (base_events tr)) = Ok (network m)
    ∧ check_thresholds L m = Ok warnings
    ∧ (String.eqb (MonitorMain.output args) "json" = true ->
       report = [dumps_metrics_output H m warnings (status_word warnings)])
    ∧ (String.eqb (MonitorMain.output args) "json" = false ->
       ("Internet Connectivity: "
        +:+ match network m !! "internet_reachable" with
            | Some v => if truthy v then "OK" else "FAILED"
            | None => "FAILED"
            end) ∈ report
       ∧ (warnings = [] -> last report = Some (lf +:+ "All systems normal"))
       ∧ (warnings ≠ [] -> (lf +:+ "WARNINGS:") ∈ report))
    ∧ let before := Base <$> (probe_events (world H) ++ (EPrint <$> report)) in
      let sent := Base (EPrint (endpoint_line H)) in
      let code := match warnings with [] => 0 | _ => 1 end in
      match log_target args with
      | None =>
          MonitorMain.run_monitoring L H args tr = (Ok code, tr ++ before ++ [sent])
      | Some path =>
          let entry := Append path (log_line H m warnings) in
          match append_file H path (log_line H m warnings) with
          | Ok _ =>
              MonitorMain.run_monitoring L H args tr
              = (Ok code, tr ++ before ++ [entry; sent])
          | Raise e =>
              MonitorMain.run_monitoring L H args tr
              = (Raise e, tr ++ before ++ [entry])
          end
      end.
Proof.
  destruct (collect_metrics_events L (world H) (base_events tr))
    as (m & Hrun & Hm & Hnet & _).
  destruct (metric_warnings_high m Hm) as (ws & Hws & _).
  set (warnings := ws ++ network_warning (network m) ++ service_warnings (services m))
    in *.
  assert (Hreport : exists report,
            (if String.eqb (MonitorMain.output args) "json"
             then io_print (dumps_metrics_output H m warnings
                              (match warnings with [] => "ok" | _ => "warning" end))
             else MonitorMain.print_human L H m warnings)
              (tr ++ (Base <$> probe_events (world H)))
            = (Ok tt, (tr ++ (Base <$> probe_events (world H)))
                      ++ (Base <$> (EPrint <$> report)))
            ∧ (String.eqb (MonitorMain.output args) "json" = true ->
               report = [dumps_metrics_output H m warnings (status_word warnings)])
            ∧ (String.eqb (MonitorMain.output args) "json" = false ->
               ("Internet Connectivity: "
                +:+ match network m !! "internet_reachable" with
                    | Some v => if truthy v then "OK" else "FAILED"
                    | None => "FAILED"
                    end) ∈ report
               ∧ (warnings = [] -> last report = Some (lf +:+ "All systems normal"))
               ∧ (warnings ≠ [] -> (lf +:+ "WARNINGS:") ∈ report))).
  { destruct (String.eqb (MonitorMain.output args) "json").
    - eexists [_]. rewrite io_print_run. split; [done|]. by split.
    - destruct (print_human_prints m warnings Hm (tr ++ (Base <$> probe_events (world H))))
        as (report & Hp & Hfacts).
      exists report. split; [exact Hp|]. by split. }
  destruct Hreport as (report & Hprint & Hjson & Hhuman).
  exists m, warnings, report.
  split; [by rewrite Hrun|]. split; [done|]. split; [done|]. split; [done|].
  split; [done|]. split; [done|].
  cbv zeta.
  assert (Hsend : forall t, MonitorMain.send_to_monitoring_system H m t
                            = (Ok tt, t ++ [Base (EPrint (endpoint_line H))])).
  { intros t. unfold MonitorMain.send_to_monitoring_system, endpoint_line.
    destruct (environ H "MONITORING_ENDPOINT") as [url|]; [|apply io_print_run].
    destruct (truthy_str url); apply io_print_run. }
  unfold MonitorMain.run_monitoring, log_target.
  rewrite (IO_bind_run _ _ _ _ _ (of_M_run _ tr _ _ Hrun)).
  rewrite (IO_bind_run (io_lift (check_thresholds L m)) _ _ warnings
             (tr ++ (Base <$> probe_events (world H))))
    by (unfold io_lift; by rewrite Hws).
  rewrite (IO_bind_run _ _ _ _ _ Hprint).
  rewrite fmap_app.
  destruct (MonitorMain.log_file args) as [path|].
  2: { rewrite (IO_bind_run (mret tt) _ _ tt _ eq_refl).
       rewrite (IO_bind_run _ _ _ _ _ (Hsend _)).
       by rewrite <- !app_assoc. }
  destruct (truthy_str path).
  2: { rewrite (IO_bind_run (mret tt) _ _ tt _ eq_refl).
       rewrite (IO_bind_run _ _ _ _ _ (Hsend _)).
       by rewrite <- !app_assoc. }
  fold (log_line H m warnings).
  match goal with
  | |- context [append H path (log_line H m warnings) ≫= ?k] =>
      match goal with
      | |- context [mbind k (append H path (log_line H m warnings)) ?t] =>
          pose proof (append_run H path (log_line H m warnings) t) as Happ
      end
  end.
  destruct (append_file H path (log_line H m warnings)) as [[]|e].
  - rewrite (IO_bind_run _ _ _ _ _ Happ).
    rewrite (IO_bind_run _ _ _ _ _ (Hsend _)).
    by rewrite <- !app_assoc.
  - rewrite (IO_bind_raise _ _ _ _ _ Happ).
    by rewrite <- !app_assoc.
Qed.
End MonitorRun.

(** X22.  Collecting a snapshot never raises and touches the host in a
    fixed order: it reads /proc/meminfo, runs df on the root file system,
    reads /proc/loadavg, runs nslookup with a 5-second timeout, runs ping
    with a 10-second timeout unless the lookup raised, and queries
    systemctl for sshd, systemd-resolved and cron.  It starts nothing
    else, prints nothing and opens no connection, whatever the probes
    answer. *)
Theorem X22_snapshot_probes_in_fixed_order :
  forall (L : Lib) (W : World) (tr : list event),
    exists m suffix,
      collect_metrics L W tr = (Ok m, tr ++ suffix)
      ∧ suffix = probe_events W
      ∧ printed suffix = []
      ∧ connections suffix = []
      ∧ (3 + 1 + 3 <= length suffix <= 3 + 2 + 3)%nat
      ∧ (ERun ping_cmd (Some 10) ∈ suffix
         <-> raised (subprocess_run W nslookup_cmd (Some 5)) = false).
Proof.
  intros L W tr.
  destruct (collect_metrics_events L W tr) as (m & Hrun & _).
  exists m, (probe_events W). split; [done|]. split; [done|].
  unfold probe_events.
  destruct (raised (subprocess_run W nslookup_cmd (Some 5))); simpl.
  - split; [done|]. split; [done|]. split; [lia|]. split; [|done].
    intros Hin. repeat (apply elem_of_cons in Hin as [Hin|Hin]; [done|]).
    by apply elem_of_nil in Hin.
  - split; [done|]. split; [done|]. split; [lia|]. split; [done|]. intros _.
    do 4 apply list_elem_of_further. apply list_elem_of_here.
Qed.

(** X23.  One run of the system monitor.  It collects a snapshot, derives
    the warnings, prints the report (in JSON mode one line, with status
    "warning" exactly when there are warnings) and, when a log file is
    given, appends one line to it.  Without a log file, or when the append
    succeeds, it prints the monitoring-endpoint line last and returns 1
    when there are warnings and 0 otherwise.  When the append raises, the
    exception leaves the run: the report is already printed, the endpoint
    line is not, and no exit status is derived from the warnings. *)
Theorem X23_monitoring_run_outcome :
  forall (L : Lib) (H : Host) (args : MonitorMain.Args) (tr : list effect),
    exists m warnings report,
      fst (collect_metrics L (world H) (base_events tr)) = Ok m
      ∧ check_thresholds L m = Ok warnings
      ∧ (String.eqb (MonitorMain.output args) "json" = true ->
         report = [dumps_metrics_output H m warnings (status_word warnings)])
      ∧ let before := Base <$> (probe_events (world H) ++ (EPrint <$> report)) in
        let sent := Base (EPrint (endpoint_line H)) in
        let code := match warnings with [] => 0 | _ => 1 end in
        match log_target args with
        | None =>
            MonitorMain.run_monitoring L H args tr = (Ok code, tr ++ before ++ [sent])
        | Some path =>
            let entry := Append path (log_line H m warnings) in
            match append_file H path (log_line H m warnings) with
            | Ok _ =>
                MonitorMain.run_monitoring L H args tr
                = (Ok code, tr ++ before ++ [entry; sent])
            | Raise e =>
                MonitorMain.run_monitoring L H args tr
                = (Raise e, tr ++ before ++ [entry])
            end
        end.
Proof.
  intros L H args tr.
  destruct (run_monitoring_run L H args tr)
    as (m & warnings & report & Hm & _ & _ & Hws & Hjson & _ & Hrun).
  by exists m, warnings, report.
Qed.

(** X24.  When the network probe fails (the DNS lookup or the ping
    raises), the human report of the run still prints
    "Internet Connectivity: FAILED", but no connectivity warning is
    derived: the warnings of the run do not mention the network, and when
    nothing else is wrong the report ends with "All systems normal". *)
Theorem X24_failed_network_probe_is_reported_not_warned :
  forall (L : Lib) (H : Host) (args : MonitorMain.Args) (tr : list effect),
    String.eqb (MonitorMain.output args) "json" = false ->
    (raised (subprocess_run (world H) nslookup_cmd (Some 5))
     || raised (subprocess_run (world H) ping_cmd (Some 10))) = true ->
    exists m warnings report rest,
      fst (collect_metrics L (world H) (base_events tr)) = Ok m
      ∧ check_thresholds L m = Ok warnings
      ∧ snd (MonitorMain.run_monitoring L H args tr)
        = tr ++ (Base <$> (probe_events (world H) ++ (EPrint <$> report))) ++ rest
      ∧ "Internet Connectivity: FAILED" ∈ report
      ∧ ("Internet connectivity issue detected" ∉ warnings)
      ∧ (warnings = [] -> last report = Some (lf +:+ "All systems normal")).
Proof.
  intros L H args tr Hout Hfail.
  destruct (run_monitoring_run L H args tr)
    as (m & warnings & report & Hm & Hnum & Hnet & Hws & _ & Hhuman & Hrun).
  destruct (Hhuman Hout) as (Hconn & Hlast & _).
  assert (Hnone : network m !! "internet_reachable" = None).
  { rewrite get_network_info_eq in Hnet.
    destruct (subprocess_run (world H) nslookup_cmd (Some 5)) as [dns|e0];
      simpl in Hnet, Hfail.
    - destruct (subprocess_run (world H) ping_cmd (Some 10)) as [ping|e1];
        [done|]. simpl in Hnet. by injection Hnet as <-.
    - by injection Hnet as <-. }
  rewrite Hnone in Hconn.
  assert (Hnot : "Internet connectivity issue detected" ∉ warnings).
  { destruct (metric_warnings_high L m Hnum) as (ws & Hws' & Hhigh).
    rewrite Hws in Hws'. injection Hws' as ->.
    unfold network_warning. rewrite Hnone. simpl.
    intros Hin. apply elem_of_app in Hin as [Hin|Hin].
    - rewrite Forall_forall in Hhigh. by destruct (Hhigh _ Hin) as [rest Hrest].
    - unfold service_warnings in Hin.
      apply list_elem_of_fmap in Hin as (item & Hitem & _). done. }
  cbv zeta in Hrun.
  exists m, warnings, report.
  destruct (log_target args) as [path|].
  - destruct (append_file H path _) as [[]|e]; rewrite Hrun; by eexists.
  - rewrite Hrun. by eexists.
Qed.

(** X24 on a host whose DNS lookup times out. *)
Lemma X24_failed_network_probe_is_reported_not_warned_witness :
  exists m warnings report rest,
    fst (collect_metrics Samples.lib (world dns_down_host) (base_events [])) = Ok m
    ∧ check_thresholds Samples.lib m = Ok warnings
    ∧ snd (MonitorMain.run_monitoring Samples.lib dns_down_host
             (MonitorMain.mkArgs "human" None) [])
      = [] ++ (Base <$> (probe_events (world dns_down_host) ++ (EPrint <$> report)))
        ++ rest
    ∧ "Internet Connectivity: FAILED" ∈ report
    ∧ ("Internet connectivity issue detected" ∉ warnings)
    ∧ (warnings = [] -> last report = Some (lf +:+ "All systems normal")).
Proof.
  apply (X24_failed_network_probe_is_reported_not_warned Samples.lib dns_down_host
           (MonitorMain.mkArgs "human" None) []); reflexivity.
Defined.

(** ** From the time left to the alert *)

Section TimeLeft.
Variables (L : Lib) (W : World) (config : Config).

Lemma days_within (left bound : Z) :
  left `div` us_per_day <= bound <-> left < us_per_day * (bound + 1).
Proof.
  unfold us_per_day.
  pose proof (Z.div_mod left 86400000000 ltac:(lia)).
  pose proof (Z.mod_pos_bound left 86400000000 ltac:(lia)).
  lia.
Qed.

Lemma get_cert_info_checked d tr cert expiry iss sub :
  peer_cert_of W d 443 = Ok cert ->
  peer_fields L cert = Ok (expiry, iss, sub) ->
  fst (get_cert_info L W d 443 tr)
  = Ok (checked_record L d cert expiry (clock W (length tr + 2)) iss sub).
Proof.
  intros Hcert Hfields. rewrite get_cert_info_eq. unfold peer_cert_of in Hcert.
  destruct (create_default_context W) as [[]|e0]; [|done].
  destruct (create_connection W d 443 10) as [[]|e1]; [|done].
  simpl in Hcert. rewrite Hcert. simpl. by rewrite Hfields.
Qed.
End TimeLeft.

(** X25.  From the certificate to the alert.  When the certificate of a
    domain is read, what the evaluation does with it depends only on the
    time left between now (read after the handshake) and not-after: with
    less than critical_days + 1 whole days left, expired certificates
    included, the domain gets a critical alert and is marked for renewal;
    from there up to less than warning_days + 1 days it gets a warning
    alone; beyond both it gets nothing.  With the defaults a certificate
    with 7 days and 23 hours left is already critical. *)
Theorem X25_alert_level_by_time_left :
  forall (L : Lib) (W : World) (config : Config) (d : string) (tr : list event)
         (cert : PeerCert.t) (expiry : Z) (iss sub : gmap string string),
    peer_cert_of W d 443 = Ok cert ->
    peer_fields L cert = Ok (expiry, iss, sub) ->
    exists r alerts renewals,
      fst (get_cert_info L W d 443 tr) = Ok r
      ∧ analyze_results config [r] = Ok (alerts, renewals)
      ∧ let left := expiry - clock W (length tr + 2) in
        let critical_until := us_per_day * (critical_days config + 1) in
        let warning_until := us_per_day * (warning_days config + 1) in
        (left < critical_until -> alerts = [critical_alert r] ∧ renewals = [d])
        ∧ (critical_until <= left < warning_until ->
           alerts = [warning_alert r] ∧ renewals = [])
        ∧ (critical_until <= left -> warning_until <= left ->
           alerts = [] ∧ renewals = []).
Proof.
  intros L W config d tr cert expiry iss sub Hcert Hfields.
  set (now := clock W (length tr + 2)).
  set (r := checked_record L d cert expiry now iss sub).
  pose proof (days_within (expiry - now) (critical_days config)) as Hcrit.
  pose proof (days_within (expiry - now) (warning_days config)) as Hwarn.
  assert (Hdays : days_until_expiry r = (expiry - now) `div` us_per_day) by done.
  rewrite <- Hdays in Hcrit, Hwarn.
  pose proof (analyze_valid_single config r eq_refl) as Han.
  destruct (Z.leb_spec (days_until_expiry r) (critical_days config)) as [Hc|Hc].
  - exists r, [critical_alert r], [domain r].
    split; [by apply get_cert_info_checked|]. split; [done|]. cbv zeta.
    split; [done|]. split; lia.
  - destruct (Z.leb_spec (days_until_expiry r) (warning_days config)) as [Hw|Hw].
    + exists r, [warning_alert r], [].
      split; [by apply get_cert_info_checked|]. split; [done|]. cbv zeta.
      split; [lia|]. split; [done|]. lia.
    + exists r, [], [].
      split; [by apply get_cert_info_checked|]. split; [done|]. cbv zeta.
      split; [lia|]. split; [lia|]. done.
Qed.

(** X25 on the healthy host, two and a half days before expiry. *)
Lemma X25_alert_level_by_time_left_witness :
  exists r alerts renewals,
    fst (get_cert_info Samples.lib Samples.healthy "a.example" 443 []) = Ok r
    ∧ analyze_results Hosts.bare_log_config [r] = Ok (alerts, renewals)
    ∧ let left := 1893456000000000 - clock Samples.healthy (length (@nil event) + 2) in
      let critical_until := us_per_day * (critical_days Hosts.bare_log_config + 1) in
      let warning_until := us_per_day * (warning_days Hosts.bare_log_config + 1) in
      (left < critical_until -> alerts = [critical_alert r] ∧ renewals = ["a.example"])
      ∧ (critical_until <= left < warning_until ->
         alerts = [warning_alert r] ∧ renewals = [])
      ∧ (critical_until <= left -> warning_until <= left ->
         alerts = [] ∧ renewals = []).
Proof.
  eapply (X25_alert_level_by_time_left Samples.lib Samples.healthy
            Hosts.bare_log_config "a.example" [] (Samples.peer "a.example"));
    reflexivity.
Defined.

(** ** A log file without a directory *)

Lemma upto_last_slash_bare p : has_slash p = false -> upto_last_slash p = "".
Proof.
  destruct p as [|a p]; [done|]. simpl.
  destruct (Ascii.eqb a slash); [done|]. simpl. by intros ->.
Qed.

Lemma dirname_bare p : has_slash p = false -> dirname p = "".
Proof. intros Hp. unfold dirname. by rewrite (upto_last_slash_bare p Hp). Qed.

(** X26.  A log file named without a directory is never written: its
    directory name is the empty path, and when creating that path raises,
    as os.makedirs does, the log step appends nothing and prints its
    warning, on every run. *)
Theorem X26_bare_log_file_name_is_never_written :
  forall (L : Lib) (H : Host) (config : Config) (results : list CertRecord)
         (alerts : list Alert.t) (tr : list effect) (e : exn),
    has_slash (log_file config) = false ->
    makedirs H "" = Raise e ->
    log_results L H config results alerts tr
    = (Ok tt,
       tr ++ [MakeDirs "";
              Base (EPrint ("Warning: Could not write to log file: " +:+ str_exn e))])
    ∧ writes (snd (log_results L H config results alerts tr))
      = writes tr ++ [MakeDirs ""].
Proof.
  intros L H config results alerts tr e Hbare Hraise.
  destruct (log_results_run L H config results alerts tr) as (suffix & Hrun & Hs).
  cbv zeta in Hs. rewrite (dirname_bare _ Hbare), Hraise in Hs. subst suffix.
  rewrite Hrun. split; [done|]. simpl. by rewrite writes_app.
Qed.

(** X26 for the log file "ssl-monitor.log". *)
Lemma X26_bare_log_file_name_is_never_written_witness :
  log_results Samples.lib Hosts.posix Hosts.bare_log_config [] [] []
  = (Ok tt,
     [] ++ [MakeDirs "";
            Base (EPrint ("Warning: Could not write to log file: "
                          +:+ str_exn (LibError "FileNotFoundError"
                                         "[Errno 2] No such file or directory: ''")))])
  ∧ writes (snd (log_results Samples.lib Hosts.posix Hosts.bare_log_config [] [] []))
    = writes [] ++ [MakeDirs ""].
Proof.
  apply (X26_bare_log_file_name_is_never_written Samples.lib Hosts.posix
           Hosts.bare_log_config [] [] []); reflexivity.
Defined.
